(** * Mosaic-RAK gateway: the LoRa session manager

    A shallow embedding of [src/lora_manager.cpp] (with the packet layouts of
    [src/protocol.h] and the limits of [include/config.h]) and the properties
    of its registry, discovery, pairing and persistence code; then the text
    framing of the modem link, the firmware of the node at the other end
    ([node_firmware.ino]) and the node commands [main.cpp] takes from MQTT,
    with the properties of the two ends working together.

    Conventions.  A [uint8_t] / [uint32_t] value is a [Z]; where the C++ code
    wraps, the wrap-around is written out ([u8], [u32]).  A [uint8_t[6]] MAC
    is a [list Z] read through [memcpy] / [memcmp].  [millis()] is an input of
    every operation that reads the clock.  Everything the manager does to the
    outside (callbacks, [saveNodes], radio transmissions) is appended to the
    [_events] trace carried in the manager state. *)

From Stdlib Require Import ZArith List Bool Lia String Ascii DecimalString.
From stdpp Require Import base list.
Import ListNotations.
Local Open Scope Z_scope.

(** ** protocol.h *)

Module Protocol.

Definition PKG_HELLO     : Z := 0x01.
Definition PKG_WELCOME   : Z := 0x02.
Definition PKG_ACK       : Z := 0x03.
Definition PKG_DATA      : Z := 0x04.
Definition PKG_CMD       : Z := 0x05.
Definition PKG_CONFIG    : Z := 0x06.
Definition PKG_HEARTBEAT : Z := 0x07.

Definition DEV_TYPE_UNKNOWN   : Z := 0x00.
Definition DEV_TYPE_RELAY_2CH : Z := 0x01.
Definition DEV_TYPE_RELAY_4CH : Z := 0x02.
Definition DEV_TYPE_SENSOR    : Z := 0x03.
Definition DEV_TYPE_GATEWAY   : Z := 0xFF.

Definition ERR_NONE : Z := 0x00.

Definition NODE_ID_UNASSIGNED : Z := 0x00.
Definition NODE_ID_BROADCAST  : Z := 0xFF.

Definition MAX_PACKET_SIZE : Z := 32.
Definition MAC_ADDR_LEN : nat := 6.

(** Packed packet structures. *)
Record HelloPacket_t := mkHello {
  hello_type : Z;
  hello_macAddr : list Z;
  hello_deviceType : Z;
  hello_fwVersion : Z
}.

Record WelcomePacket_t := mkWelcome {
  welcome_type : Z;
  welcome_targetMac : list Z;
  welcome_assignedID : Z;
  welcome_reserved : Z
}.

Record AckPacket_t := mkAck {
  ack_type : Z;
  ack_nodeID : Z;
  ack_ackType : Z;
  ack_status : Z
}.

Record DataPacket_t := mkData {
  data_type : Z;
  data_nodeID : Z;
  data_relayStatus : Z;
  data_rssi : Z;
  data_snr : Z;
  data_batteryLevel : Z;
  data_uptime : Z
}.

Record HeartbeatPacket_t := mkHeartbeat {
  hb_type : Z;
  hb_nodeID : Z;
  hb_relayStatus : Z;
  hb_errorFlags : Z;
  hb_seqNum : Z
}.

(** [sizeof] of the packed structures. *)
Definition sizeof_HelloPacket_t     : Z := 9.
Definition sizeof_WelcomePacket_t   : Z := 9.
Definition sizeof_AckPacket_t       : Z := 4.
Definition sizeof_DataPacket_t      : Z := 10.
Definition sizeof_HeartbeatPacket_t : Z := 6.

End Protocol.
Export Protocol.

(** ** config.h *)

Definition LORA_TX_TIMEOUT      : Z := 1000.
Definition LORA_SCAN_DURATION   : Z := 60000.
Definition LORA_PAIRING_TIMEOUT : Z := 10000.
Definition MAX_NODES            : Z := 32.
Definition MAX_DISCOVERED_NODES : Z := 16.

(** [NODE_OFFLINE_THRESHOLD] of lora_manager.cpp. *)
Definition NODE_OFFLINE_THRESHOLD : Z := 120000.

(** ** Machine integers and memory blocks *)

Definition u8 (z : Z) : Z := z mod 256.
Definition u32 (z : Z) : Z := z mod 2 ^ 32.

(** A value read as [int8_t] from a byte. *)
Definition i8 (z : Z) : Z := if u8 z <? 128 then u8 z else u8 z - 256.

Definition is_u8 (z : Z) : Prop := 0 <= z < 256.

(** [memcpy(dst, src, n)]: the [n] bytes that end up in [dst]. *)
Definition memcpy (src : list Z) (n : nat) : list Z :=
  map (fun i => nth i src 0) (seq 0 n).

(** [memset(dst, 0, n)]. *)
Definition memset0 (n : nat) : list Z := repeat 0 n.

(** [memcmp(a, b, n)]: zero when the first [n] bytes agree, otherwise the
    difference of the first pair of bytes that differ. *)
Fixpoint memcmp (a b : list Z) (n : nat) : Z :=
  match n with
  | O => 0
  | S n' =>
      let x := hd 0 a in
      let y := hd 0 b in
      if x =? y then memcmp (tl a) (tl b) n' else x - y
  end.

(** ** MAC formatting: [macToString] and [stringToMAC] *)

Module MacText.

Local Open Scope char_scope.

(** One uppercase hexadecimal digit, as [%X] prints it. *)
Definition hex_upper (d : Z) : ascii :=
  nth (Z.to_nat d)
      ["0"; "1"; "2"; "3"; "4"; "5"; "6"; "7";
       "8"; "9"; "A"; "B"; "C"; "D"; "E"; "F"] "0".

(** The digits of [v] in base 16, most significant first; at least one. *)
Fixpoint hex_digits (fuel : nat) (v : Z) (acc : list ascii) : list ascii :=
  match fuel with
  | O => acc
  | S f =>
      let acc' := hex_upper (v mod 16) :: acc in
      if (v / 16 =? 0)%Z then acc' else hex_digits f (v / 16) acc'
  end.

(** [%02X] applied to an [unsigned int]: at most eight digits, padded with
    zeros on the left to a width of two. *)
Definition fmt_02X (v : Z) : list ascii :=
  let ds := hex_digits 8 (u32 v) [] in
  repeat "0" (2 - length ds)%nat ++ ds.

Fixpoint string_of_chars (l : list ascii) : string :=
  match l with
  | [] => EmptyString
  | c :: r => String c (string_of_chars r)
  end.

Fixpoint string_take (n : nat) (s : string) : string :=
  match n, s with
  | S n', String c r => String c (string_take n' r)
  | _, _ => EmptyString
  end.

(** [snprintf(str, sizeof(str), "%02X:%02X:%02X:%02X:%02X:%02X", mac[0..5])]
    into [char str[18]]: at most 17 characters are kept. *)
Definition macToString (mac : list Z) : string :=
  let b i := fmt_02X (nth i mac 0) in
  string_take 17
    (string_of_chars
       (b 0%nat ++ ":" :: b 1%nat ++ ":" :: b 2%nat ++ ":" ::
        b 3%nat ++ ":" :: b 4%nat ++ ":" :: b 5%nat)).

(** [isspace]. *)
Definition is_space (c : ascii) : bool :=
  let n := nat_of_ascii c in
  (n =? 32)%nat || ((9 <=? n)%nat && (n <=? 13)%nat).

(** The value of a hexadecimal digit of either case. *)
Definition hex_val (c : ascii) : option Z :=
  let n := Z.of_nat (nat_of_ascii c) in
  if ((48 <=? n) && (n <=? 57))%Z then Some (n - 48)
  else if ((65 <=? n) && (n <=? 70))%Z then Some (n - 55)
  else if ((97 <=? n) && (n <=? 102))%Z then Some (n - 87)
  else None.

Fixpoint skip_spaces (s : string) : string :=
  match s with
  | String c r => if is_space c then skip_spaces r else s
  | EmptyString => s
  end.

(** The longest run of hexadecimal digits at the head of [s], accumulated
    into [acc]; the rest of the input is returned with it. *)
Fixpoint scan_hex_digits (s : string) (acc : Z) : Z * string :=
  match s with
  | String c r =>
      match hex_val c with
      | Some d => scan_hex_digits r (acc * 16 + d)
      | None => (acc, s)
      end
  | EmptyString => (acc, s)
  end.

Definition starts_with_hex_digit (s : string) : bool :=
  match s with
  | String c _ => match hex_val c with Some _ => true | None => false end
  | EmptyString => false
  end.

(** [ULONG_MAX] of a 32-bit [unsigned long]. *)
Definition ULONG_MAX : Z := 2 ^ 32 - 1.

(** One [%x] conversion of [sscanf]: leading white space, an optional sign,
    an optional [0x] prefix, then at least one hexadecimal digit; a prefix
    with no digit behind it is a matching failure.  The digits are converted
    as [strtoul] converts them: a value that does not fit an
    [unsigned long] gives [ULONG_MAX], and a sign negates a value that fits
    modulo 2^32.  The result is stored into an [unsigned int]. *)
Definition scan_x (s : string) : option (Z * string) :=
  let s1 := skip_spaces s in
  let '(neg, s2) :=
    match s1 with
    | String "-" r => (true, r)
    | String "+" r => (false, r)
    | _ => (false, s1)
    end in
  let s3 :=
    match s2 with
    | String "0" (String "x" r) => r
    | String "0" (String "X" r) => r
    | _ => s2
    end in
  if starts_with_hex_digit s3 then
    let '(v, rest) := scan_hex_digits s3 0 in
    Some (if (ULONG_MAX <? v)%Z then ULONG_MAX
          else u32 (if neg then - v else v), rest)
  else None.

(** [sscanf(str, "%x:%x:%x:%x:%x:%x", ...)] with [n] conversions left: the
    values assigned, in order.  [sscanf] returns their number. *)
Fixpoint sscanf_hex_colon (n : nat) (s : string) : list Z :=
  match n with
  | O => []
  | S n' =>
      match scan_x s with
      | None => []
      | Some (v, rest) =>
          v :: match n' with
               | O => []
               | S _ =>
                   match rest with
                   | String ":" r => sscanf_hex_colon n' r
                   | _ => []
                   end
               end
      end
  end.

(** [stringToMAC(str, mac)]: the result and the contents of [mac] after the
    call.  [mac] is written only when all six fields were read. *)
Definition stringToMAC (str : string) (mac : list Z) : bool * list Z :=
  if (String.length str <? 17)%nat then (false, mac)
  else
    let values := sscanf_hex_colon 6 str in
    if negb (length values =? 6)%nat then (false, mac)
    else (true, map u8 values).

End MacText.
Export MacText.

(** ** lora_manager.h: the data model *)

Record DiscoveredNode := mkDiscoveredNode {
  d_macAddr : list Z;
  d_deviceType : Z;
  d_fwVersion : Z;
  d_rssi : Z;
  d_snr : Z;
  d_discoveredAt : Z;
  d_valid : bool
}.

Record RegisteredNode := mkRegisteredNode {
  nodeID : Z;
  macAddr : list Z;
  deviceType : Z;
  name : string;
  relayStatus : Z;
  lastRSSI : Z;
  lastSNR : Z;
  uptime : Z;
  lastSeen : Z;
  online : bool;
  valid : bool
}.

Inductive PairingState_t :=
| PAIR_IDLE
| PAIR_WAITING_ACK
| PAIR_SUCCESS
| PAIR_TIMEOUT
| PAIR_FAILED.

Definition PairingState_eqb (a b : PairingState_t) : bool :=
  match a, b with
  | PAIR_IDLE, PAIR_IDLE
  | PAIR_WAITING_ACK, PAIR_WAITING_ACK
  | PAIR_SUCCESS, PAIR_SUCCESS
  | PAIR_TIMEOUT, PAIR_TIMEOUT
  | PAIR_FAILED, PAIR_FAILED => true
  | _, _ => false
  end.

(** What the manager does to its surroundings.  The three callbacks are host
    code ([std::function] members); a call of one is recorded with its
    arguments. *)
Inductive Event :=
| EvPairingCallback (id : Z) (success : bool)
| EvNodeDiscoveredCallback (node : DiscoveredNode)
| EvNodeDataCallback (id : Z) (pkt : DataPacket_t)
| EvSaveNodes (written : bool)
| EvTransmit (payload : list Z).

(** A JSON document as ArduinoJson holds it. *)
Unset Elimination Schemes.
Inductive Json :=
| JNull
| JBool (b : bool)
| JNum (z : Z)
| JStr (s : string)
| JArr (items : list Json)
| JObj (members : list (string * Json)).
Set Elimination Schemes.

(** The file [NODES_FILE_PATH] on LittleFS, by what [LittleFS.exists] and
    [deserializeJson] make of it. *)
Inductive NodesFile :=
| NoFile
| CorruptFile
| JsonFile (doc : Json).

(** The members of [class LoRaManager] (the receive buffer of the framing
    layer left out), whether each callback is set, and the surroundings: the
    nodes file, whether [LittleFS.open] fails, and the trace of events. *)
Record LoRaManager := mkLoRaManager {
  _serial : bool;
  _initialized : bool;
  _scanMode : bool;
  _scanStartTime : Z;
  _scanDuration : Z;
  _discoveredNodes : list DiscoveredNode;
  _pairingState : PairingState_t;
  _pairingMAC : list Z;
  _pairingNodeID : Z;
  _pairingStartTime : Z;
  _registeredNodes : list RegisteredNode;
  _nodeDataCallback : bool;
  _nodeDiscoveredCallback : bool;
  _pairingCallback : bool;
  _lastNodeCheck : Z;
  _nodesFile : NodesFile;
  _fsOpenFails : bool;
  _events : list Event
}.

Definition set_serial (v : bool) (m : LoRaManager) : LoRaManager :=
  mkLoRaManager v (_initialized m) (_scanMode m) (_scanStartTime m) (_scanDuration m)
    (_discoveredNodes m) (_pairingState m) (_pairingMAC m)
    (_pairingNodeID m) (_pairingStartTime m) (_registeredNodes m)
    (_nodeDataCallback m) (_nodeDiscoveredCallback m) (_pairingCallback m)
    (_lastNodeCheck m) (_nodesFile m) (_fsOpenFails m) (_events m).

Definition set_initialized (v : bool) (m : LoRaManager) : LoRaManager :=
  mkLoRaManager (_serial m) v (_scanMode m) (_scanStartTime m) (_scanDuration m)
    (_discoveredNodes m) (_pairingState m) (_pairingMAC m)
    (_pairingNodeID m) (_pairingStartTime m) (_registeredNodes m)
    (_nodeDataCallback m) (_nodeDiscoveredCallback m) (_pairingCallback m)
    (_lastNodeCheck m) (_nodesFile m) (_fsOpenFails m) (_events m).

Definition set_scanMode (v : bool) (m : LoRaManager) : LoRaManager :=
  mkLoRaManager (_serial m) (_initialized m) v (_scanStartTime m) (_scanDuration m)
    (_discoveredNodes m) (_pairingState m) (_pairingMAC m)
    (_pairingNodeID m) (_pairingStartTime m) (_registeredNodes m)
    (_nodeDataCallback m) (_nodeDiscoveredCallback m) (_pairingCallback m)
    (_lastNodeCheck m) (_nodesFile m) (_fsOpenFails m) (_events m).

Definition set_scanStartTime (v : Z) (m : LoRaManager) : LoRaManager :=
  mkLoRaManager (_serial m) (_initialized m) (_scanMode m) v (_scanDuration m)
    (_discoveredNodes m) (_pairingState m) (_pairingMAC m)
    (_pairingNodeID m) (_pairingStartTime m) (_registeredNodes m)
    (_nodeDataCallback m) (_nodeDiscoveredCallback m) (_pairingCallback m)
    (_lastNodeCheck m) (_nodesFile m) (_fsOpenFails m) (_events m).

Definition set_scanDuration (v : Z) (m : LoRaManager) : LoRaManager :=
  mkLoRaManager (_serial m) (_initialized m) (_scanMode m) (_scanStartTime m) v
    (_discoveredNodes m) (_pairingState m) (_pairingMAC m)
    (_pairingNodeID m) (_pairingStartTime m) (_registeredNodes m)
    (_nodeDataCallback m) (_nodeDiscoveredCallback m) (_pairingCallback m)
    (_lastNodeCheck m) (_nodesFile m) (_fsOpenFails m) (_events m).

Definition set_discoveredNodes (v : list DiscoveredNode) (m : LoRaManager) : LoRaManager :=
  mkLoRaManager (_serial m) (_initialized m) (_scanMode m) (_scanStartTime m)
    (_scanDuration m) v (_pairingState m) (_pairingMAC m)
    (_pairingNodeID m) (_pairingStartTime m) (_registeredNodes m)
    (_nodeDataCallback m) (_nodeDiscoveredCallback m) (_pairingCallback m)
    (_lastNodeCheck m) (_nodesFile m) (_fsOpenFails m) (_events m).

Definition set_pairingState (v : PairingState_t) (m : LoRaManager) : LoRaManager :=
  mkLoRaManager (_serial m) (_initialized m) (_scanMode m) (_scanStartTime m)
    (_scanDuration m) (_discoveredNodes m) v (_pairingMAC m)
    (_pairingNodeID m) (_pairingStartTime m) (_registeredNodes m)
    (_nodeDataCallback m) (_nodeDiscoveredCallback m) (_pairingCallback m)
    (_lastNodeCheck m) (_nodesFile m) (_fsOpenFails m) (_events m).

Definition set_pairingMAC (v : list Z) (m : LoRaManager) : LoRaManager :=
  mkLoRaManager (_serial m) (_initialized m) (_scanMode m) (_scanStartTime m)
    (_scanDuration m) (_discoveredNodes m) (_pairingState m) v
    (_pairingNodeID m) (_pairingStartTime m) (_registeredNodes m)
    (_nodeDataCallback m) (_nodeDiscoveredCallback m) (_pairingCallback m)
    (_lastNodeCheck m) (_nodesFile m) (_fsOpenFails m) (_events m).

Definition set_pairingNodeID (v : Z) (m : LoRaManager) : LoRaManager :=
  mkLoRaManager (_serial m) (_initialized m) (_scanMode m) (_scanStartTime m)
    (_scanDuration m) (_discoveredNodes m) (_pairingState m)
    (_pairingMAC m) v (_pairingStartTime m) (_registeredNodes m)
    (_nodeDataCallback m) (_nodeDiscoveredCallback m) (_pairingCallback m)
    (_lastNodeCheck m) (_nodesFile m) (_fsOpenFails m) (_events m).

Definition set_pairingStartTime (v : Z) (m : LoRaManager) : LoRaManager :=
  mkLoRaManager (_serial m) (_initialized m) (_scanMode m) (_scanStartTime m)
    (_scanDuration m) (_discoveredNodes m) (_pairingState m)
    (_pairingMAC m) (_pairingNodeID m) v (_registeredNodes m)
    (_nodeDataCallback m) (_nodeDiscoveredCallback m) (_pairingCallback m)
    (_lastNodeCheck m) (_nodesFile m) (_fsOpenFails m) (_events m).

Definition set_registeredNodes (v : list RegisteredNode) (m : LoRaManager) : LoRaManager :=
  mkLoRaManager (_serial m) (_initialized m) (_scanMode m) (_scanStartTime m)
    (_scanDuration m) (_discoveredNodes m) (_pairingState m)
    (_pairingMAC m) (_pairingNodeID m) (_pairingStartTime m) v
    (_nodeDataCallback m) (_nodeDiscoveredCallback m) (_pairingCallback m)
    (_lastNodeCheck m) (_nodesFile m) (_fsOpenFails m) (_events m).

Definition set_nodeDataCallback (v : bool) (m : LoRaManager) : LoRaManager :=
  mkLoRaManager (_serial m) (_initialized m) (_scanMode m) (_scanStartTime m)
    (_scanDuration m) (_discoveredNodes m) (_pairingState m)
    (_pairingMAC m) (_pairingNodeID m) (_pairingStartTime m)
    (_registeredNodes m) v (_nodeDiscoveredCallback m) (_pairingCallback m)
    (_lastNodeCheck m) (_nodesFile m) (_fsOpenFails m) (_events m).

Definition set_nodeDiscoveredCallback (v : bool) (m : LoRaManager) : LoRaManager :=
  mkLoRaManager (_serial m) (_initialized m) (_scanMode m) (_scanStartTime m)
    (_scanDuration m) (_discoveredNodes m) (_pairingState m)
    (_pairingMAC m) (_pairingNodeID m) (_pairingStartTime m)
    (_registeredNodes m) (_nodeDataCallback m) v (_pairingCallback m)
    (_lastNodeCheck m) (_nodesFile m) (_fsOpenFails m) (_events m).

Definition set_pairingCallback (v : bool) (m : LoRaManager) : LoRaManager :=
  mkLoRaManager (_serial m) (_initialized m) (_scanMode m) (_scanStartTime m)
    (_scanDuration m) (_discoveredNodes m) (_pairingState m)
    (_pairingMAC m) (_pairingNodeID m) (_pairingStartTime m)
    (_registeredNodes m) (_nodeDataCallback m) (_nodeDiscoveredCallback m)
    v (_lastNodeCheck m) (_nodesFile m) (_fsOpenFails m) (_events m).

Definition set_lastNodeCheck (v : Z) (m : LoRaManager) : LoRaManager :=
  mkLoRaManager (_serial m) (_initialized m) (_scanMode m) (_scanStartTime m)
    (_scanDuration m) (_discoveredNodes m) (_pairingState m)
    (_pairingMAC m) (_pairingNodeID m) (_pairingStartTime m)
    (_registeredNodes m) (_nodeDataCallback m) (_nodeDiscoveredCallback m)
    (_pairingCallback m) v (_nodesFile m) (_fsOpenFails m) (_events m).

Definition set_nodesFile (v : NodesFile) (m : LoRaManager) : LoRaManager :=
  mkLoRaManager (_serial m) (_initialized m) (_scanMode m) (_scanStartTime m)
    (_scanDuration m) (_discoveredNodes m) (_pairingState m)
    (_pairingMAC m) (_pairingNodeID m) (_pairingStartTime m)
    (_registeredNodes m) (_nodeDataCallback m) (_nodeDiscoveredCallback m)
    (_pairingCallback m) (_lastNodeCheck m) v (_fsOpenFails m) (_events m).

Definition set_events (v : list Event) (m : LoRaManager) : LoRaManager :=
  mkLoRaManager (_serial m) (_initialized m) (_scanMode m) (_scanStartTime m)
    (_scanDuration m) (_discoveredNodes m) (_pairingState m)
    (_pairingMAC m) (_pairingNodeID m) (_pairingStartTime m)
    (_registeredNodes m) (_nodeDataCallback m) (_nodeDiscoveredCallback m)
    (_pairingCallback m) (_lastNodeCheck m) (_nodesFile m) (_fsOpenFails m)
    v.

(** ** lora_manager.cpp: the manager *)

Local Open Scope string_scope.
Local Open Scope Z_scope.

(** The state the constructor leaves. *)
Definition LoRaManager_new : LoRaManager :=
  {| _serial := false;
     _initialized := false;
     _scanMode := false;
     _scanStartTime := 0;
     _scanDuration := LORA_SCAN_DURATION;
     _discoveredNodes := [];
     _pairingState := PAIR_IDLE;
     _pairingMAC := memset0 MAC_ADDR_LEN;
     _pairingNodeID := 0;
     _pairingStartTime := 0;
     _registeredNodes := [];
     _nodeDataCallback := false;
     _nodeDiscoveredCallback := false;
     _pairingCallback := false;
     _lastNodeCheck := 0;
     _nodesFile := NoFile;
     _fsOpenFails := false;
     _events := [] |}.

Definition emit (e : Event) (m : LoRaManager) : LoRaManager :=
  set_events (_events m ++ [e]) m.

Definition onNodeData (m : LoRaManager) := set_nodeDataCallback true m.
Definition onNodeDiscovered (m : LoRaManager) := set_nodeDiscoveredCallback true m.
Definition onPairingComplete (m : LoRaManager) := set_pairingCallback true m.

(** *** Persistence: [saveNodes] *)

Definition node_to_json (node : RegisteredNode) : Json :=
  JObj [("id", JNum (nodeID node));
        ("mac", JStr (macToString (macAddr node)));
        ("type", JNum (deviceType node));
        ("name", JStr (name node))].

Definition nodes_document (nodes : list RegisteredNode) : Json :=
  JObj [("nodes", JArr (map node_to_json (List.filter (fun n => valid n) nodes)))].

Definition saveNodes (m : LoRaManager) : bool * LoRaManager :=
  let doc := nodes_document (_registeredNodes m) in
  if _fsOpenFails m then (false, emit (EvSaveNodes false) m)
  else (true, emit (EvSaveNodes true) (set_nodesFile (JsonFile doc) m)).

(** *** Registry lookups and ID allocation *)

Definition _isNodeRegistered (mac : list Z) (m : LoRaManager) : bool :=
  existsb (fun node => valid node && (memcmp (macAddr node) mac MAC_ADDR_LEN =? 0))
          (_registeredNodes m).

Definition _isDuplicateDiscovered (mac : list Z) (m : LoRaManager) : bool :=
  existsb (fun node => memcmp (d_macAddr node) mac MAC_ADDR_LEN =? 0)
          (_discoveredNodes m).

(** [bool used[256]] after the reserved entries and the registry are marked. *)
Definition used_table (nodes : list RegisteredNode) : list bool :=
  fold_left
    (fun used node =>
       if valid node then <[Z.to_nat (nodeID node) := true]> used else used)
    nodes
    (<[255%nat := true]> (<[0%nat := true]> (replicate 256 false))).

(** [for (uint8_t id = 1; id < 255; id++) if (!used[id]) return id;] with
    [count] iterations left, then [return 0]. *)
Fixpoint first_free (used : list bool) (id : Z) (count : nat) : Z :=
  match count with
  | O => 0
  | S count' =>
      match used !! Z.to_nat id with
      | Some false => id
      | _ => first_free used (id + 1) count'
      end
  end.

Definition _getNextFreeID (m : LoRaManager) : Z :=
  first_free (used_table (_registeredNodes m)) 1 254.

Definition getNodeByID (id : Z) (m : LoRaManager) : option RegisteredNode :=
  find (fun node => valid node && (nodeID node =? id)) (_registeredNodes m).

Definition getNodeByMAC (mac : list Z) (m : LoRaManager) : option RegisteredNode :=
  find (fun node => valid node && (memcmp (macAddr node) mac MAC_ADDR_LEN =? 0))
       (_registeredNodes m).

(** Writing through the pointer [getNodeByID] returns: the first entry that
    satisfies [p] is replaced by its image under [f]. *)
Fixpoint update_first {A} (p : A -> bool) (f : A -> A) (l : list A) : list A :=
  match l with
  | [] => []
  | x :: r => if p x then f x :: r else x :: update_first p f r
  end.

(** [_registeredNodes.erase(it)] at the first entry whose ID is [id]. *)
Fixpoint erase_first (id : Z) (l : list RegisteredNode) : option (list RegisteredNode) :=
  match l with
  | [] => None
  | x :: r =>
      if nodeID x =? id then Some r
      else match erase_first id r with
           | Some r' => Some (x :: r')
           | None => None
           end
  end.

Definition removeNode (id : Z) (m : LoRaManager) : bool * LoRaManager :=
  match erase_first id (_registeredNodes m) with
  | Some nodes => (true, snd (saveNodes (set_registeredNodes nodes m)))
  | None => (false, m)
  end.

Definition getOnlineNodeCount (m : LoRaManager) : Z :=
  u8 (Z.of_nat (length (List.filter (fun node => valid node && online node)
                                    (_registeredNodes m)))).

Definition getRegisteredNodeCount (m : LoRaManager) : Z :=
  u8 (Z.of_nat (length (_registeredNodes m))).

Definition _updateNodeOnlineStatus (now : Z) (m : LoRaManager) : LoRaManager :=
  set_registeredNodes
    (map (fun node =>
            if valid node && online node
               && (NODE_OFFLINE_THRESHOLD <? u32 (now - lastSeen node))
            then mkRegisteredNode (nodeID node) (macAddr node) (deviceType node)
                   (name node) (relayStatus node) (lastRSSI node) (lastSNR node)
                   (uptime node) (lastSeen node) false (valid node)
            else node)
         (_registeredNodes m))
    m.

(** *** Transmit path *)

(** [_sendPacket]: the modem's answer to [AT+PSEND] is the input [modem_ok]. *)
Definition _sendPacket (modem_ok : bool) (data : list Z) (m : LoRaManager)
  : bool * LoRaManager :=
  if negb (_serial m) || negb (_initialized m) then (false, m)
  else (modem_ok, emit (EvTransmit data) m).

Definition WelcomePacket_bytes (pkt : WelcomePacket_t) : list Z :=
  welcome_type pkt :: memcpy (welcome_targetMac pkt) MAC_ADDR_LEN
    ++ [welcome_assignedID pkt; welcome_reserved pkt].

Definition _sendWelcome (modem_ok : bool) (mac : list Z) (id : Z) (m : LoRaManager)
  : bool * LoRaManager :=
  let pkt := mkWelcome PKG_WELCOME (memcpy mac MAC_ADDR_LEN) id 0 in
  _sendPacket modem_ok (WelcomePacket_bytes pkt) m.

Definition _sendCommand (modem_ok : bool) (id cmdType param1 param2 : Z)
  (m : LoRaManager) : bool * LoRaManager :=
  _sendPacket modem_ok [PKG_CMD; id; cmdType; param1; param2] m.

(** *** Scan mode *)

Definition clearDiscoveredNodes (m : LoRaManager) : LoRaManager :=
  set_discoveredNodes [] m.

Definition startScan (now duration : Z) (m : LoRaManager) : LoRaManager :=
  clearDiscoveredNodes
    (set_scanDuration duration (set_scanStartTime now (set_scanMode true m))).

Definition stopScan (m : LoRaManager) : LoRaManager := set_scanMode false m.

Definition discovered_of_hello (now : Z) (pkt : HelloPacket_t) (rssi snr : Z)
  : DiscoveredNode :=
  {| d_macAddr := memcpy (hello_macAddr pkt) MAC_ADDR_LEN;
     d_deviceType := hello_deviceType pkt;
     d_fwVersion := hello_fwVersion pkt;
     d_rssi := rssi;
     d_snr := snr;
     d_discoveredAt := now;
     d_valid := true |}.

Definition _addDiscoveredNode (now : Z) (pkt : HelloPacket_t) (rssi snr : Z)
  (m : LoRaManager) : LoRaManager :=
  if MAX_DISCOVERED_NODES <=? Z.of_nat (length (_discoveredNodes m)) then m
  else
    let node := discovered_of_hello now pkt rssi snr in
    let m1 := set_discoveredNodes (_discoveredNodes m ++ [node]) m in
    if _nodeDiscoveredCallback m1 then emit (EvNodeDiscoveredCallback node) m1
    else m1.

(** *** Packet handlers *)

Definition _handleHello (now : Z) (pkt : HelloPacket_t) (rssi snr : Z)
  (m : LoRaManager) : LoRaManager :=
  if negb (_scanMode m) then m
  else if _isDuplicateDiscovered (hello_macAddr pkt) m then m
  else if _isNodeRegistered (hello_macAddr pkt) m then m
  else _addDiscoveredNode now pkt rssi snr m.

(** [snprintf(node.name, sizeof(node.name), "Node_%d", id)]. *)
Definition node_name (id : Z) : string :=
  string_take 31 ("Node_" ++ NilZero.string_of_int (Z.to_int id)).

(** The device type backfilled from the discovered list. *)
Definition paired_deviceType (m : LoRaManager) : Z :=
  match find (fun dNode => memcmp (d_macAddr dNode) (_pairingMAC m) MAC_ADDR_LEN =? 0)
             (_discoveredNodes m) with
  | Some dNode => d_deviceType dNode
  | None => DEV_TYPE_RELAY_2CH
  end.

(** The [RegisteredNode] that [_handleAck] builds on a positive answer. *)
Definition paired_node (now : Z) (m : LoRaManager) : RegisteredNode :=
  {| nodeID := _pairingNodeID m;
     macAddr := memcpy (_pairingMAC m) MAC_ADDR_LEN;
     deviceType := paired_deviceType m;
     name := node_name (_pairingNodeID m);
     relayStatus := 0;
     lastRSSI := 0;
     lastSNR := 0;
     uptime := 0;
     lastSeen := now;
     online := true;
     valid := true |}.

Definition fire_pairing (success : bool) (m : LoRaManager) : LoRaManager :=
  if _pairingCallback m then emit (EvPairingCallback (_pairingNodeID m) success) m
  else m.

Definition _handleAck (now : Z) (pkt : AckPacket_t) (m : LoRaManager) : LoRaManager :=
  if PairingState_eqb (_pairingState m) PAIR_WAITING_ACK
     && (ack_ackType pkt =? PKG_WELCOME)
  then
    let m' :=
      if ack_status pkt =? ERR_NONE then
        let node := paired_node now m in
        let m1 := set_registeredNodes (_registeredNodes m ++ [node]) m in
        let m2 := snd (saveNodes m1) in
        let m3 := set_pairingState PAIR_SUCCESS m2 in
        fire_pairing true m3
      else
        let m1 := set_pairingState PAIR_FAILED m in
        fire_pairing false m1
    in
    set_pairingState PAIR_IDLE m'
  else m.

Definition node_matches (id : Z) (node : RegisteredNode) : bool :=
  valid node && (nodeID node =? id).

Definition _handleData (now : Z) (pkt : DataPacket_t) (m : LoRaManager) : LoRaManager :=
  match getNodeByID (data_nodeID pkt) m with
  | None => m
  | Some _ =>
      let m1 :=
        set_registeredNodes
          (update_first (node_matches (data_nodeID pkt))
             (fun node =>
                mkRegisteredNode (nodeID node) (macAddr node) (deviceType node)
                  (name node) (data_relayStatus pkt) (data_rssi pkt) (data_snr pkt)
                  (data_uptime pkt) now true (valid node))
             (_registeredNodes m))
          m in
      if _nodeDataCallback m1
      then emit (EvNodeDataCallback (data_nodeID pkt) pkt) m1
      else m1
  end.

Definition _handleHeartbeat (now : Z) (pkt : HeartbeatPacket_t) (m : LoRaManager)
  : LoRaManager :=
  match getNodeByID (hb_nodeID pkt) m with
  | None => m
  | Some _ =>
      set_registeredNodes
        (update_first (node_matches (hb_nodeID pkt))
           (fun node =>
              mkRegisteredNode (nodeID node) (macAddr node) (deviceType node)
                (name node) (hb_relayStatus pkt) (lastRSSI node) (lastSNR node)
                (uptime node) now true (valid node))
           (_registeredNodes m))
        m
  end.

(** The casts of [data] to a pointer to a packed packet structure: fields at
    fixed offsets, multi-byte fields little-endian. *)
Definition byte_at (data : list Z) (i : nat) : Z := nth i data 0.

Definition as_HelloPacket (data : list Z) : HelloPacket_t :=
  mkHello (byte_at data 0) (map (byte_at data) (seq 1 MAC_ADDR_LEN))
          (byte_at data 7) (byte_at data 8).

Definition as_AckPacket (data : list Z) : AckPacket_t :=
  mkAck (byte_at data 0) (byte_at data 1) (byte_at data 2) (byte_at data 3).

Definition as_DataPacket (data : list Z) : DataPacket_t :=
  mkData (byte_at data 0) (byte_at data 1) (byte_at data 2)
         (i8 (byte_at data 3)) (i8 (byte_at data 4)) (byte_at data 5)
         (byte_at data 6 + Z.shiftl (byte_at data 7) 8
          + Z.shiftl (byte_at data 8) 16 + Z.shiftl (byte_at data 9) 24).

Definition as_HeartbeatPacket (data : list Z) : HeartbeatPacket_t :=
  mkHeartbeat (byte_at data 0) (byte_at data 1) (byte_at data 2) (byte_at data 3)
              (byte_at data 4 + Z.shiftl (byte_at data 5) 8).

Definition _handlePacket (now : Z) (data : list Z) (m : LoRaManager) : LoRaManager :=
  let len := Z.of_nat (length data) in
  if len <? 1 then m
  else
    let pktType := byte_at data 0 in
    if pktType =? PKG_HELLO then
      if sizeof_HelloPacket_t <=? len
      then _handleHello now (as_HelloPacket data) (-50) 10 m else m
    else if pktType =? PKG_ACK then
      if sizeof_AckPacket_t <=? len
      then _handleAck now (as_AckPacket data) m else m
    else if pktType =? PKG_DATA then
      if sizeof_DataPacket_t <=? len
      then _handleData now (as_DataPacket data) m else m
    else if pktType =? PKG_HEARTBEAT then
      if sizeof_HeartbeatPacket_t <=? len
      then _handleHeartbeat now (as_HeartbeatPacket data) m else m
    else m.

(** *** Pairing *)

Definition startPairing (now : Z) (modem_ok : bool) (mac : list Z) (m : LoRaManager)
  : bool * LoRaManager :=
  if negb (PairingState_eqb (_pairingState m) PAIR_IDLE) then (false, m)
  else if _isNodeRegistered mac m then (false, m)
  else
    let m1 := set_pairingNodeID (_getNextFreeID m) m in
    if _pairingNodeID m1 =? 0 then (false, m1)
    else
      let m2 := set_pairingMAC (memcpy mac MAC_ADDR_LEN) m1 in
      let m3 := set_pairingStartTime now m2 in
      let m4 := set_pairingState PAIR_WAITING_ACK m3 in
      _sendWelcome modem_ok mac (_pairingNodeID m4) m4.

Definition cancelPairing (m : LoRaManager) : LoRaManager :=
  set_pairingNodeID 0
    (set_pairingMAC (memset0 MAC_ADDR_LEN) (set_pairingState PAIR_IDLE m)).

(** *** The update tick *)

(** [_processRxData], with the framing layer's work done: [rx] lists the
    payloads of the [+EVT:RXP2P] lines read in this tick, each with the
    [millis()] value its handler sees.  A payload is cut at
    [MAX_PACKET_SIZE] bytes and an empty one is not dispatched. *)
Definition _processRxData (rx : list (Z * list Z)) (m : LoRaManager) : LoRaManager :=
  fold_left
    (fun m '(t, payload) =>
       let packetData := firstn (Z.to_nat MAX_PACKET_SIZE) payload in
       if 0 <? Z.of_nat (length packetData) then _handlePacket t packetData m
       else m)
    rx m.

Definition pairing_timeout_check (now : Z) (m : LoRaManager) : LoRaManager :=
  if PairingState_eqb (_pairingState m) PAIR_WAITING_ACK then
    if LORA_PAIRING_TIMEOUT <=? u32 (now - _pairingStartTime m) then
      let m1 := set_pairingState PAIR_TIMEOUT m in
      let m2 := fire_pairing false m1 in
      set_pairingState PAIR_IDLE m2
    else m
  else m.

(** [update].  [now] is the value of [millis()] read at the top of the
    tick, which the scan, timeout and sweep-period tests use.
    [sweep_now] is the value [_updateNodeOnlineStatus] reads for itself
    when it runs, after the frames and the pairing callback. *)
Definition update (now : Z) (rx : list (Z * list Z)) (sweep_now : Z)
  (m : LoRaManager) : LoRaManager :=
  if negb (_initialized m) || negb (_serial m) then m
  else
    let m1 := _processRxData rx m in
    let m2 :=
      if _scanMode m1 && (_scanDuration m1 <=? u32 (now - _scanStartTime m1))
      then stopScan m1 else m1 in
    let m3 := pairing_timeout_check now m2 in
    if 5000 <=? u32 (now - _lastNodeCheck m3)
    then _updateNodeOnlineStatus sweep_now (set_lastNodeCheck now m3)
    else m3.

(** *** Persistence: [loadNodes] and [begin] *)

(** [obj[key]]: the member of that name, null when there is none or when
    [v] is not an object. *)
Definition member (key : string) (v : Json) : Json :=
  match v with
  | JObj ms =>
      match find (fun kv => String.eqb (fst kv) key) ms with
      | Some kv => snd kv
      | None => JNull
      end
  | _ => JNull
  end.

(** [v.as<JsonArray>()], iterated: no element when [v] is not an array. *)
Definition as_JsonArray (v : Json) : list Json :=
  match v with
  | JArr items => items
  | _ => []
  end.

(** [v | dflt] for a string default. *)
Definition or_default (v : Json) (dflt : string) : string :=
  match v with
  | JStr s => s
  | _ => dflt
  end.

(** [strlcpy(dst, src, size)]. *)
Definition strlcpy (src : string) (size : nat) : string :=
  string_take (size - 1) src.

Section Persistence.

(** ArduinoJson's conversions of a variant to [uint8_t] and to [String]. *)
Variable as_uint8 : Json -> Z.
Variable as_String : Json -> string.

(** One pass of the loop of [loadNodes].  [stack_mac] is what the bytes of
    the fresh [node.macAddr] hold before [stringToMAC] runs; they stay when
    it fails. *)
Definition node_of_json (stack_mac : list Z) (nodeObj : Json) : RegisteredNode :=
  {| nodeID := as_uint8 (member "id" nodeObj);
     macAddr := snd (stringToMAC (as_String (member "mac" nodeObj)) stack_mac);
     deviceType := as_uint8 (member "type" nodeObj);
     name := strlcpy (or_default (member "name" nodeObj) "Unknown") 32;
     relayStatus := 0;
     lastRSSI := 0;
     lastSNR := 0;
     uptime := 0;
     lastSeen := 0;
     online := false;
     valid := true |}.

Definition loadNodes (stack_mac : list Z) (m : LoRaManager) : bool * LoRaManager :=
  match _nodesFile m with
  | NoFile => (false, m)
  | CorruptFile => (false, m)
  | JsonFile doc =>
      if _fsOpenFails m then (false, m)
      else
        let nodesArray := as_JsonArray (member "nodes" doc) in
        (true, set_registeredNodes (map (node_of_json stack_mac) nodesArray) m)
  end.

(** [begin]: the serial port is taken, the modem configured (its answers
    are not looked at), the nodes loaded, and the manager marked ready. *)
Definition begin (stack_mac : list Z) (m : LoRaManager) : bool * LoRaManager :=
  let m1 := set_serial true m in
  let m2 := snd (loadNodes stack_mac m1) in
  (true, set_initialized true m2).

End Persistence.

(** * The rest of the link: commands, framing, the node and MQTT *)

Local Open Scope list_scope.

(** ** protocol.h: command types *)

Definition CMD_RELAY_SET      : Z := 0x01.
Definition CMD_RELAY_TOGGLE   : Z := 0x02.
Definition CMD_RESET          : Z := 0x03.
Definition CMD_FACTORY_RESET  : Z := 0x04.
Definition CMD_REQUEST_STATUS : Z := 0x05.

Definition ERR_INVALID_CMD   : Z := 0x01.
Definition ERR_INVALID_PARAM : Z := 0x02.

Definition sizeof_CommandPacket_t : Z := 5.

(** ** lora_manager.cpp: the command senders *)

Definition sendRelayCommand (modem_ok : bool) (id relayBitmap : Z) (m : LoRaManager)
  : bool * LoRaManager :=
  _sendCommand modem_ok id CMD_RELAY_SET relayBitmap 0 m.

Definition sendRelayToggle (modem_ok : bool) (id relayNum : Z) (m : LoRaManager)
  : bool * LoRaManager :=
  _sendCommand modem_ok id CMD_RELAY_TOGGLE relayNum 0 m.

Definition requestNodeStatus (modem_ok : bool) (id : Z) (m : LoRaManager)
  : bool * LoRaManager :=
  _sendCommand modem_ok id CMD_REQUEST_STATUS 0 0 m.

Definition sendResetCommand (modem_ok : bool) (id : Z) (m : LoRaManager)
  : bool * LoRaManager :=
  _sendCommand modem_ok id CMD_RESET 0 0 m.

Definition isScanning (m : LoRaManager) : bool := _scanMode m.

(** ** lora_manager.cpp: the framing layer

    The text side of the modem link: what [_sendPacket] writes after
    [AT+PSEND=] and what [_processRxData] makes of the characters it
    reads.  An Arduino [String] is the list of its characters. *)

Module Framing.

Local Open Scope char_scope.

(** [snprintf(hex, sizeof(hex), "%02X", data[i])] into [char hex[3]]. *)
Definition hex_of_byte (b : Z) : list ascii := firstn 2 (fmt_02X b).

(** The hex string [_sendPacket] builds. *)
Definition hex_of_bytes (data : list Z) : list ascii := flat_map hex_of_byte data.

Definition psend_command (data : list Z) : list ascii :=
  list_ascii_of_string "AT+PSEND=" ++ hex_of_bytes data.

(** [String::startsWith]. *)
Fixpoint startsWith (s prefix : list ascii) : bool :=
  match prefix, s with
  | [], _ => true
  | p :: prefix', c :: s' => Ascii.eqb c p && startsWith s' prefix'
  | _ :: _, [] => false
  end.

(** [strchr]: the offset of the first [ch]. *)
Fixpoint find_char (ch : ascii) (s : list ascii) : option nat :=
  match s with
  | [] => None
  | c :: r =>
      if Ascii.eqb c ch then Some O
      else match find_char ch r with
           | Some k => Some (S k)
           | None => None
           end
  end.

(** [String::indexOf(ch, fromIndex)]: -1 when [fromIndex] is not inside the
    string or [ch] does not occur from there on. *)
Definition indexOf (s : list ascii) (ch : ascii) (fromIndex : nat) : Z :=
  if (length s <=? fromIndex)%nat then -1
  else match find_char ch (skipn fromIndex s) with
       | Some k => Z.of_nat (fromIndex + k)
       | None => -1
       end.

(** [String::substring(left, right)]. *)
Definition substring (s : list ascii) (from to : nat) : list ascii :=
  let '(lo, hi) := if (to <? from)%nat then (to, from) else (from, to) in
  if (length s <=? lo)%nat then []
  else firstn (Nat.min hi (length s) - lo) (skipn lo s).

Fixpoint skip_ws (s : list ascii) : list ascii :=
  match s with
  | c :: r => if is_space c then skip_ws r else s
  | [] => []
  end.

(** [String::trim]. *)
Definition trim (s : list ascii) : list ascii := rev (skip_ws (rev (skip_ws s))).

(** The leading hexadecimal digits of [s], accumulated into [acc]. *)
Fixpoint hex_run (s : list ascii) (acc : Z) : Z :=
  match s with
  | c :: r =>
      match hex_val c with
      | Some d => hex_run r (acc * 16 + d)
      | None => acc
      end
  | [] => acc
  end.

Definition LONG_MAX : Z := 2 ^ 31 - 1.
Definition LONG_MIN : Z := - 2 ^ 31.

(** [strtol(s, NULL, 16)] with a 32-bit [long]: white space, an optional
    sign, an optional [0x], then the digits there are (none gives 0); the
    result is clamped to the range of [long]. *)
Definition strtol16 (s : list ascii) : Z :=
  let s1 := skip_ws s in
  let '(neg, s2) :=
    match s1 with
    | "-" :: r => (true, r)
    | "+" :: r => (false, r)
    | _ => (false, s1)
    end in
  let s3 :=
    match s2 with
    | "0" :: "x" :: r => r
    | "0" :: "X" :: r => r
    | _ => s2
    end in
  let v := hex_run s3 0 in
  if neg then Z.max LONG_MIN (- v) else Z.min LONG_MAX v.

(** [for (i = 0; i < hexData.length() && packetLen < MAX_PACKET_SIZE; i += 2)
    packetData[packetLen++] = strtol(hexData.substring(i, i + 2), NULL, 16)],
    with [count] iterations left. *)
Fixpoint hex_decode_loop (count : nat) (hexData : list ascii) (i : nat)
  (packetData : list Z) : list Z :=
  match count with
  | O => packetData
  | S count' =>
      if (i <? length hexData)%nat
         && (Z.of_nat (length packetData) <? MAX_PACKET_SIZE)%Z
      then hex_decode_loop count' hexData (i + 2)
             (packetData ++ [u8 (strtol16 (substring hexData i (i + 2)))])
      else packetData
  end.

Definition hex_decode (hexData : list ascii) : list Z :=
  hex_decode_loop (Z.to_nat MAX_PACKET_SIZE) hexData 0 [].

Definition EVT_RXP2P : list ascii := list_ascii_of_string "+EVT:RXP2P:".

(** What a complete line makes [_processRxData] hand to [_handlePacket]:
    nothing unless the line is a receive notification with its two colons
    and a payload that decodes to at least one byte.  (The RSSI and SNR
    fields are parsed by the source and then not used.) *)
Definition rx_line_payload (line : list ascii) : option (list Z) :=
  if startsWith line EVT_RXP2P then
    let firstColon := indexOf line ":" 11 in
    let secondColon := indexOf line ":" (Z.to_nat (firstColon + 1)) in
    if ((0 <? firstColon) && (0 <? secondColon))%Z then
      let hexData := trim (substring line (Z.to_nat (secondColon + 1)) (length line)) in
      let packetData := hex_decode hexData in
      if (0 <? length packetData)%nat then Some packetData else None
    else None
  else None.

(** The receive buffer: the [_rxIndex] characters in [_rxBuffer], and
    [_lastRxTime]. *)
Record RxState := mkRxState {
  _rxBuffer : list ascii;
  _lastRxTime : Z
}.

(** [String((char* )_rxBuffer)]: the characters before the first NUL. *)
Fixpoint c_string (buf : list ascii) : list ascii :=
  match buf with
  | [] => []
  | c :: r => if Ascii.eqb c "000" then [] else c :: c_string r
  end.

Definition is_line_end (c : ascii) : bool := Ascii.eqb c "010" || Ascii.eqb c "013".

(** One pass of the [while (_serial->available())] loop, for the character
    [c] read when [millis()] is [t]. *)
Definition rx_char (t : Z) (c : ascii) (st : RxState * LoRaManager)
  : RxState * LoRaManager :=
  let '(rx, m) := st in
  if is_line_end c then
    if (0 <? length (_rxBuffer rx))%nat then
      (mkRxState [] t,
       match rx_line_payload (c_string (_rxBuffer rx)) with
       | Some packetData => _handlePacket t packetData m
       | None => m
       end)
    else (mkRxState (_rxBuffer rx) t, m)
  else if (length (_rxBuffer rx) <? 255)%nat
       then (mkRxState (_rxBuffer rx ++ [c]) t, m)
       else (mkRxState (_rxBuffer rx) t, m).

(** [_processRxData] on the characters the serial port holds, each with the
    clock value at its read, and the clock value [now] at the check that
    follows the loop. *)
Definition processRxData_serial (input : list (Z * ascii)) (now : Z)
  (st : RxState * LoRaManager) : RxState * LoRaManager :=
  let '(rx, m) := fold_left (fun st tc => rx_char (fst tc) (snd tc) st) input st in
  if (0 <? length (_rxBuffer rx))%nat && (100 <? u32 (now - _lastRxTime rx))%Z
  then (mkRxState [] (_lastRxTime rx), m)
  else (rx, m).

End Framing.

(** ** protocol.h: the relay bitmap macros

    On a [uint8_t] bitmap; the three updating macros give the new value of
    the bitmap. *)

Definition RELAY_1_BIT : Z := Z.shiftl 1 0.
Definition RELAY_2_BIT : Z := Z.shiftl 1 1.

Definition GET_RELAY_STATE (bitmap relay_num : Z) : Z :=
  Z.land (Z.shiftr bitmap (relay_num - 1)) 0x01.

Definition SET_RELAY_STATE (bitmap relay_num : Z) : Z :=
  u8 (Z.lor bitmap (Z.shiftl 1 (relay_num - 1))).

Definition CLR_RELAY_STATE (bitmap relay_num : Z) : Z :=
  u8 (Z.land bitmap (Z.lnot (Z.shiftl 1 (relay_num - 1)))).

Definition TGL_RELAY_STATE (bitmap relay_num : Z) : Z :=
  u8 (Z.lxor bitmap (Z.shiftl 1 (relay_num - 1))).

Record CommandPacket_t := mkCommand {
  cmd_type : Z;
  cmd_targetID : Z;
  cmd_cmdType : Z;
  cmd_param1 : Z;
  cmd_param2 : Z
}.

Record ConfigPacket_t := mkConfig {
  cfg_type : Z;
  cfg_targetID : Z;
  cfg_frequency : Z;
  cfg_sf : Z;
  cfg_bw : Z;
  cfg_cr : Z;
  cfg_txPower : Z;
  cfg_preamble : Z
}.

Definition u16 (z : Z) : Z := z mod 2 ^ 16.

(** ** node_firmware.ino: the node at the other end of the link

    The firmware of the two-relay node the gateway pairs with and commands.
    Its globals are the fields of [Node]; the relay and flash hardware it
    drives is part of the state: the level of the two relay pins (true is
    [RELAY_ACTIVE_LEVEL]), the user data area of the flash, the frames
    handed to [api.lora.psend] (oldest first), and whether
    [api.system.reboot] was called.  [txBusy] is false again when each send
    function returns, so every [!txBusy] test of the main loop passes and
    the flag is left out. *)

Module NodeFirmware.

Definition LORA_FREQUENCY : Z := 868000000.
Definition LORA_SF        : Z := 7.
Definition LORA_BW        : Z := 0.
Definition LORA_CR        : Z := 1.
Definition LORA_TX_POWER  : Z := 14.

Definition NVM_MAGIC_VALUE : Z := 0xA5.

Definition STATUS_REPORT_PERIOD : Z := 60000.
Definition HEARTBEAT_PERIOD     : Z := 30000.

Definition DISCOVERY_MIN_INTERVAL : Z := 10000.
Definition DISCOVERY_MAX_INTERVAL : Z := 30000.

Definition sizeof_ConfigPacket_t : Z := 12.

Inductive DeviceState_t := STATE_INIT | STATE_DISCOVERY | STATE_NORMAL.

Definition DeviceState_eqb (a b : DeviceState_t) : bool :=
  match a, b with
  | STATE_INIT, STATE_INIT => true
  | STATE_DISCOVERY, STATE_DISCOVERY => true
  | STATE_NORMAL, STATE_NORMAL => true
  | _, _ => false
  end.

(** The cells of the flash user data area the firmware uses, at
    [NVM_MAGIC_ADDR], [NVM_NODE_ID_ADDR], [NVM_LORA_FREQ_ADDR] (four bytes),
    [NVM_LORA_SF_ADDR] and [NVM_LORA_BW_ADDR]. *)
Record Flash := mkFlash {
  nvm_magic : Z;
  nvm_node_id : Z;
  nvm_lora_freq : Z;
  nvm_lora_sf : Z;
  nvm_lora_bw : Z
}.


Record Node := mkNode {
  deviceState : DeviceState_t;
  nodeID : Z;
  macAddr : list Z;
  relayStatus : Z;
  seqNum : Z;
  startTime : Z;
  lastHelloTime : Z;
  lastStatusTime : Z;
  lastHeartbeatTime : Z;
  nextHelloInterval : Z;
  discoveryStartTime : Z;
  loraFrequency : Z;
  loraSF : Z;
  loraBW : Z;
  loraCR : Z;
  loraTxPower : Z;
  lastRSSI : Z;
  lastSNR : Z;
  relay_1_pin : bool;
  relay_2_pin : bool;
  flash : Flash;
  sent : list (list Z);
  rebooted : bool
}.

Definition set_deviceState (v : DeviceState_t) (n : Node) : Node :=
  mkNode v (nodeID n) (macAddr n) (relayStatus n) (seqNum n) (startTime n)
      (lastHelloTime n) (lastStatusTime n) (lastHeartbeatTime n)
      (nextHelloInterval n) (discoveryStartTime n) (loraFrequency n) (loraSF
      n) (loraBW n) (loraCR n) (loraTxPower n) (lastRSSI n) (lastSNR n)
      (relay_1_pin n) (relay_2_pin n) (flash n) (sent n) (rebooted n).

Definition set_nodeID (v : Z) (n : Node) : Node :=
  mkNode (deviceState n) v (macAddr n) (relayStatus n) (seqNum n) (startTime
      n) (lastHelloTime n) (lastStatusTime n) (lastHeartbeatTime n)
      (nextHelloInterval n) (discoveryStartTime n) (loraFrequency n) (loraSF
      n) (loraBW n) (loraCR n) (loraTxPower n) (lastRSSI n) (lastSNR n)
      (relay_1_pin n) (relay_2_pin n) (flash n) (sent n) (rebooted n).

Definition set_macAddr (v : list Z) (n : Node) : Node :=
  mkNode (deviceState n) (nodeID n) v (relayStatus n) (seqNum n) (startTime n)
      (lastHelloTime n) (lastStatusTime n) (lastHeartbeatTime n)
      (nextHelloInterval n) (discoveryStartTime n) (loraFrequency n) (loraSF
      n) (loraBW n) (loraCR n) (loraTxPower n) (lastRSSI n) (lastSNR n)
      (relay_1_pin n) (relay_2_pin n) (flash n) (sent n) (rebooted n).

Definition set_relayStatus (v : Z) (n : Node) : Node :=
  mkNode (deviceState n) (nodeID n) (macAddr n) v (seqNum n) (startTime n)
      (lastHelloTime n) (lastStatusTime n) (lastHeartbeatTime n)
      (nextHelloInterval n) (discoveryStartTime n) (loraFrequency n) (loraSF
      n) (loraBW n) (loraCR n) (loraTxPower n) (lastRSSI n) (lastSNR n)
      (relay_1_pin n) (relay_2_pin n) (flash n) (sent n) (rebooted n).

Definition set_seqNum (v : Z) (n : Node) : Node :=
  mkNode (deviceState n) (nodeID n) (macAddr n) (relayStatus n) v (startTime
      n) (lastHelloTime n) (lastStatusTime n) (lastHeartbeatTime n)
      (nextHelloInterval n) (discoveryStartTime n) (loraFrequency n) (loraSF
      n) (loraBW n) (loraCR n) (loraTxPower n) (lastRSSI n) (lastSNR n)
      (relay_1_pin n) (relay_2_pin n) (flash n) (sent n) (rebooted n).

Definition set_startTime (v : Z) (n : Node) : Node :=
  mkNode (deviceState n) (nodeID n) (macAddr n) (relayStatus n) (seqNum n) v
      (lastHelloTime n) (lastStatusTime n) (lastHeartbeatTime n)
      (nextHelloInterval n) (discoveryStartTime n) (loraFrequency n) (loraSF
      n) (loraBW n) (loraCR n) (loraTxPower n) (lastRSSI n) (lastSNR n)
      (relay_1_pin n) (relay_2_pin n) (flash n) (sent n) (rebooted n).

Definition set_lastHelloTime (v : Z) (n : Node) : Node :=
  mkNode (deviceState n) (nodeID n) (macAddr n) (relayStatus n) (seqNum n)
      (startTime n) v (lastStatusTime n) (lastHeartbeatTime n)
      (nextHelloInterval n) (discoveryStartTime n) (loraFrequency n) (loraSF
      n) (loraBW n) (loraCR n) (loraTxPower n) (lastRSSI n) (lastSNR n)
      (relay_1_pin n) (relay_2_pin n) (flash n) (sent n) (rebooted n).

Definition set_lastStatusTime (v : Z) (n : Node) : Node :=
  mkNode (deviceState n) (nodeID n) (macAddr n) (relayStatus n) (seqNum n)
      (startTime n) (lastHelloTime n) v (lastHeartbeatTime n)
      (nextHelloInterval n) (discoveryStartTime n) (loraFrequency n) (loraSF
      n) (loraBW n) (loraCR n) (loraTxPower n) (lastRSSI n) (lastSNR n)
      (relay_1_pin n) (relay_2_pin n) (flash n) (sent n) (rebooted n).

Definition set_lastHeartbeatTime (v : Z) (n : Node) : Node :=
  mkNode (deviceState n) (nodeID n) (macAddr n) (relayStatus n) (seqNum n)
      (startTime n) (lastHelloTime n) (lastStatusTime n) v (nextHelloInterval
      n) (discoveryStartTime n) (loraFrequency n) (loraSF n) (loraBW n)
      (loraCR n) (loraTxPower n) (lastRSSI n) (lastSNR n) (relay_1_pin n)
      (relay_2_pin n) (flash n) (sent n) (rebooted n).

Definition set_nextHelloInterval (v : Z) (n : Node) : Node :=
  mkNode (deviceState n) (nodeID n) (macAddr n) (relayStatus n) (seqNum n)
      (startTime n) (lastHelloTime n) (lastStatusTime n) (lastHeartbeatTime n)
      v (discoveryStartTime n) (loraFrequency n) (loraSF n) (loraBW n) (loraCR
      n) (loraTxPower n) (lastRSSI n) (lastSNR n) (relay_1_pin n) (relay_2_pin
      n) (flash n) (sent n) (rebooted n).

Definition set_discoveryStartTime (v : Z) (n : Node) : Node :=
  mkNode (deviceState n) (nodeID n) (macAddr n) (relayStatus n) (seqNum n)
      (startTime n) (lastHelloTime n) (lastStatusTime n) (lastHeartbeatTime n)
      (nextHelloInterval n) v (loraFrequency n) (loraSF n) (loraBW n) (loraCR
      n) (loraTxPower n) (lastRSSI n) (lastSNR n) (relay_1_pin n) (relay_2_pin
      n) (flash n) (sent n) (rebooted n).

Definition set_loraFrequency (v : Z) (n : Node) : Node :=
  mkNode (deviceState n) (nodeID n) (macAddr n) (relayStatus n) (seqNum n)
      (startTime n) (lastHelloTime n) (lastStatusTime n) (lastHeartbeatTime n)
      (nextHelloInterval n) (discoveryStartTime n) v (loraSF n) (loraBW n)
      (loraCR n) (loraTxPower n) (lastRSSI n) (lastSNR n) (relay_1_pin n)
      (relay_2_pin n) (flash n) (sent n) (rebooted n).

Definition set_loraSF (v : Z) (n : Node) : Node :=
  mkNode (deviceState n) (nodeID n) (macAddr n) (relayStatus n) (seqNum n)
      (startTime n) (lastHelloTime n) (lastStatusTime n) (lastHeartbeatTime n)
      (nextHelloInterval n) (discoveryStartTime n) (loraFrequency n) v (loraBW
      n) (loraCR n) (loraTxPower n) (lastRSSI n) (lastSNR n) (relay_1_pin n)
      (relay_2_pin n) (flash n) (sent n) (rebooted n).

Definition set_loraBW (v : Z) (n : Node) : Node :=
  mkNode (deviceState n) (nodeID n) (macAddr n) (relayStatus n) (seqNum n)
      (startTime n) (lastHelloTime n) (lastStatusTime n) (lastHeartbeatTime n)
      (nextHelloInterval n) (discoveryStartTime n) (loraFrequency n) (loraSF
      n) v (loraCR n) (loraTxPower n) (lastRSSI n) (lastSNR n) (relay_1_pin n)
      (relay_2_pin n) (flash n) (sent n) (rebooted n).

Definition set_loraCR (v : Z) (n : Node) : Node :=
  mkNode (deviceState n) (nodeID n) (macAddr n) (relayStatus n) (seqNum n)
      (startTime n) (lastHelloTime n) (lastStatusTime n) (lastHeartbeatTime n)
      (nextHelloInterval n) (discoveryStartTime n) (loraFrequency n) (loraSF
      n) (loraBW n) v (loraTxPower n) (lastRSSI n) (lastSNR n) (relay_1_pin n)
      (relay_2_pin n) (flash n) (sent n) (rebooted n).

Definition set_loraTxPower (v : Z) (n : Node) : Node :=
  mkNode (deviceState n) (nodeID n) (macAddr n) (relayStatus n) (seqNum n)
      (startTime n) (lastHelloTime n) (lastStatusTime n) (lastHeartbeatTime n)
      (nextHelloInterval n) (discoveryStartTime n) (loraFrequency n) (loraSF
      n) (loraBW n) (loraCR n) v (lastRSSI n) (lastSNR n) (relay_1_pin n)
      (relay_2_pin n) (flash n) (sent n) (rebooted n).

Definition set_lastRSSI (v : Z) (n : Node) : Node :=
  mkNode (deviceState n) (nodeID n) (macAddr n) (relayStatus n) (seqNum n)
      (startTime n) (lastHelloTime n) (lastStatusTime n) (lastHeartbeatTime n)
      (nextHelloInterval n) (discoveryStartTime n) (loraFrequency n) (loraSF
      n) (loraBW n) (loraCR n) (loraTxPower n) v (lastSNR n) (relay_1_pin n)
      (relay_2_pin n) (flash n) (sent n) (rebooted n).

Definition set_lastSNR (v : Z) (n : Node) : Node :=
  mkNode (deviceState n) (nodeID n) (macAddr n) (relayStatus n) (seqNum n)
      (startTime n) (lastHelloTime n) (lastStatusTime n) (lastHeartbeatTime n)
      (nextHelloInterval n) (discoveryStartTime n) (loraFrequency n) (loraSF
      n) (loraBW n) (loraCR n) (loraTxPower n) (lastRSSI n) v (relay_1_pin n)
      (relay_2_pin n) (flash n) (sent n) (rebooted n).

Definition set_relay_1_pin (v : bool) (n : Node) : Node :=
  mkNode (deviceState n) (nodeID n) (macAddr n) (relayStatus n) (seqNum n)
      (startTime n) (lastHelloTime n) (lastStatusTime n) (lastHeartbeatTime n)
      (nextHelloInterval n) (discoveryStartTime n) (loraFrequency n) (loraSF
      n) (loraBW n) (loraCR n) (loraTxPower n) (lastRSSI n) (lastSNR n) v
      (relay_2_pin n) (flash n) (sent n) (rebooted n).

Definition set_relay_2_pin (v : bool) (n : Node) : Node :=
  mkNode (deviceState n) (nodeID n) (macAddr n) (relayStatus n) (seqNum n)
      (startTime n) (lastHelloTime n) (lastStatusTime n) (lastHeartbeatTime n)
      (nextHelloInterval n) (discoveryStartTime n) (loraFrequency n) (loraSF
      n) (loraBW n) (loraCR n) (loraTxPower n) (lastRSSI n) (lastSNR n)
      (relay_1_pin n) v (flash n) (sent n) (rebooted n).

Definition set_flash (v : Flash) (n : Node) : Node :=
  mkNode (deviceState n) (nodeID n) (macAddr n) (relayStatus n) (seqNum n)
      (startTime n) (lastHelloTime n) (lastStatusTime n) (lastHeartbeatTime n)
      (nextHelloInterval n) (discoveryStartTime n) (loraFrequency n) (loraSF
      n) (loraBW n) (loraCR n) (loraTxPower n) (lastRSSI n) (lastSNR n)
      (relay_1_pin n) (relay_2_pin n) v (sent n) (rebooted n).

Definition set_sent (v : list (list Z)) (n : Node) : Node :=
  mkNode (deviceState n) (nodeID n) (macAddr n) (relayStatus n) (seqNum n)
      (startTime n) (lastHelloTime n) (lastStatusTime n) (lastHeartbeatTime n)
      (nextHelloInterval n) (discoveryStartTime n) (loraFrequency n) (loraSF
      n) (loraBW n) (loraCR n) (loraTxPower n) (lastRSSI n) (lastSNR n)
      (relay_1_pin n) (relay_2_pin n) (flash n) v (rebooted n).

Definition set_rebooted (v : bool) (n : Node) : Node :=
  mkNode (deviceState n) (nodeID n) (macAddr n) (relayStatus n) (seqNum n)
      (startTime n) (lastHelloTime n) (lastStatusTime n) (lastHeartbeatTime n)
      (nextHelloInterval n) (discoveryStartTime n) (loraFrequency n) (loraSF
      n) (loraBW n) (loraCR n) (loraTxPower n) (lastRSSI n) (lastSNR n)
      (relay_1_pin n) (relay_2_pin n) (flash n) (sent n) v.

(** *** Frames sent *)

Definition psend (frame : list Z) (n : Node) : Node :=
  set_sent (sent n ++ [frame]) n.

Definition sendHelloPacket (n : Node) : Node :=
  psend (PKG_HELLO :: memcpy (macAddr n) MAC_ADDR_LEN
           ++ [DEV_TYPE_RELAY_2CH; 0x10]) n.

Definition sendAckPacket (ackType status : Z) (n : Node) : Node :=
  psend [PKG_ACK; nodeID n; ackType; status] n.

(** The four bytes of a [uint32_t] in memory. *)
Definition le_bytes32 (v : Z) : list Z :=
  [u8 v; u8 (Z.shiftr v 8); u8 (Z.shiftr v 16); u8 (Z.shiftr v 24)].

Definition sendDataPacket (now : Z) (n : Node) : Node :=
  let uptime := u32 (now - startTime n) / 1000 in
  psend ([PKG_DATA; nodeID n; relayStatus n; u8 (lastRSSI n); u8 (lastSNR n); 0xFF]
           ++ le_bytes32 uptime) n.

Definition sendHeartbeat (n : Node) : Node :=
  let pkt_seqNum := seqNum n in
  let n1 := set_seqNum (u16 (seqNum n + 1)) n in
  psend [PKG_HEARTBEAT; nodeID n1; relayStatus n1; 0x00;
         u8 pkt_seqNum; u8 (Z.shiftr pkt_seqNum 8)] n1.

(** *** Relays *)

Definition setRelay (relayNum : Z) (state : bool) (n : Node) : Node :=
  if relayNum =? 1 then
    let n1 := set_relay_1_pin state n in
    if state
    then set_relayStatus (SET_RELAY_STATE (relayStatus n1) relayNum) n1
    else set_relayStatus (CLR_RELAY_STATE (relayStatus n1) relayNum) n1
  else if relayNum =? 2 then
    let n1 := set_relay_2_pin state n in
    if state
    then set_relayStatus (SET_RELAY_STATE (relayStatus n1) relayNum) n1
    else set_relayStatus (CLR_RELAY_STATE (relayStatus n1) relayNum) n1
  else n.

Definition applyRelayBitmap (bitmap : Z) (n : Node) : Node :=
  let n1 := setRelay 1 (negb (Z.land bitmap RELAY_1_BIT =? 0)) n in
  let n2 := setRelay 2 (negb (Z.land bitmap RELAY_2_BIT =? 0)) n1 in
  set_relayStatus (Z.land bitmap 0x03) n2.

(** *** Flash *)

Definition loadConfig (n : Node) : Node :=
  let fl := flash n in
  if negb (nvm_magic fl =? NVM_MAGIC_VALUE) then set_nodeID NODE_ID_UNASSIGNED n
  else
    let n1 := set_nodeID (nvm_node_id fl) n in
    let n2 := set_loraFrequency (nvm_lora_freq fl) n1 in
    let n3 := set_loraSF (nvm_lora_sf fl) n2 in
    let n4 := set_loraBW (nvm_lora_bw fl) n3 in
    let n5 :=
      if (loraFrequency n4 <? 863000000) || (870000000 <? loraFrequency n4)
      then set_loraFrequency LORA_FREQUENCY n4 else n4 in
    let n6 :=
      if (loraSF n5 <? 7) || (12 <? loraSF n5) then set_loraSF LORA_SF n5 else n5 in
    if 2 <? loraBW n6 then set_loraBW LORA_BW n6 else n6.

Definition saveConfig (n : Node) : Node :=
  set_flash
    (mkFlash NVM_MAGIC_VALUE (nodeID n) (loraFrequency n) (loraSF n) (loraBW n))
    n.

(** *** Received packets *)

Definition as_WelcomePacket (data : list Z) : WelcomePacket_t :=
  mkWelcome (byte_at data 0) (map (byte_at data) (seq 1 MAC_ADDR_LEN))
            (byte_at data 7) (byte_at data 8).

Definition as_CommandPacket (data : list Z) : CommandPacket_t :=
  mkCommand (byte_at data 0) (byte_at data 1) (byte_at data 2) (byte_at data 3)
            (byte_at data 4).

Definition as_ConfigPacket (data : list Z) : ConfigPacket_t :=
  mkConfig (byte_at data 0) (byte_at data 1)
           (byte_at data 2 + Z.shiftl (byte_at data 3) 8
            + Z.shiftl (byte_at data 4) 16 + Z.shiftl (byte_at data 5) 24)
           (byte_at data 6) (byte_at data 7) (byte_at data 8)
           (i8 (byte_at data 9))
           (byte_at data 10 + Z.shiftl (byte_at data 11) 8).

(** [handleWelcome]; the two adjacent reads of [millis()] that restart the
    report timers return [now]. *)
Definition handleWelcome (now : Z) (pkt : WelcomePacket_t) (n : Node) : Node :=
  if negb (memcmp (welcome_targetMac pkt) (macAddr n) MAC_ADDR_LEN =? 0) then n
  else if negb (DeviceState_eqb (deviceState n) STATE_DISCOVERY) then n
  else
    let n1 := set_nodeID (welcome_assignedID pkt) n in
    let n2 := saveConfig n1 in
    let n3 := sendAckPacket PKG_WELCOME ERR_NONE n2 in
    let n4 := set_deviceState STATE_NORMAL n3 in
    set_lastHeartbeatTime now (set_lastStatusTime now n4).

(** [api.system.reboot()] does not return. *)
Definition reboot (n : Node) : Node := set_rebooted true n.

(** The [switch] of [handleCommand]: the node afterwards and, unless the
    case returns or reboots, the error code of the Ack that follows. *)
Definition command_switch (now : Z) (pkt : CommandPacket_t) (n : Node)
  : Node * option Z :=
  let cmdType := cmd_cmdType pkt in
  if cmdType =? CMD_RELAY_SET then
    (applyRelayBitmap (cmd_param1 pkt) n, Some ERR_NONE)
  else if cmdType =? CMD_RELAY_TOGGLE then
    if (1 <=? cmd_param1 pkt) && (cmd_param1 pkt <=? 2) then
      let n1 :=
        set_relayStatus (TGL_RELAY_STATE (relayStatus n) (cmd_param1 pkt)) n in
      (setRelay (cmd_param1 pkt)
         (negb (GET_RELAY_STATE (relayStatus n1) (cmd_param1 pkt) =? 0)) n1,
       Some ERR_NONE)
    else (n, Some ERR_INVALID_PARAM)
  else if cmdType =? CMD_RESET then
    (reboot (sendAckPacket PKG_CMD ERR_NONE n), None)
  else if cmdType =? CMD_FACTORY_RESET then
    let n1 := set_nodeID NODE_ID_UNASSIGNED n in
    let n2 := set_relayStatus 0x00 n1 in
    let n3 := applyRelayBitmap 0x00 n2 in
    let fl := flash n3 in
    let n4 :=
      set_flash (mkFlash 0x00 0x00 (nvm_lora_freq fl) (nvm_lora_sf fl)
                   (nvm_lora_bw fl)) n3 in
    (reboot (sendAckPacket PKG_CMD ERR_NONE n4), None)
  else if cmdType =? CMD_REQUEST_STATUS then
    (sendDataPacket now n, None)
  else (n, Some ERR_INVALID_CMD).

Definition handleCommand (now : Z) (pkt : CommandPacket_t) (n : Node) : Node :=
  if negb (cmd_targetID pkt =? nodeID n)
     && negb (cmd_targetID pkt =? NODE_ID_BROADCAST)
  then n
  else
    match command_switch now pkt n with
    | (n1, Some errCode) => sendAckPacket PKG_CMD errCode n1
    | (n1, None) => n1
    end.

(** [handleConfig]; [updateLoRaConfig] hands the new parameters to the
    radio and changes no variable. *)
Definition handleConfig (pkt : ConfigPacket_t) (n : Node) : Node :=
  if negb (cfg_targetID pkt =? nodeID n)
     && negb (cfg_targetID pkt =? NODE_ID_BROADCAST)
  then n
  else
    let n1 :=
      if (863000000 <=? cfg_frequency pkt) && (cfg_frequency pkt <=? 870000000)
      then set_loraFrequency (cfg_frequency pkt) n else n in
    let n2 :=
      if (7 <=? cfg_sf pkt) && (cfg_sf pkt <=? 12)
      then set_loraSF (cfg_sf pkt) n1 else n1 in
    let n3 := if cfg_bw pkt <=? 2 then set_loraBW (cfg_bw pkt) n2 else n2 in
    let n4 :=
      if (1 <=? cfg_cr pkt) && (cfg_cr pkt <=? 4)
      then set_loraCR (cfg_cr pkt) n3 else n3 in
    let n5 :=
      if (-4 <=? cfg_txPower pkt) && (cfg_txPower pkt <=? 22)
      then set_loraTxPower (cfg_txPower pkt) n4 else n4 in
    let n6 := sendAckPacket PKG_CONFIG ERR_NONE n5 in
    saveConfig n6.

(** [processRxPacket] on the [rxLen] bytes received last.  [rxBuffer] keeps
    older bytes behind them, which the size tests keep every handler from
    reading. *)
Definition processRxPacket (now : Z) (rxBuffer : list Z) (n : Node) : Node :=
  let rxLen := Z.of_nat (length rxBuffer) in
  if rxLen <? 1 then n
  else
    let pktType := byte_at rxBuffer 0 in
    if pktType =? PKG_WELCOME then
      if sizeof_WelcomePacket_t <=? rxLen
      then handleWelcome now (as_WelcomePacket rxBuffer) n else n
    else if pktType =? PKG_CMD then
      if (sizeof_CommandPacket_t <=? rxLen)
         && DeviceState_eqb (deviceState n) STATE_NORMAL
      then handleCommand now (as_CommandPacket rxBuffer) n else n
    else if pktType =? PKG_CONFIG then
      if (sizeof_ConfigPacket_t <=? rxLen)
         && DeviceState_eqb (deviceState n) STATE_NORMAL
      then handleConfig (as_ConfigPacket rxBuffer) n else n
    else n.

(** A frame from the radio: [onLoRaRxDone] stores it when its size is
    1..[MAX_PACKET_SIZE], and the next pass of [loop] processes it. *)
Definition receive (now : Z) (buffer : list Z) (rssi snr : Z) (n : Node) : Node :=
  let BufferSize := Z.of_nat (length buffer) in
  if (0 <? BufferSize) && (BufferSize <=? MAX_PACKET_SIZE) then
    processRxPacket now buffer (set_lastSNR (i8 snr) (set_lastRSSI (i8 rssi) n))
  else n.

(** *** Start-up *)

(** [generateMAC], from the characters of the chip ID. *)
Definition generateMAC (chipId : list Z) : list Z :=
  let hash := fold_left (fun hash c => u32 (hash * 31 + c)) chipId 0 in
  [0x70; 0xB3; 0xD5;
   Z.land (Z.shiftr hash 16) 0xFF; Z.land (Z.shiftr hash 8) 0xFF;
   Z.land hash 0xFF].

(** [getRandomInterval], [r] being the generator's next number. *)
Definition getRandomInterval (r : Z) : Z :=
  DISCOVERY_MIN_INTERVAL + r mod (DISCOVERY_MAX_INTERVAL - DISCOVERY_MIN_INTERVAL).

(** The globals as they are initialised, over the flash contents [fl]. *)
Definition power_on (fl : Flash) : Node :=
  mkNode STATE_INIT NODE_ID_UNASSIGNED (memset0 MAC_ADDR_LEN) 0x00 0 0 0 0 0 0 0
         LORA_FREQUENCY LORA_SF LORA_BW LORA_CR LORA_TX_POWER 0 0
         false false fl [] false.

Definition initHardware (n : Node) : Node :=
  set_relay_2_pin false (set_relay_1_pin false n).

Definition setup (chipId : list Z) (now r : Z) (fl : Flash) : Node :=
  let n1 := initHardware (power_on fl) in
  let n2 := set_macAddr (generateMAC chipId) n1 in
  let n3 := loadConfig n2 in
  let n4 := set_startTime now n3 in
  if nodeID n4 =? NODE_ID_UNASSIGNED then
    set_nextHelloInterval (getRandomInterval r)
      (set_discoveryStartTime now (set_deviceState STATE_DISCOVERY n4))
  else set_deviceState STATE_NORMAL n4.

(** *** The main loop *)

Definition handleDiscoveryMode (currentTime r : Z) (n : Node) : Node :=
  if nextHelloInterval n <=? u32 (currentTime - lastHelloTime n) then
    set_nextHelloInterval (getRandomInterval r)
      (set_lastHelloTime currentTime (sendHelloPacket n))
  else n.

(** [handleNormalMode(currentTime)]; [report_now] is the value of
    [millis()] that [sendDataPacket] reads for the uptime. *)
Definition handleNormalMode (currentTime report_now : Z) (n : Node) : Node :=
  let n1 :=
    if STATUS_REPORT_PERIOD <=? u32 (currentTime - lastStatusTime n)
    then set_lastStatusTime currentTime (sendDataPacket report_now n)
    else n in
  if HEARTBEAT_PERIOD <=? u32 (currentTime - lastHeartbeatTime n1)
  then set_lastHeartbeatTime currentTime (sendHeartbeat n1)
  else n1.

(** One pass of [loop].  [currentTime] is the value of [millis()] read at
    the top of the pass.  [rx] is the frame waiting, if any, with its RSSI
    and SNR and with the value of [millis()] that its handler reads, after
    the delays of the handler; the mode handler that follows still works
    with [currentTime].  Once the node reboots the pass goes no further. *)
Definition loop (currentTime r : Z) (rx : option (list Z * Z * Z * Z))
  (report_now : Z) (n : Node) : Node :=
  let n1 :=
    match rx with
    | Some (buffer, rssi, snr, rx_now) => receive rx_now buffer rssi snr n
    | None => n
    end in
  if rebooted n1 then n1
  else
    match deviceState n1 with
    | STATE_DISCOVERY => handleDiscoveryMode currentTime r n1
    | STATE_NORMAL => handleNormalMode currentTime report_now n1
    | STATE_INIT => set_deviceState STATE_INIT n1
    end.

End NodeFirmware.

(** ** main.cpp: node commands from MQTT *)

Definition RELAY_3_BIT : Z := Z.shiftl 1 2.
Definition RELAY_4_BIT : Z := Z.shiftl 1 3.

(** [payload.containsKey(key)]. *)
Definition containsKey (key : string) (v : Json) : bool :=
  match v with
  | JObj ms => existsb (fun kv => String.eqb (fst kv) key) ms
  | _ => false
  end.

Section Mqtt.

(** ArduinoJson's conversions of a variant to [bool], [uint8_t] and
    [String]. *)
Variable as_bool : Json -> bool.
Variable as_uint8 : Json -> Z.
Variable as_String : Json -> string.

(** [if (payload.containsKey(key)) { if (payload[key]) newStatus |= bit;
    else newStatus &= ~bit; }] on a [uint8_t newStatus]. *)
Definition relay_key (payload : Json) (key : string) (bit newStatus : Z) : Z :=
  if containsKey key payload then
    if as_bool (member key payload)
    then u8 (Z.lor newStatus bit)
    else u8 (Z.land newStatus (Z.lnot bit))
  else newStatus.

(** What [onMQTTMessage] does for a [.../nodes/{nodeID}/cmd] topic once the
    node ID is read from the topic. *)
Definition onMQTTMessage_cmd (modem_ok : bool) (id : Z) (payload : Json)
  (m : LoRaManager) : LoRaManager :=
  if containsKey "relay" payload then
    snd (sendRelayCommand modem_ok id (as_uint8 (member "relay" payload)) m)
  else if containsKey "toggle" payload then
    snd (sendRelayToggle modem_ok id (as_uint8 (member "toggle" payload)) m)
  else if containsKey "relay1" payload || containsKey "relay2" payload
          || containsKey "relay3" payload || containsKey "relay4" payload then
    match getNodeByID id m with
    | Some node =>
        let s0 := relayStatus node in
        let s1 := relay_key payload "relay1" RELAY_1_BIT s0 in
        let s2 := relay_key payload "relay2" RELAY_2_BIT s1 in
        let s3 := relay_key payload "relay3" RELAY_3_BIT s2 in
        let newStatus := relay_key payload "relay4" RELAY_4_BIT s3 in
        snd (sendRelayCommand modem_ok id newStatus m)
    | None => m
    end
  else if containsKey "action" payload then
    let action := as_String (member "action" payload) in
    if String.eqb action "status" then snd (requestNodeStatus modem_ok id m)
    else if String.eqb action "reset" then snd (sendResetCommand modem_ok id m)
    else m
  else m.

End Mqtt.

(** * Vocabulary of the properties *)

Local Open Scope list_scope.

(** ** The printed form of a MAC *)

Module MacForm.

Local Open Scope char_scope.

Definition is_upper_hex_digit (c : ascii) : bool :=
  let n := Z.of_nat (nat_of_ascii c) in
  (((48 <=? n) && (n <=? 57)) || ((65 <=? n) && (n <=? 70)))%Z.

(** [XX:XX:XX:XX:XX:XX]: with [k] groups left, two uppercase hexadecimal
    digits, then a colon and the remaining groups unless it was the last. *)
Fixpoint colon_hex_groups (k : nat) (s : string) : bool :=
  match k, s with
  | S k', String a (String b rest) =>
      is_upper_hex_digit a && is_upper_hex_digit b &&
      match k', rest with
      | O, EmptyString => true
      | S _, String ":" rest' => colon_hex_groups k' rest'
      | _, _ => false
      end
  | _, _ => false
  end.

Definition mac_text_form (s : string) : bool := colon_hex_groups 6 s.

End MacForm.
Export MacForm.

(** ** Registry predicates *)

(** Some valid registered node has the ID [id]. *)
Definition id_in_use (id : Z) (nodes : list RegisteredNode) : bool :=
  existsb (node_matches id) nodes.

(** Some valid registered node has the MAC [mac]. *)
Definition mac_in_use (mac : list Z) (nodes : list RegisteredNode) : bool :=
  existsb (fun node => valid node && (memcmp (macAddr node) mac MAC_ADDR_LEN =? 0))
          nodes.

(** ** Runs and traces *)

(** The calls a host makes on the manager and the frames the radio brings.
    [OpReceive] is one frame reaching [_handlePacket]; a pairing completes
    through it. *)
Inductive Op :=
| OpStartPairing (now : Z) (modem_ok : bool) (mac : list Z)
| OpReceive (now : Z) (data : list Z)
| OpRemoveNode (id : Z)
| OpCancelPairing
| OpStartScan (now duration : Z)
| OpStopScan
| OpUpdate (now : Z) (rx : list (Z * list Z)) (sweep_now : Z).

Definition step (op : Op) (m : LoRaManager) : LoRaManager :=
  match op with
  | OpStartPairing now modem_ok mac => snd (startPairing now modem_ok mac m)
  | OpReceive now data => _handlePacket now data m
  | OpRemoveNode id => snd (removeNode id m)
  | OpCancelPairing => cancelPairing m
  | OpStartScan now duration => startScan now duration m
  | OpStopScan => stopScan m
  | OpUpdate now rx sweep_now => update now rx sweep_now m
  end.

Definition run (ops : list Op) (m : LoRaManager) : LoRaManager :=
  fold_left (fun m op => step op m) ops m.

(** No two valid entries share a node ID, and no two share a MAC. *)
Definition unique_nodes (nodes : list RegisteredNode) : Prop :=
  forall (i j : nat) (a b : RegisteredNode),
    i <> j ->
    nodes !! i = Some a -> nodes !! j = Some b ->
    valid a = true -> valid b = true ->
    nodeID a <> nodeID b /\ memcmp (macAddr a) (macAddr b) MAC_ADDR_LEN <> 0.

Definition is_pairing_event (e : Event) : bool :=
  match e with
  | EvPairingCallback _ _ => true
  | _ => false
  end.

(** The calls of the pairing callback so far, oldest first. *)
Definition pairing_events (m : LoRaManager) : list Event :=
  List.filter is_pairing_event (_events m).

(** A received frame whose type byte is [PKG_ACK]. *)
Definition is_ack_frame (frame : Z * list Z) : bool :=
  byte_at (snd frame) 0 =? PKG_ACK.

(** Update ticks in sequence; each gives its clock value and its frames,
    and then the clock value of its sweep. *)
Definition run_ticks (ticks : list (Z * list (Z * list Z) * Z)) (m : LoRaManager)
  : LoRaManager :=
  fold_left
    (fun m tick => update (fst (fst tick)) (snd (fst tick)) (snd tick) m)
    ticks m.

(** The gates a Hello has to pass to be added to the discovered list. *)
Definition hello_accepted (pkt : HelloPacket_t) (m : LoRaManager) : bool :=
  _scanMode m
  && negb (existsb (fun d => memcmp (d_macAddr d) (hello_macAddr pkt) MAC_ADDR_LEN =? 0)
                   (_discoveredNodes m))
  && negb (mac_in_use (hello_macAddr pkt) (_registeredNodes m))
  && (Z.of_nat (length (_discoveredNodes m)) <? MAX_DISCOVERED_NODES).

(** What a pairing session consists of, and what the timeout check reads:
    two managers agree on all of it. *)
Definition same_session (m m' : LoRaManager) : Prop :=
  _serial m' = _serial m
  /\ _initialized m' = _initialized m
  /\ _pairingState m' = _pairingState m
  /\ _pairingNodeID m' = _pairingNodeID m
  /\ _pairingStartTime m' = _pairingStartTime m
  /\ _pairingCallback m' = _pairingCallback m
  /\ pairing_events m' = pairing_events m.

(** Two managers that no operation tells apart: every member is the same
    but, while no session is in flight, the assigned ID the last session
    left behind. *)
Definition same_but_stale_id (m m' : LoRaManager) : Prop :=
  m' = set_pairingNodeID (_pairingNodeID m') m
  /\ (_pairingState m = PAIR_IDLE \/ _pairingNodeID m' = _pairingNodeID m).

(** The part of an entry that identifies it. *)
Definition keys (node : RegisteredNode) : Z * list Z * bool :=
  (nodeID node, macAddr node, valid node).

(** [unique_nodes] along the list: a valid entry's ID and MAC are not used
    by a valid entry further on. *)
Fixpoint uniq (nodes : list RegisteredNode) : Prop :=
  match nodes with
  | [] => True
  | a :: rest =>
      (valid a = true ->
       id_in_use (nodeID a) rest = false /\ mac_in_use (macAddr a) rest = false)
      /\ uniq rest
  end.

(** What every reachable manager satisfies: the registry has no repeated
    key, and a session in flight holds an ID and a MAC the registry does
    not use. *)
Definition pairing_inv (m : LoRaManager) : Prop :=
  uniq (_registeredNodes m)
  /\ (_pairingState m = PAIR_WAITING_ACK ->
      id_in_use (_pairingNodeID m) (_registeredNodes m) = false
      /\ mac_in_use (_pairingMAC m) (_registeredNodes m) = false).

(** ** Example states *)

Definition plain_node (id : Z) (mac : list Z) : RegisteredNode :=
  mkRegisteredNode id mac DEV_TYPE_RELAY_2CH (node_name id) 0 0 0 0 0 true true.

Definition three_nodes : LoRaManager :=
  set_registeredNodes
    [plain_node 1 [0xAA; 0; 0; 0; 0; 1];
     plain_node 2 [0xAA; 0; 0; 0; 0; 2];
     plain_node 3 [0xAA; 0; 0; 0; 0; 3]]
    LoRaManager_new.

Definition waiting_manager : LoRaManager :=
  snd (startPairing 1000 true [0xAA; 0xBB; 0xCC; 0x11; 0x22; 0x33]
         (onPairingComplete
            (set_initialized true (set_serial true three_nodes)))).

(** A manager after [begin] found no nodes file, with the pairing callback
    set. *)
Definition ready_manager : LoRaManager :=
  onPairingComplete (set_initialized true (set_serial true LoRaManager_new)).

(** One complete pairing of the MAC [AA:00:00:00:00:i]: the request, then
    the node's positive Ack to the Welcome. *)
Definition pair_ops (i : nat) : list Op :=
  [OpStartPairing 0 true [0xAA; 0; 0; 0; 0; Z.of_nat i];
   OpReceive 0 [PKG_ACK; 0; PKG_WELCOME; ERR_NONE]].

(** [MAX_NODES] pairings in a row. *)
Definition thirty_two_paired : LoRaManager :=
  run (flat_map pair_ops (seq 1 32)) ready_manager.

(** 254 pairings in a row: every ID of 1..254 is in use. *)
Definition all_ids_paired : LoRaManager :=
  run (flat_map pair_ops (seq 1 254)) ready_manager.

(** ArduinoJson's conversions on the values [saveNodes] writes. *)
Definition sample_as_uint8 (v : Json) : Z :=
  match v with
  | JNum z => if (0 <=? z) && (z <? 256) then z else 0
  | _ => 0
  end.

Definition sample_as_String (v : Json) : string :=
  match v with
  | JStr s => s
  | _ => "null"
  end.

(** The manager after the pairing of [waiting_manager] completed: four
    nodes, the last one online, all of them in the nodes file. *)
Definition paired_manager : LoRaManager :=
  _handleAck 1500 (mkAck PKG_ACK 4 PKG_WELCOME ERR_NONE) waiting_manager.

(** ** Vocabulary of the further properties *)

(** A node as the offline sweep leaves it. *)
Definition swept (now : Z) (node : RegisteredNode) : RegisteredNode :=
  if valid node && online node && (NODE_OFFLINE_THRESHOLD <? u32 (now - lastSeen node))
  then mkRegisteredNode (nodeID node) (macAddr node) (deviceType node) (name node)
         (relayStatus node) (lastRSSI node) (lastSNR node) (uptime node)
         (lastSeen node) false (valid node)
  else node.

(** The valid nodes that are online, not cut to eight bits. *)
Definition online_nodes (nodes : list RegisteredNode) : list RegisteredNode :=
  List.filter (fun node => valid node && online node) nodes.

(** Two managers agree on the scan window. *)
Definition same_scan (m m' : LoRaManager) : Prop :=
  _serial m' = _serial m
  /\ _initialized m' = _initialized m
  /\ _scanMode m' = _scanMode m
  /\ _scanStartTime m' = _scanStartTime m
  /\ _scanDuration m' = _scanDuration m.

(** An entry as a completed pairing makes it: valid, with an ID of 1..254
    and a MAC of six bytes. *)
Definition node_ok (node : RegisteredNode) : Prop :=
  valid node = true /\ 1 <= nodeID node <= 254 /\ length (macAddr node) = MAC_ADDR_LEN.

(** Every entry is such an entry, and a session in flight holds an ID of
    1..254. *)
Definition reg_range (m : LoRaManager) : Prop :=
  Forall node_ok (_registeredNodes m)
  /\ (_pairingState m = PAIR_WAITING_ACK -> 1 <= _pairingNodeID m <= 254).

(** No two discovered entries share a MAC. *)
Definition distinct_discovered (l : list DiscoveredNode) : Prop :=
  forall (i j : nat) (a b : DiscoveredNode),
    i <> j -> l !! i = Some a -> l !! j = Some b ->
    memcmp (d_macAddr a) (d_macAddr b) MAC_ADDR_LEN <> 0.

(** [distinct_discovered] along the list. *)
Fixpoint uniq_d (l : list DiscoveredNode) : Prop :=
  match l with
  | [] => True
  | a :: rest =>
      existsb (fun d => memcmp (d_macAddr d) (d_macAddr a) MAC_ADDR_LEN =? 0) rest = false
      /\ uniq_d rest
  end.

Definition disc_inv (m : LoRaManager) : Prop :=
  Z.of_nat (length (_discoveredNodes m)) <= MAX_DISCOVERED_NODES
  /\ uniq_d (_discoveredNodes m)
  /\ Forall (fun d => d_valid d = true) (_discoveredNodes m).

(** A node as [loadNodes] brings it back: the persisted fields, the rest
    reset. *)
Definition reloaded (node : RegisteredNode) : RegisteredNode :=
  mkRegisteredNode (nodeID node) (macAddr node) (deviceType node) (name node)
    0 0 0 0 0 false true.

(** What the fields of an entry are by their C++ types: bytes, six of them
    for the MAC, and a name that fits [char name[32]]. *)
Definition storable (node : RegisteredNode) : Prop :=
  is_u8 (nodeID node)
  /\ is_u8 (deviceType node)
  /\ length (macAddr node) = MAC_ADDR_LEN
  /\ Forall is_u8 (macAddr node)
  /\ (String.length (name node) <= 31)%nat.

(** ** Vocabulary for the node *)

(** The relay pins are driven as the bitmap says, and the bitmap uses the
    two relay bits only. *)
Definition relays_agree (n : NodeFirmware.Node) : Prop :=
  0 <= NodeFirmware.relayStatus n <= 3
  /\ NodeFirmware.relay_1_pin n = Z.testbit (NodeFirmware.relayStatus n) 0
  /\ NodeFirmware.relay_2_pin n = Z.testbit (NodeFirmware.relayStatus n) 1.

(** The radio parameters are inside the ranges the firmware accepts. *)
Definition radio_in_range (n : NodeFirmware.Node) : Prop :=
  863000000 <= NodeFirmware.loraFrequency n <= 870000000
  /\ 7 <= NodeFirmware.loraSF n <= 12
  /\ NodeFirmware.loraBW n <= 2
  /\ 1 <= NodeFirmware.loraCR n <= 4
  /\ -4 <= NodeFirmware.loraTxPower n <= 22.

(** The flash holds the node's ID under a valid magic byte. *)
Definition id_in_flash (n : NodeFirmware.Node) : Prop :=
  NodeFirmware.nvm_magic (NodeFirmware.flash n) = NodeFirmware.NVM_MAGIC_VALUE
  /\ NodeFirmware.nvm_node_id (NodeFirmware.flash n) = NodeFirmware.nodeID n.

(** What one pass of the main loop is given: the clock at the top of the
    pass, the random number generator's next value, the frame received
    since the last pass (with its RSSI and SNR and the clock value its
    handler reads), the clock value a periodic Data report reads, and the
    clock value [setup] reads should the pass end in a reboot. *)
Record LoopInput := mkLoopInput {
  in_currentTime : Z;
  in_random : Z;
  in_rx : option (list Z * Z * Z * Z);
  in_reportTime : Z;
  in_bootTime : Z
}.

(** One pass of the loop; a reboot starts the firmware again over the flash
    as the pass left it. *)
Definition node_step (chipId : list Z) (i : LoopInput) (n : NodeFirmware.Node)
  : NodeFirmware.Node :=
  let n1 :=
    NodeFirmware.loop (in_currentTime i) (in_random i) (in_rx i) (in_reportTime i)
      n in
  if NodeFirmware.rebooted n1
  then NodeFirmware.setup chipId (in_bootTime i) (in_random i) (NodeFirmware.flash n1)
  else n1.

Definition run_node (chipId : list Z) (inputs : list LoopInput)
  (n : NodeFirmware.Node) : NodeFirmware.Node :=
  fold_left (fun n i => node_step chipId i n) inputs n.

(** What holds of a node at every pass of its loop. *)
Definition node_inv (chipId : list Z) (n : NodeFirmware.Node) : Prop :=
  relays_agree n
  /\ radio_in_range n
  /\ NodeFirmware.macAddr n = NodeFirmware.generateMAC chipId
  /\ NodeFirmware.rebooted n = false
  /\ NodeFirmware.deviceState n <> NodeFirmware.STATE_INIT
  /\ (NodeFirmware.deviceState n = NodeFirmware.STATE_DISCOVERY ->
      NodeFirmware.nodeID n = NODE_ID_UNASSIGNED)
  /\ (NodeFirmware.deviceState n = NodeFirmware.STATE_NORMAL -> id_in_flash n).

(** *** Example nodes *)

Definition sample_chipId : list Z :=
  map (fun c => Z.of_nat (nat_of_ascii c)) (list_ascii_of_string "AC1F09FFFE0A1B2C").

Definition blank_flash : NodeFirmware.Flash :=
  NodeFirmware.mkFlash 0xFF 0xFF 0xFFFFFFFF 0xFF 0xFF.

(** A node switched on for the first time. *)
Definition fresh_node : NodeFirmware.Node :=
  NodeFirmware.setup sample_chipId 0 0 blank_flash.

(** The same node after the Welcome that assigns it the ID 1. *)
Definition joined_node : NodeFirmware.Node :=
  NodeFirmware.receive 5000
    (PKG_WELCOME :: NodeFirmware.generateMAC sample_chipId ++ [1; 0]) (-50) 10
    fresh_node.

Definition sample_as_bool (v : Json) : bool :=
  match v with
  | JBool b => b
  | JNum z => negb (z =? 0)
  | JNull => false
  | _ => true
  end.

(** Projections of updated managers. *)
Ltac fields :=
  cbn [_serial _initialized _scanMode _scanStartTime _scanDuration
       _discoveredNodes _pairingState _pairingMAC _pairingNodeID
       _pairingStartTime _registeredNodes _nodeDataCallback
       _nodeDiscoveredCallback _pairingCallback _lastNodeCheck _nodesFile
       _fsOpenFails _events set_serial set_initialized set_scanMode
       set_scanStartTime set_scanDuration set_discoveredNodes
       set_pairingState set_pairingMAC set_pairingNodeID
       set_pairingStartTime set_registeredNodes set_nodeDataCallback
       set_nodeDiscoveredCallback set_pairingCallback set_lastNodeCheck
       set_nodesFile set_events emit onNodeData onNodeDiscovered
       onPairingComplete fst snd].

(** * Properties *)

(** ** MAC text round trip *)

Module MacTextFacts.

Local Open Scope char_scope.

Ltac nibble_cases d :=
  let H := fresh in
  assert (H : (d = 0 \/ d = 1 \/ d = 2 \/ d = 3 \/ d = 4 \/ d = 5 \/ d = 6 \/ d = 7
               \/ d = 8 \/ d = 9 \/ d = 10 \/ d = 11 \/ d = 12 \/ d = 13
               \/ d = 14 \/ d = 15)%Z) by lia;
  repeat (destruct H as [H | H]; [subst d |]); [.. | subst d].

Lemma hex_upper_is_digit (d : Z) :
  (0 <= d < 16)%Z -> is_upper_hex_digit (hex_upper d) = true.
Proof. intros Hd. nibble_cases d; reflexivity. Qed.

Lemma fmt_02X_byte (v : Z) :
  (0 <= v < 256)%Z -> fmt_02X v = [hex_upper (v / 16); hex_upper (v mod 16)].
Proof.
  intros Hv. unfold fmt_02X, u32.
  rewrite (Z.mod_small v) by lia.
  assert (Hq : (0 <= v / 16 < 16)%Z)
    by (split; [apply Z.div_pos; lia | apply Z.div_lt_upper_bound; lia]).
  cbn [hex_digits].
  destruct (v / 16 =? 0)%Z eqn:E.
  - apply Z.eqb_eq in E. rewrite E. reflexivity.
  - rewrite (Z.mod_small (v / 16)) by lia.
    replace (v / 16 / 16)%Z with 0%Z by (symmetry; apply Z.div_small; lia).
    reflexivity.
Qed.

Lemma scan_hex_digits_stop (rest : string) (acc : Z) :
  starts_with_hex_digit rest = false -> scan_hex_digits rest acc = (acc, rest).
Proof.
  destruct rest as [| c r]; [reflexivity |].
  cbn. destruct (hex_val c); [discriminate | reflexivity].
Qed.

Lemma scan_hex_digits_step (c : ascii) (r : string) (acc : Z) :
  scan_hex_digits (String c r) acc
  = match hex_val c with
    | Some d => scan_hex_digits r (acc * 16 + d)
    | None => (acc, String c r)
    end.
Proof. reflexivity. Qed.

(** A [%x] conversion reads back the two digits [%02X] printed. *)
Lemma scan_x_two_digits (a b : Z) (rest : string) :
  (0 <= a < 16)%Z -> (0 <= b < 16)%Z ->
  starts_with_hex_digit rest = false ->
  scan_x (String (hex_upper a) (String (hex_upper b) rest))
  = Some ((a * 16 + b)%Z, rest).
Proof.
  intros Ha Hb Hrest.
  nibble_cases a; nibble_cases b;
    cbv - [scan_hex_digits u32];
    do 2 (rewrite scan_hex_digits_step; cbv - [scan_hex_digits u32]);
    rewrite (scan_hex_digits_stop _ _ Hrest); reflexivity.
Qed.

Lemma byte_nibbles (v : Z) :
  (0 <= v < 256)%Z ->
  (0 <= v / 16 < 16)%Z /\ (0 <= v mod 16 < 16)%Z /\ (v / 16 * 16 + v mod 16 = v)%Z.
Proof.
  intros Hv. repeat split.
  - apply Z.div_pos; lia.
  - apply Z.div_lt_upper_bound; lia.
  - apply Z.mod_pos_bound; lia.
  - apply Z.mod_pos_bound; lia.
  - pose proof (Z.div_mod v 16). lia.
Qed.

(** The text [macToString] produces for six bytes. *)
Lemma macToString_bytes (a b c d e f : Z) :
  is_u8 a -> is_u8 b -> is_u8 c -> is_u8 d -> is_u8 e -> is_u8 f ->
  macToString [a; b; c; d; e; f]
  = string_of_chars
      [hex_upper (a / 16); hex_upper (a mod 16); ":";
       hex_upper (b / 16); hex_upper (b mod 16); ":";
       hex_upper (c / 16); hex_upper (c mod 16); ":";
       hex_upper (d / 16); hex_upper (d mod 16); ":";
       hex_upper (e / 16); hex_upper (e mod 16); ":";
       hex_upper (f / 16); hex_upper (f mod 16)].
Proof.
  unfold is_u8, macToString. intros Ha Hb Hc Hd He Hf.
  cbn [nth]. rewrite !fmt_02X_byte by assumption. reflexivity.
Qed.

End MacTextFacts.

(** Reading back what [macToString] printed. *)
Lemma stringToMAC_macToString (x mac0 : list Z) :
  length x = MAC_ADDR_LEN -> Forall is_u8 x ->
  stringToMAC (macToString x) mac0 = (true, x).
Proof.
  intros Hlen Hx.
  destruct x as [| a [| b [| c [| d [| e [| f [| ? ?]]]]]]]; try discriminate Hlen.
  repeat match goal with
         | H : Forall _ (_ :: _) |- _ => apply Forall_cons_1 in H; destruct H
         end.
  rewrite MacTextFacts.macToString_bytes by assumption.
  repeat match goal with
         | H : is_u8 ?v |- _ =>
             destruct (MacTextFacts.byte_nibbles v H) as (? & ? & ?); clear H
         end.
  unfold stringToMAC. cbn [string_of_chars String.length Nat.ltb Nat.leb].
  cbn [sscanf_hex_colon].
  rewrite !MacTextFacts.scan_x_two_digits by (assumption || reflexivity).
  cbn [length Nat.eqb negb map]. unfold u8.
  repeat match goal with
         | H : (?q * 16 + ?r)%Z = _ |- context [(?q * 16 + ?r)%Z] => rewrite H
         end.
  rewrite !Z.mod_small by lia. reflexivity.
Qed.

(** C8.  For every sequence [x] of six bytes, [stringToMAC] applied to
    [macToString x] returns true and writes exactly [x], whatever the
    destination held before; and [macToString x] has the form
    [XX:XX:XX:XX:XX:XX] of six colon-separated pairs of uppercase
    hexadecimal digits. *)
Theorem mac_round_trip (x mac0 : list Z) :
  length x = MAC_ADDR_LEN -> Forall is_u8 x ->
  stringToMAC (macToString x) mac0 = (true, x)
  /\ mac_text_form (macToString x) = true.
Proof.
  intros Hlen Hx. split; [now apply stringToMAC_macToString |].
  destruct x as [| a [| b [| c [| d [| e [| f [| ? ?]]]]]]]; try discriminate Hlen.
  repeat match goal with
         | H : Forall _ (_ :: _) |- _ => apply Forall_cons_1 in H; destruct H
         end.
  rewrite MacTextFacts.macToString_bytes by assumption.
  repeat match goal with
         | H : is_u8 ?v |- _ =>
             destruct (MacTextFacts.byte_nibbles v H) as (? & ? & ?); clear H
         end.
  unfold mac_text_form. cbn [string_of_chars colon_hex_groups].
  rewrite !MacTextFacts.hex_upper_is_digit by assumption. reflexivity.
Qed.

Lemma mac_round_trip_witness :
  stringToMAC (macToString [0xAA; 0xBB; 0xCC; 0x11; 0x22; 0x33]) []
  = (true, [0xAA; 0xBB; 0xCC; 0x11; 0x22; 0x33])
  /\ mac_text_form (macToString [0xAA; 0xBB; 0xCC; 0x11; 0x22; 0x33]) = true.
Proof.
  apply (mac_round_trip [0xAA; 0xBB; 0xCC; 0x11; 0x22; 0x33] []).
  - reflexivity.
  - repeat constructor; unfold is_u8; lia.
Defined.

(** ** ID allocation *)

Module Allocation.

Lemma mark_used_lookup (nodes : list RegisteredNode) :
  forall (used : list bool) (k : Z) (b : bool),
    1 <= k <= 254 ->
    length used = 256%nat ->
    used !! Z.to_nat k = Some b ->
    fold_left
      (fun used node =>
         if valid node then <[Z.to_nat (nodeID node) := true]> used else used)
      nodes used !! Z.to_nat k
    = Some (b || id_in_use k nodes).
Proof.
  induction nodes as [| a nodes IH]; intros used k b Hk Hlen Hb; cbn [fold_left].
  - cbn. now rewrite orb_false_r.
  - unfold id_in_use. cbn [existsb]. fold (id_in_use k nodes).
    unfold node_matches at 1.
    destruct (valid a) eqn:Hv; cbn [andb].
    + destruct (Z.eqb_spec (nodeID a) k) as [-> | Hne].
      * rewrite (IH _ k true); try assumption.
        -- cbn. now rewrite orb_true_r.
        -- now rewrite length_insert.
        -- apply list_lookup_insert_eq. lia.
      * rewrite (IH _ k b); try assumption.
        -- reflexivity.
        -- now rewrite length_insert.
        -- rewrite list_lookup_insert_ne by lia. assumption.
    + now apply IH.
Qed.

Lemma used_table_lookup (nodes : list RegisteredNode) (k : Z) :
  1 <= k <= 254 -> used_table nodes !! Z.to_nat k = Some (id_in_use k nodes).
Proof.
  intros Hk. unfold used_table.
  rewrite (mark_used_lookup nodes _ k false Hk).
  - reflexivity.
  - now rewrite !length_insert, length_replicate.
  - rewrite !list_lookup_insert_ne by lia.
    apply lookup_replicate_2. lia.
Qed.

(** The scan returns the first index from [id] on whose entry is clear, and
    0 when the [count] entries from [id] on are all set. *)
Lemma first_free_scan (used : list bool) (count : nat) :
  forall id : Z,
    1 <= id ->
    (forall k, id <= k < id + Z.of_nat count -> exists b, used !! Z.to_nat k = Some b) ->
    let r := first_free used id count in
    (r = 0 /\ forall k, id <= k < id + Z.of_nat count -> used !! Z.to_nat k = Some true)
    \/ (id <= r < id + Z.of_nat count
        /\ used !! Z.to_nat r = Some false
        /\ forall k, id <= k < r -> used !! Z.to_nat k = Some true).
Proof.
  induction count as [| count IH]; intros id Hid Hdef; cbn [first_free].
  - left. split; [reflexivity | intros k Hk; lia].
  - destruct (Hdef id ltac:(lia)) as [b Hb]. rewrite Hb.
    destruct b.
    + destruct (IH (id + 1) ltac:(lia)) as [[Hr Hall] | (Hr & Hfree & Hbelow)].
      * intros k Hk. apply Hdef. lia.
      * left. split; [exact Hr |]. intros k Hk.
        destruct (Z.eq_dec k id) as [-> | Hne]; [assumption | apply Hall; lia].
      * right. split; [lia |]. split; [assumption |]. intros k Hk.
        destruct (Z.eq_dec k id) as [-> | Hne]; [assumption | apply Hbelow; lia].
    + right. split; [lia |]. split; [assumption |]. intros k Hk. lia.
Qed.

(** What [_getNextFreeID] computes, on the registry alone. *)
Lemma next_free_cases (m : LoRaManager) :
  let r := _getNextFreeID m in
  let nodes := _registeredNodes m in
  (r = 0 /\ forall k, 1 <= k <= 254 -> id_in_use k nodes = true)
  \/ (1 <= r <= 254
      /\ id_in_use r nodes = false
      /\ forall k, 1 <= k < r -> id_in_use k nodes = true).
Proof.
  cbv zeta. unfold _getNextFreeID.
  destruct (first_free_scan (used_table (_registeredNodes m)) 254 1 ltac:(lia))
    as [[Hr Hall] | (Hr & Hfree & Hbelow)].
  - intros k Hk. eexists. apply used_table_lookup. lia.
  - left. split; [exact Hr |]. intros k Hk.
    specialize (Hall k ltac:(lia)).
    rewrite used_table_lookup in Hall by lia. congruence.
  - right. split; [lia |].
    rewrite used_table_lookup in Hfree by lia.
    split; [congruence |]. intros k Hk.
    specialize (Hbelow k Hk).
    rewrite used_table_lookup in Hbelow by lia. congruence.
Qed.

End Allocation.

Lemma saveNodes_registeredNodes (m : LoRaManager) :
  _registeredNodes (snd (saveNodes m)) = _registeredNodes m.
Proof. unfold saveNodes. destruct (_fsOpenFails m); reflexivity. Qed.

Lemma removeNode_registeredNodes (id : Z) (m m' : LoRaManager) :
  removeNode id m = (true, m') ->
  erase_first id (_registeredNodes m) = Some (_registeredNodes m').
Proof.
  unfold removeNode. destruct (erase_first id (_registeredNodes m)) as [nodes |].
  - intros [= <-]. now rewrite saveNodes_registeredNodes.
  - discriminate.
Qed.

Lemma erase_first_frees (id : Z) (l l' : list RegisteredNode) :
  NoDup (map nodeID l) -> erase_first id l = Some l' -> id_in_use id l' = false.
Proof.
  revert l'. induction l as [| a l IH]; intros l' Hnd H; cbn in H; [discriminate |].
  cbn [map] in Hnd. apply NoDup_cons_1_1 in Hnd as Hnotin.
  apply NoDup_cons_1_2 in Hnd as Hnd'.
  destruct (Z.eqb_spec (nodeID a) id) as [Heq | Hne].
  - injection H as <-. unfold id_in_use.
    apply not_true_is_false. intros Hex.
    apply existsb_exists in Hex as (x & Hin & Hx).
    unfold node_matches in Hx. apply andb_prop in Hx as [_ Hx].
    apply Z.eqb_eq in Hx. apply Hnotin.
    apply list_elem_of_In. rewrite Heq, <- Hx. now apply in_map.
  - destruct (erase_first id l) as [r |] eqn:E; [| discriminate].
    injection H as <-. unfold id_in_use. cbn [existsb].
    unfold node_matches at 1.
    rewrite (proj2 (Z.eqb_neq _ _) Hne), andb_false_r. cbn [orb].
    now apply IH.
Qed.

(** Once [id] is free, the allocator returns an ID no larger than [id]. *)
Lemma next_free_le (k : Z) (m : LoRaManager) :
  1 <= k <= 254 ->
  id_in_use k (_registeredNodes m) = false ->
  1 <= _getNextFreeID m <= k
  /\ ((forall j, 1 <= j < k -> id_in_use j (_registeredNodes m) = true) ->
      _getNextFreeID m = k).
Proof.
  intros Hk Hfree.
  destruct (Allocation.next_free_cases m) as [[Hr Hall] | (Hr & Hfree' & Hbelow)];
    cbv zeta in *.
  - rewrite Hall in Hfree by lia. discriminate.
  - assert (Hle : _getNextFreeID m <= k).
    { destruct (Z.le_gt_cases (_getNextFreeID m) k) as [? | Hgt]; [assumption |].
      rewrite Hbelow in Hfree by lia. discriminate. }
    split; [lia |]. intros Hlow.
    destruct (Z.eq_dec (_getNextFreeID m) k) as [? | Hne]; [assumption |].
    rewrite Hlow in Hfree' by lia. discriminate.
Qed.

(** C7.  [_getNextFreeID] returns a value in 0..254, never 255.  A result
    other than 0 is an ID in 1..254 that no valid registered node uses, and
    every smaller ID from 1 on is in use; the result is the sentinel 0
    exactly when every ID of 1..254 is in use.  After [removeNode k] took
    the node with ID [k] out of a registry without repeated IDs, the next
    allocation returns an ID no larger than [k], and [k] itself when the
    IDs below it are still in use. *)
Theorem getNextFreeID_smallest_free (m : LoRaManager) :
  let nodes := _registeredNodes m in
  let r := _getNextFreeID m in
  0 <= r <= 254
  /\ (r <> 0 ->
      id_in_use r nodes = false /\ forall k, 1 <= k < r -> id_in_use k nodes = true)
  /\ (r = 0 <-> forall k, 1 <= k <= 254 -> id_in_use k nodes = true)
  /\ (forall k m',
        1 <= k <= 254 ->
        NoDup (map nodeID nodes) ->
        removeNode k m = (true, m') ->
        1 <= _getNextFreeID m' <= k
        /\ ((forall j, 1 <= j < k -> id_in_use j (_registeredNodes m') = true) ->
            _getNextFreeID m' = k)).
Proof.
  cbv zeta. repeat split.
  - destruct (Allocation.next_free_cases m) as [[Hr _] | (Hr & _)];
      cbv zeta in *; lia.
  - destruct (Allocation.next_free_cases m) as [[Hr _] | (Hr & _)];
      cbv zeta in *; lia.
  - destruct (Allocation.next_free_cases m) as [[Hr _] | (_ & Hfree & _)];
      cbv zeta in *; [congruence | assumption].
  - destruct (Allocation.next_free_cases m) as [[Hr _] | (_ & _ & Hbelow)];
      cbv zeta in *; [congruence | assumption].
  - destruct (Allocation.next_free_cases m) as [[_ Hall] | (Hr & _)];
      cbv zeta in *; [intros _; assumption | lia].
  - intros Hall.
    destruct (Allocation.next_free_cases m) as [[Hr _] | (Hr & Hfree & _)];
      cbv zeta in *; [assumption |].
    rewrite Hall in Hfree by lia. discriminate.
  - apply removeNode_registeredNodes in H1.
    apply (next_free_le k m' H), (erase_first_frees _ _ _ H0 H1).
  - apply removeNode_registeredNodes in H1.
    apply (next_free_le k m' H), (erase_first_frees _ _ _ H0 H1).
  - apply removeNode_registeredNodes in H1.
    apply (next_free_le k m' H), (erase_first_frees _ _ _ H0 H1).
Qed.

(** With nodes 1, 2 and 3 registered the allocator returns 4; once node 2 is
    removed it returns 2 again. *)
Lemma getNextFreeID_reuse_witness :
  _getNextFreeID three_nodes = 4
  /\ _getNextFreeID (snd (removeNode 2 three_nodes)) = 2.
Proof.
  split; [reflexivity |].
  destruct (getNextFreeID_smallest_free three_nodes) as (_ & _ & _ & Hchurn).
  apply (Hchurn 2 (snd (removeNode 2 three_nodes))).
  - lia.
  - cbn. repeat constructor; rewrite ?list_elem_of_In; cbn; intuition discriminate.
  - reflexivity.
  - intros j Hj. assert (j = 1) as -> by lia. reflexivity.
Defined.

(** ** Pairing: the state and MAC tests *)

Lemma PairingState_eqb_eq (a b : PairingState_t) :
  PairingState_eqb a b = true <-> a = b.
Proof. destruct a, b; cbn; split; congruence. Qed.

Lemma isNodeRegistered_mac_in_use (mac : list Z) (m : LoRaManager) :
  _isNodeRegistered mac m = mac_in_use mac (_registeredNodes m).
Proof. reflexivity. Qed.

(** ** Pairing: the answer to a Welcome *)

Lemma memcpy_all (l : list Z) : memcpy l (length l) = l.
Proof.
  unfold memcpy. induction l as [| a l IH]; [reflexivity |].
  cbn [length seq map nth]. f_equal.
  rewrite <- seq_shift, map_map. exact IH.
Qed.

Lemma saveNodes_snd (m : LoRaManager) :
  snd (saveNodes m)
  = emit (EvSaveNodes (negb (_fsOpenFails m)))
      (if _fsOpenFails m then m
       else set_nodesFile (JsonFile (nodes_document (_registeredNodes m))) m).
Proof. unfold saveNodes. destruct (_fsOpenFails m); reflexivity. Qed.

(** What a positive answer to the Welcome leaves behind. *)
Lemma handleAck_success (now : Z) (pkt : AckPacket_t) (m : LoRaManager) :
  _pairingState m = PAIR_WAITING_ACK ->
  ack_ackType pkt = PKG_WELCOME ->
  ack_status pkt = ERR_NONE ->
  let m' := _handleAck now pkt m in
  _registeredNodes m' = _registeredNodes m ++ [paired_node now m]
  /\ _events m'
     = (_events m ++ [EvSaveNodes (negb (_fsOpenFails m))])
       ++ (if _pairingCallback m then [EvPairingCallback (_pairingNodeID m) true]
           else [])
  /\ _pairingState m' = PAIR_IDLE
  /\ _pairingNodeID m' = _pairingNodeID m
  /\ _pairingMAC m' = _pairingMAC m
  /\ _discoveredNodes m' = _discoveredNodes m.
Proof.
  intros Hst Hty Hok. cbv zeta. unfold _handleAck.
  rewrite Hst, Hty, Hok. cbn [PairingState_eqb andb].
  change (PKG_WELCOME =? PKG_WELCOME) with true.
  change (ERR_NONE =? ERR_NONE) with true. cbv iota.
  rewrite saveNodes_snd. unfold fire_pairing.
  destruct (_fsOpenFails m) eqn:Efs; destruct (_pairingCallback m) eqn:Ecb;
    repeat (progress (fields; rewrite ?Efs, ?Ecb)); rewrite ?app_nil_r;
    repeat (split; [reflexivity |]); reflexivity.
Qed.

(** What a negative answer to the Welcome leaves behind. *)
Lemma handleAck_failure (now : Z) (pkt : AckPacket_t) (m : LoRaManager) :
  _pairingState m = PAIR_WAITING_ACK ->
  ack_ackType pkt = PKG_WELCOME ->
  ack_status pkt <> ERR_NONE ->
  let m' := _handleAck now pkt m in
  _registeredNodes m' = _registeredNodes m
  /\ _events m'
     = _events m
       ++ (if _pairingCallback m then [EvPairingCallback (_pairingNodeID m) false]
           else [])
  /\ _pairingState m' = PAIR_IDLE
  /\ _pairingNodeID m' = _pairingNodeID m
  /\ _pairingMAC m' = _pairingMAC m
  /\ _discoveredNodes m' = _discoveredNodes m.
Proof.
  intros Hst Hty Hbad. cbv zeta. unfold _handleAck.
  rewrite Hst, Hty. cbn [PairingState_eqb andb].
  change (PKG_WELCOME =? PKG_WELCOME) with true. cbv iota.
  rewrite (proj2 (Z.eqb_neq _ _) Hbad). unfold fire_pairing.
  destruct (_pairingCallback m) eqn:Ecb;
    fields; rewrite ?Ecb; fields; rewrite ?app_nil_r;
    repeat (split; [reflexivity |]); reflexivity.
Qed.

(** C2.  In a session that is WaitingAck with assigned ID [k] and target
    MAC [mac], an Ack for the Welcome with status OK appends one node to
    the registry, with ID [k], MAC [mac] and the device type of a
    discovered entry with that MAC (the default type when there is none);
    [saveNodes] runs, the pairing callback is called once, with [(k, true)],
    and the pairing state is Idle again. *)
Theorem handleAck_welcome_ok (now : Z) (pkt : AckPacket_t) (m : LoRaManager) :
  _pairingState m = PAIR_WAITING_ACK ->
  ack_ackType pkt = PKG_WELCOME ->
  ack_status pkt = ERR_NONE ->
  _pairingCallback m = true ->
  length (_pairingMAC m) = MAC_ADDR_LEN ->
  let k := _pairingNodeID m in
  let mac := _pairingMAC m in
  let m' := _handleAck now pkt m in
  exists node : RegisteredNode,
    _registeredNodes m' = _registeredNodes m ++ [node]
    /\ nodeID node = k
    /\ macAddr node = mac
    /\ valid node = true
    /\ ((exists d, In d (_discoveredNodes m)
                   /\ memcmp (d_macAddr d) mac MAC_ADDR_LEN = 0
                   /\ deviceType node = d_deviceType d)
        \/ ((forall d, In d (_discoveredNodes m) ->
                       memcmp (d_macAddr d) mac MAC_ADDR_LEN <> 0)
            /\ deviceType node = DEV_TYPE_RELAY_2CH))
    /\ _events m'
       = _events m ++ [EvSaveNodes (negb (_fsOpenFails m)); EvPairingCallback k true]
    /\ _pairingState m' = PAIR_IDLE.
Proof.
  intros Hst Hty Hok Hcb Hlen. cbv zeta.
  destruct (handleAck_success now pkt m Hst Hty Hok) as (Hreg & Hev & Hidle & _).
  exists (paired_node now m).
  split; [exact Hreg |]. split; [reflexivity |].
  split; [cbn [paired_node macAddr]; rewrite <- Hlen; apply memcpy_all |].
  split; [reflexivity |].
  split.
  - cbn [paired_node deviceType]. unfold paired_deviceType.
    destruct (find _ (_discoveredNodes m)) as [d |] eqn:Efind.
    + left. exists d. apply find_some in Efind as [Hin Hd].
      apply Z.eqb_eq in Hd. auto.
    + right. split; [| reflexivity]. intros d Hin.
      apply (find_none _ _ Efind) in Hin. now apply Z.eqb_neq.
  - split; [| exact Hidle].
    rewrite Hev, Hcb, <- app_assoc. reflexivity.
Qed.

(** Scenario B: the node [AA:BB:CC:11:22:33] being paired gets ID 4 here. *)
Lemma handleAck_welcome_ok_witness :
  exists node : RegisteredNode,
    _registeredNodes (_handleAck 1500 (mkAck PKG_ACK 4 PKG_WELCOME ERR_NONE) waiting_manager)
    = _registeredNodes waiting_manager ++ [node]
    /\ nodeID node = 4
    /\ macAddr node = [0xAA; 0xBB; 0xCC; 0x11; 0x22; 0x33].
Proof.
  destruct (handleAck_welcome_ok 1500 (mkAck PKG_ACK 4 PKG_WELCOME ERR_NONE)
              waiting_manager)
    as (node & Hreg & Hid & Hmac & _); try reflexivity.
  exists node. split; [exact Hreg |]. split; [exact Hid | exact Hmac].
Defined.

(** ** Pairing: the Ack's own node ID *)

Lemma filter_pairing_app (l1 l2 : list Event) :
  List.filter is_pairing_event (l1 ++ l2)
  = List.filter is_pairing_event l1 ++ List.filter is_pairing_event l2.
Proof. apply List.filter_app. Qed.

(** C10.  [_handleAck] never reads the [nodeID] field of the packet: two
    Acks that agree on [ackType] and [status] take the manager to the same
    state, also as raw frames that differ in the ID byte only.  For an Ack
    to the Welcome in a session that is WaitingAck, the node registered on
    success carries the stored assigned ID and the stored target MAC, a
    failure registers nothing, and the callback receives the stored
    assigned ID. *)
Theorem handleAck_ignores_packet_nodeID (now : Z) (p1 p2 : AckPacket_t)
  (m : LoRaManager) :
  ack_ackType p1 = ack_ackType p2 ->
  ack_status p1 = ack_status p2 ->
  _handleAck now p1 m = _handleAck now p2 m
  /\ (forall id1 id2 rest,
        _handlePacket now (PKG_ACK :: id1 :: ack_ackType p1 :: ack_status p1 :: rest) m
        = _handlePacket now (PKG_ACK :: id2 :: ack_ackType p1 :: ack_status p1 :: rest) m)
  /\ (_pairingState m = PAIR_WAITING_ACK ->
      ack_ackType p1 = PKG_WELCOME ->
      let m' := _handleAck now p1 m in
      let ok := ack_status p1 =? ERR_NONE in
      _registeredNodes m'
      = _registeredNodes m ++ (if ok then [paired_node now m] else [])
      /\ nodeID (paired_node now m) = _pairingNodeID m
      /\ macAddr (paired_node now m) = memcpy (_pairingMAC m) MAC_ADDR_LEN
      /\ pairing_events m'
         = pairing_events m
           ++ (if _pairingCallback m
               then [EvPairingCallback (_pairingNodeID m) ok] else [])
      /\ _pairingState m' = PAIR_IDLE).
Proof.
  intros Hty Hstatus. split; [| split].
  - unfold _handleAck. rewrite Hty, Hstatus. reflexivity.
  - intros id1 id2 rest. reflexivity.
  - intros Hst Hw. cbv zeta. unfold pairing_events.
    destruct (Z.eqb_spec (ack_status p1) ERR_NONE) as [Hok | Hbad].
    + destruct (handleAck_success now p1 m Hst Hw Hok)
        as (Hreg & Hev & Hidle & _).
      rewrite Hreg, Hev, !filter_pairing_app.
      split; [reflexivity |]. split; [reflexivity |]. split; [reflexivity |].
      split; [| exact Hidle].
      cbn [List.filter is_pairing_event]. rewrite app_nil_r.
      destruct (_pairingCallback m); reflexivity.
    + destruct (handleAck_failure now p1 m Hst Hw Hbad)
        as (Hreg & Hev & Hidle & _).
      rewrite Hreg, Hev, filter_pairing_app, app_nil_r.
      split; [reflexivity |]. split; [reflexivity |]. split; [reflexivity |].
      split; [| exact Hidle].
      destruct (_pairingCallback m); reflexivity.
Qed.

(** Node 9 answers the Welcome that assigned ID 4: ID 4 is registered. *)
Lemma handleAck_ignores_packet_nodeID_witness :
  _handleAck 1500 (mkAck PKG_ACK 9 PKG_WELCOME ERR_NONE) waiting_manager
  = _handleAck 1500 (mkAck PKG_ACK 4 PKG_WELCOME ERR_NONE) waiting_manager.
Proof.
  apply (handleAck_ignores_packet_nodeID 1500
           (mkAck PKG_ACK 9 PKG_WELCOME ERR_NONE)
           (mkAck PKG_ACK 4 PKG_WELCOME ERR_NONE) waiting_manager);
    reflexivity.
Defined.

(** ** Discovery gating *)

Lemma app_one_neq {A} (l : list A) (x : A) : l ++ [x] <> l.
Proof.
  intros H. apply (f_equal (@length A)) in H.
  rewrite length_app in H. cbn in H. lia.
Qed.

(** C6.  A Hello appends an entry to the discovered list exactly when a scan
    is active, its MAC is not in the discovered list, its MAC is not that of
    a valid registered node, and the list holds fewer than 16 entries; the
    entry then goes to the end of the list and the discovery callback, when
    one is set, is called once with it.  Otherwise the manager is left as it
    was: a Hello from a registered MAC adds nothing whatever the scan state,
    and a Hello that finds 16 entries adds nothing and removes none. *)
Theorem handleHello_gating (now : Z) (pkt : HelloPacket_t) (rssi snr : Z)
  (m : LoRaManager) :
  let m' := _handleHello now pkt rssi snr m in
  let node := discovered_of_hello now pkt rssi snr in
  (hello_accepted pkt m = true ->
   _discoveredNodes m' = _discoveredNodes m ++ [node]
   /\ d_macAddr node = memcpy (hello_macAddr pkt) MAC_ADDR_LEN
   /\ _events m'
      = _events m
        ++ (if _nodeDiscoveredCallback m then [EvNodeDiscoveredCallback node] else [])
   /\ _registeredNodes m' = _registeredNodes m)
  /\ (hello_accepted pkt m = false -> m' = m)
  /\ (_discoveredNodes m' <> _discoveredNodes m <-> hello_accepted pkt m = true)
  /\ (mac_in_use (hello_macAddr pkt) (_registeredNodes m) = true -> m' = m)
  /\ (MAX_DISCOVERED_NODES <= Z.of_nat (length (_discoveredNodes m)) -> m' = m).
Proof.
  cbv zeta.
  assert (Hyes : hello_accepted pkt m = true ->
                 _handleHello now pkt rssi snr m
                 = _addDiscoveredNode now pkt rssi snr m
                   /\ (MAX_DISCOVERED_NODES <=? Z.of_nat (length (_discoveredNodes m)))
                      = false).
  { unfold hello_accepted, _handleHello, _isDuplicateDiscovered.
    rewrite isNodeRegistered_mac_in_use.
    intros H. apply andb_prop in H as [H Hlen]. apply andb_prop in H as [H Hreg].
    apply andb_prop in H as [Hscan Hdup].
    apply negb_true_iff in Hreg, Hdup. rewrite Hscan, Hdup, Hreg.
    split; [reflexivity |]. apply Z.ltb_lt in Hlen. apply Z.leb_gt. exact Hlen. }
  assert (Hno : hello_accepted pkt m = false -> _handleHello now pkt rssi snr m = m).
  { unfold hello_accepted, _handleHello, _isDuplicateDiscovered, _addDiscoveredNode.
    rewrite isNodeRegistered_mac_in_use.
    destruct (_scanMode m); cbn [negb andb]; [| reflexivity].
    destruct (existsb _ (_discoveredNodes m)); cbn [negb andb]; [reflexivity |].
    destruct (mac_in_use _ (_registeredNodes m)); cbn [negb andb]; [reflexivity |].
    intros H. apply Z.ltb_ge in H. apply Z.leb_le in H. rewrite H. reflexivity. }
  assert (Hadd : hello_accepted pkt m = true ->
                 _discoveredNodes (_handleHello now pkt rssi snr m)
                 = _discoveredNodes m ++ [discovered_of_hello now pkt rssi snr]
                 /\ _events (_handleHello now pkt rssi snr m)
                    = _events m
                      ++ (if _nodeDiscoveredCallback m
                          then [EvNodeDiscoveredCallback
                                  (discovered_of_hello now pkt rssi snr)]
                          else [])
                 /\ _registeredNodes (_handleHello now pkt rssi snr m)
                    = _registeredNodes m).
  { intros H. destruct (Hyes H) as [-> Hroom].
    unfold _addDiscoveredNode. rewrite Hroom. fields.
    destruct (_nodeDiscoveredCallback m) eqn:Ecb; fields; rewrite ?app_nil_r;
      repeat (split; [reflexivity |]); reflexivity. }
  split; [| split; [| split; [| split]]].
  - intros H. destruct (Hadd H) as (Hd & He & Hr).
    split; [exact Hd |]. split; [reflexivity |]. split; assumption.
  - exact Hno.
  - split.
    + intros Hne. destruct (hello_accepted pkt m); [reflexivity |].
      exfalso. apply Hne. now rewrite Hno.
    + intros H. destruct (Hadd H) as (-> & _). apply app_one_neq.
  - intros Hreg. apply Hno. unfold hello_accepted. rewrite Hreg.
    cbn [negb]. now rewrite andb_false_r.
  - intros Hfull. apply Hno. unfold hello_accepted.
    rewrite (proj2 (Z.ltb_ge _ _) Hfull). now rewrite andb_false_r.
Qed.

(** ** Pairing timeout *)

Module Session.

Lemma same_session_refl (m : LoRaManager) : same_session m m.
Proof. unfold same_session. repeat (split; [reflexivity |]); reflexivity. Qed.

Lemma same_session_trans (m1 m2 m3 : LoRaManager) :
  same_session m1 m2 -> same_session m2 m3 -> same_session m1 m3.
Proof.
  unfold same_session.
  intros (A1 & A2 & A3 & A4 & A5 & A6 & A7) (B1 & B2 & B3 & B4 & B5 & B6 & B7).
  rewrite B1, B2, B3, B4, B5, B6, B7.
  repeat (split; [assumption |]); assumption.
Qed.

Ltac same_session_tac :=
  unfold same_session, pairing_events; fields;
  rewrite ?filter_pairing_app; cbn [List.filter is_pairing_event];
  rewrite ?app_nil_r;
  repeat (split; [reflexivity |]); reflexivity.

Lemma handleHello_session (now : Z) (pkt : HelloPacket_t) (rssi snr : Z)
  (m : LoRaManager) :
  same_session m (_handleHello now pkt rssi snr m).
Proof.
  unfold _handleHello, _addDiscoveredNode.
  destruct (negb (_scanMode m)); [apply same_session_refl |].
  destruct (_isDuplicateDiscovered _ m); [apply same_session_refl |].
  destruct (_isNodeRegistered _ m); [apply same_session_refl |].
  destruct (_ <=? _); [apply same_session_refl |].
  fields. destruct (_nodeDiscoveredCallback m); same_session_tac.
Qed.

Lemma handleData_session (now : Z) (pkt : DataPacket_t) (m : LoRaManager) :
  same_session m (_handleData now pkt m).
Proof.
  unfold _handleData.
  destruct (getNodeByID _ m); [| apply same_session_refl].
  fields. destruct (_nodeDataCallback m); same_session_tac.
Qed.

Lemma handleHeartbeat_session (now : Z) (pkt : HeartbeatPacket_t) (m : LoRaManager) :
  same_session m (_handleHeartbeat now pkt m).
Proof.
  unfold _handleHeartbeat.
  destruct (getNodeByID _ m); [same_session_tac | apply same_session_refl].
Qed.

(** A frame of any type but Ack leaves the session alone. *)
Lemma handlePacket_session (now : Z) (data : list Z) (m : LoRaManager) :
  (byte_at data 0 =? PKG_ACK) = false ->
  same_session m (_handlePacket now data m).
Proof.
  intros Hno. unfold _handlePacket.
  destruct (_ <? 1); [apply same_session_refl |].
  destruct (byte_at data 0 =? PKG_HELLO).
  { destruct (_ <=? _); [apply handleHello_session | apply same_session_refl]. }
  rewrite Hno.
  destruct (byte_at data 0 =? PKG_DATA).
  { destruct (_ <=? _); [apply handleData_session | apply same_session_refl]. }
  destruct (byte_at data 0 =? PKG_HEARTBEAT).
  { destruct (_ <=? _); [apply handleHeartbeat_session | apply same_session_refl]. }
  apply same_session_refl.
Qed.

Lemma byte_at_firstn (data : list Z) (n : nat) :
  (0 < n)%nat -> byte_at (firstn n data) 0 = byte_at data 0.
Proof. destruct n; [lia |]. destruct data; reflexivity. Qed.

Lemma processRxData_session (rx : list (Z * list Z)) :
  forall m : LoRaManager,
    forallb (fun frame => negb (is_ack_frame frame)) rx = true ->
    same_session m (_processRxData rx m).
Proof.
  unfold _processRxData.
  induction rx as [| [t payload] rx IH]; intros m Hrx; cbn [fold_left].
  - apply same_session_refl.
  - cbn [forallb] in Hrx. apply andb_prop in Hrx as [Hhead Hrest].
    apply negb_true_iff in Hhead. unfold is_ack_frame in Hhead. cbn [snd] in Hhead.
    eapply same_session_trans; [| apply IH; exact Hrest].
    destruct (0 <? _); [| apply same_session_refl].
    apply handlePacket_session.
    rewrite byte_at_firstn by (vm_compute; lia). exact Hhead.
Qed.

Lemma sweep_session (now sweep_now : Z) (m : LoRaManager) :
  same_session m
    (if 5000 <=? u32 (now - _lastNodeCheck m)
     then _updateNodeOnlineStatus sweep_now (set_lastNodeCheck now m)
     else m).
Proof.
  destruct (5000 <=? _); [| apply same_session_refl].
  unfold _updateNodeOnlineStatus. same_session_tac.
Qed.

Lemma scan_check_session (now : Z) (m : LoRaManager) :
  same_session m
    (if _scanMode m && (_scanDuration m <=? u32 (now - _scanStartTime m))
     then stopScan m else m).
Proof.
  destruct (_ && _); [| apply same_session_refl].
  unfold stopScan. same_session_tac.
Qed.

(** A tick before the timeout that brings no Ack keeps the session. *)
Lemma update_keeps_session (now : Z) (rx : list (Z * list Z)) (sweep_now : Z)
  (m : LoRaManager) :
  forallb (fun frame => negb (is_ack_frame frame)) rx = true ->
  (_pairingState m = PAIR_WAITING_ACK ->
   u32 (now - _pairingStartTime m) < LORA_PAIRING_TIMEOUT) ->
  same_session m (update now rx sweep_now m).
Proof.
  intros Hrx Hearly. unfold update.
  destruct (negb (_initialized m) || negb (_serial m)); [apply same_session_refl |].
  pose proof (processRxData_session rx m Hrx) as H1.
  set (m1 := _processRxData rx m) in *.
  pose proof (scan_check_session now m1) as H2.
  set (m2 := if _scanMode m1 && _ then stopScan m1 else m1) in *.
  pose proof (same_session_trans _ _ _ H1 H2) as H12.
  assert (H3 : pairing_timeout_check now m2 = m2).
  { unfold pairing_timeout_check.
    destruct H12 as (_ & _ & Hst & _ & Hstart & _).
    destruct (PairingState_eqb (_pairingState m2) PAIR_WAITING_ACK) eqn:E;
      [| reflexivity].
    apply PairingState_eqb_eq in E. rewrite Hst in E.
    rewrite Hstart. rewrite (proj2 (Z.leb_gt _ _) (Hearly E)). reflexivity. }
  rewrite H3.
  eapply same_session_trans; [exact H12 | apply sweep_session].
Qed.

(** The tick at or after the timeout ends the session with one call of the
    callback. *)
Lemma update_times_out (now : Z) (rx : list (Z * list Z)) (sweep_now : Z)
  (m : LoRaManager) :
  _initialized m = true -> _serial m = true ->
  _pairingState m = PAIR_WAITING_ACK ->
  forallb (fun frame => negb (is_ack_frame frame)) rx = true ->
  LORA_PAIRING_TIMEOUT <= u32 (now - _pairingStartTime m) ->
  _pairingState (update now rx sweep_now m) = PAIR_IDLE
  /\ pairing_events (update now rx sweep_now m)
     = pairing_events m
       ++ (if _pairingCallback m
           then [EvPairingCallback (_pairingNodeID m) false] else []).
Proof.
  intros Hinit Hserial Hst Hrx Hlate. unfold update.
  rewrite Hinit, Hserial. cbn [negb orb].
  pose proof (processRxData_session rx m Hrx) as H1.
  set (m1 := _processRxData rx m) in *.
  pose proof (scan_check_session now m1) as H2.
  set (m2 := if _scanMode m1 && _ then stopScan m1 else m1) in *.
  destruct (same_session_trans _ _ _ H1 H2)
    as (_ & _ & Hst2 & Hid2 & Hstart2 & Hcb2 & Hev2).
  pose proof (sweep_session now sweep_now (pairing_timeout_check now m2))
    as (_ & _ & Hst3 & _ & _ & _ & Hev3).
  rewrite Hst3, Hev3.
  unfold pairing_timeout_check.
  rewrite Hst2, Hst, Hstart2. cbn [PairingState_eqb].
  rewrite (proj2 (Z.leb_le _ _) Hlate).
  unfold fire_pairing. fields. rewrite Hcb2.
  destruct (_pairingCallback m); unfold pairing_events; fields.
  - rewrite filter_pairing_app. cbn [List.filter is_pairing_event].
    fold (pairing_events m2). rewrite Hev2, Hid2. split; reflexivity.
  - fold (pairing_events m2). rewrite Hev2, app_nil_r. split; reflexivity.
Qed.

Lemma run_ticks_keeps_session (now0 : Z)
  (ticks : list (Z * list (Z * list Z) * Z)) :
  forall m : LoRaManager,
    _pairingStartTime m = now0 ->
    Forall (fun tick =>
              forallb (fun frame => negb (is_ack_frame frame)) (snd (fst tick)) = true
              /\ u32 (fst (fst tick) - now0) < LORA_PAIRING_TIMEOUT) ticks ->
    same_session m (run_ticks ticks m).
Proof.
  unfold run_ticks.
  induction ticks as [| [[now rx] sweep_now] ticks IH]; intros m Hstart Hticks;
    cbn [fold_left].
  - apply same_session_refl.
  - apply Forall_cons_1 in Hticks as [[Hrx Hearly] Hticks].
    cbn [fst snd] in *.
    assert (H1 : same_session m (update now rx sweep_now m)).
    { apply update_keeps_session; [exact Hrx |]. intros _. now rewrite Hstart. }
    eapply same_session_trans; [exact H1 |].
    apply IH; [| exact Hticks].
    destruct H1 as (_ & _ & _ & _ & -> & _). exact Hstart.
Qed.

End Session.

(** C5.  A session is WaitingAck on an initialised manager with the pairing
    callback set.  Update ticks run that bring no Ack frame, each less than
    [LORA_PAIRING_TIMEOUT] after the start of the session on the 32-bit
    clock; then a tick runs, again without an Ack frame, at least
    [LORA_PAIRING_TIMEOUT] after the start.  After that tick the pairing
    state is Idle, and since the session was WaitingAck the pairing
    callback has been called exactly once, with the assigned ID and
    success=false.  The clock values the offline sweeps of these ticks read
    are arbitrary. *)
Theorem pairing_timeout_fires_once
  (ticks : list (Z * list (Z * list Z) * Z)) (now : Z) (rx : list (Z * list Z))
  (sweep_now : Z) (m : LoRaManager) :
  _initialized m = true ->
  _serial m = true ->
  _pairingCallback m = true ->
  _pairingState m = PAIR_WAITING_ACK ->
  Forall (fun tick =>
            forallb (fun frame => negb (is_ack_frame frame)) (snd (fst tick)) = true
            /\ u32 (fst (fst tick) - _pairingStartTime m) < LORA_PAIRING_TIMEOUT)
         ticks ->
  forallb (fun frame => negb (is_ack_frame frame)) rx = true ->
  LORA_PAIRING_TIMEOUT <= u32 (now - _pairingStartTime m) ->
  let m' := update now rx sweep_now (run_ticks ticks m) in
  _pairingState m' = PAIR_IDLE
  /\ pairing_events m'
     = pairing_events m ++ [EvPairingCallback (_pairingNodeID m) false].
Proof.
  intros Hinit Hserial Hcb Hst Hticks Hrx Hlate. cbv zeta.
  destruct (Session.run_ticks_keeps_session (_pairingStartTime m) ticks m
              eq_refl Hticks)
    as (Hs & Hi & Hst' & Hid' & Hstart' & Hcb' & Hev').
  destruct (Session.update_times_out now rx sweep_now (run_ticks ticks m))
    as [Hidle Hevents].
  - now rewrite Hi.
  - now rewrite Hs.
  - now rewrite Hst'.
  - exact Hrx.
  - now rewrite Hstart'.
  - split; [exact Hidle |].
    rewrite Hevents, Hcb', Hcb, Hev', Hid'. reflexivity.
Qed.

(** The session started at 1000 ms: a tick at 6000 ms with a Hello frame,
    then the tick at 11000 ms, whose callback holds up the sweep by 1200
    ms. *)
Lemma pairing_timeout_fires_once_witness :
  let m' :=
    update 11000 [] 12200
      (run_ticks [(6000, [(6000, [PKG_HELLO; 1; 2; 3; 4; 5; 6; 1; 1])], 6001)]
         waiting_manager) in
  _pairingState m' = PAIR_IDLE
  /\ pairing_events m' = pairing_events waiting_manager ++ [EvPairingCallback 4 false].
Proof.
  apply (pairing_timeout_fires_once
           [(6000, [(6000, [PKG_HELLO; 1; 2; 3; 4; 5; 6; 1; 1])], 6001)] 11000 []
           12200 waiting_manager); try reflexivity.
  constructor; [split; reflexivity | constructor].
Defined.

(** ** Pairing: rejected requests *)

Module StaleID.

Lemma set_same (m : LoRaManager) : set_pairingNodeID (_pairingNodeID m) m = m.
Proof. destruct m; reflexivity. Qed.

Lemma set_set (x y : Z) (m : LoRaManager) :
  set_pairingNodeID y (set_pairingNodeID x m) = set_pairingNodeID y m.
Proof. reflexivity. Qed.

Lemma same_refl (m : LoRaManager) : same_but_stale_id m m.
Proof. split; [symmetry; apply set_same | right; reflexivity]. Qed.

(** With no session in flight the handlers work the same whatever the
    stored assigned ID is. *)
Lemma handleHello_stale (now : Z) (pkt : HelloPacket_t) (rssi snr x : Z)
  (m : LoRaManager) :
  _handleHello now pkt rssi snr (set_pairingNodeID x m)
  = set_pairingNodeID x (_handleHello now pkt rssi snr m).
Proof.
  unfold _handleHello, _addDiscoveredNode, _isDuplicateDiscovered, _isNodeRegistered.
  fields.
  destruct (negb (_scanMode m)); [reflexivity |].
  destruct (existsb _ (_discoveredNodes m)); [reflexivity |].
  destruct (existsb _ (_registeredNodes m)); [reflexivity |].
  destruct (_ <=? _); [reflexivity |].
  destruct (_nodeDiscoveredCallback m); reflexivity.
Qed.

Lemma handleAck_stale (now : Z) (pkt : AckPacket_t) (x : Z) (m : LoRaManager) :
  _pairingState m = PAIR_IDLE ->
  _handleAck now pkt (set_pairingNodeID x m)
  = set_pairingNodeID x (_handleAck now pkt m).
Proof.
  intros Hidle. unfold _handleAck. fields. rewrite Hidle. reflexivity.
Qed.

Lemma handleData_stale (now : Z) (pkt : DataPacket_t) (x : Z) (m : LoRaManager) :
  _handleData now pkt (set_pairingNodeID x m)
  = set_pairingNodeID x (_handleData now pkt m).
Proof.
  unfold _handleData, getNodeByID. fields.
  destruct (find _ (_registeredNodes m)); [| reflexivity].
  destruct (_nodeDataCallback m); reflexivity.
Qed.

Lemma handleHeartbeat_stale (now : Z) (pkt : HeartbeatPacket_t) (x : Z)
  (m : LoRaManager) :
  _handleHeartbeat now pkt (set_pairingNodeID x m)
  = set_pairingNodeID x (_handleHeartbeat now pkt m).
Proof.
  unfold _handleHeartbeat, getNodeByID. fields.
  destruct (find _ (_registeredNodes m)); reflexivity.
Qed.

Lemma handlePacket_stale (now : Z) (data : list Z) (x : Z) (m : LoRaManager) :
  _pairingState m = PAIR_IDLE ->
  _handlePacket now data (set_pairingNodeID x m)
  = set_pairingNodeID x (_handlePacket now data m).
Proof.
  intros Hidle. unfold _handlePacket.
  destruct (_ <? 1); [reflexivity |].
  destruct (byte_at data 0 =? PKG_HELLO).
  { destruct (_ <=? _); [apply handleHello_stale | reflexivity]. }
  destruct (byte_at data 0 =? PKG_ACK).
  { destruct (_ <=? _); [now apply handleAck_stale | reflexivity]. }
  destruct (byte_at data 0 =? PKG_DATA).
  { destruct (_ <=? _); [apply handleData_stale | reflexivity]. }
  destruct (byte_at data 0 =? PKG_HEARTBEAT).
  { destruct (_ <=? _); [apply handleHeartbeat_stale | reflexivity]. }
  reflexivity.
Qed.

(** No frame starts a session. *)
Lemma handlePacket_idle (now : Z) (data : list Z) (m : LoRaManager) :
  _pairingState m = PAIR_IDLE -> _pairingState (_handlePacket now data m) = PAIR_IDLE.
Proof.
  intros Hidle. unfold _handlePacket.
  destruct (_ <? 1); [exact Hidle |].
  destruct (byte_at data 0 =? PKG_HELLO).
  { destruct (_ <=? _); [| exact Hidle].
    destruct (Session.handleHello_session now (as_HelloPacket data) (-50) 10 m)
      as (_ & _ & -> & _). exact Hidle. }
  destruct (byte_at data 0 =? PKG_ACK).
  { destruct (_ <=? _); [| exact Hidle].
    unfold _handleAck. rewrite Hidle. exact Hidle. }
  destruct (byte_at data 0 =? PKG_DATA).
  { destruct (_ <=? _); [| exact Hidle].
    destruct (Session.handleData_session now (as_DataPacket data) m)
      as (_ & _ & -> & _). exact Hidle. }
  destruct (byte_at data 0 =? PKG_HEARTBEAT).
  { destruct (_ <=? _); [| exact Hidle].
    destruct (Session.handleHeartbeat_session now (as_HeartbeatPacket data) m)
      as (_ & _ & -> & _). exact Hidle. }
  exact Hidle.
Qed.

Lemma processRxData_stale (rx : list (Z * list Z)) (x : Z) :
  forall m : LoRaManager,
    _pairingState m = PAIR_IDLE ->
    _processRxData rx (set_pairingNodeID x m)
    = set_pairingNodeID x (_processRxData rx m)
    /\ _pairingState (_processRxData rx m) = PAIR_IDLE.
Proof.
  unfold _processRxData.
  induction rx as [| [t payload] rx IH]; intros m Hidle; cbn [fold_left].
  - split; [reflexivity | exact Hidle].
  - destruct (0 <? _); [| now apply IH].
    rewrite handlePacket_stale by exact Hidle.
    apply IH. now apply handlePacket_idle.
Qed.

Lemma update_stale (now : Z) (rx : list (Z * list Z)) (sweep_now x : Z)
  (m : LoRaManager) :
  _pairingState m = PAIR_IDLE ->
  update now rx sweep_now (set_pairingNodeID x m)
  = set_pairingNodeID x (update now rx sweep_now m)
  /\ _pairingState (update now rx sweep_now m) = PAIR_IDLE.
Proof.
  intros Hidle. unfold update. fields.
  destruct (negb (_initialized m) || negb (_serial m));
    [split; [reflexivity | exact Hidle] |].
  destruct (processRxData_stale rx x m Hidle) as [-> Hidle1].
  clear Hidle. generalize dependent (_processRxData rx m). clear m.
  intros m1 Hidle1.
  fields.
  assert (H2 : exists m2,
             (if _scanMode m1 && (_scanDuration m1 <=? u32 (now - _scanStartTime m1))
              then stopScan m1 else m1) = m2
             /\ (if _scanMode m1 && (_scanDuration m1 <=? u32 (now - _scanStartTime m1))
                 then stopScan (set_pairingNodeID x m1) else set_pairingNodeID x m1)
                = set_pairingNodeID x m2
             /\ _pairingState m2 = PAIR_IDLE).
  { destruct (_scanMode m1 && _); eexists; (split; [reflexivity |]);
      (split; [reflexivity |]); exact Hidle1. }
  destruct H2 as (m2 & -> & -> & Hidle2). clear Hidle1 m1.
  unfold pairing_timeout_check. fields. rewrite Hidle2. cbn [PairingState_eqb].
  fields.
  destruct (5000 <=? _); split; first [reflexivity | exact Hidle2].
Qed.

Lemma removeNode_stale (id x : Z) (m : LoRaManager) :
  removeNode id (set_pairingNodeID x m)
  = (fst (removeNode id m), set_pairingNodeID x (snd (removeNode id m))).
Proof.
  unfold removeNode, saveNodes. fields.
  destruct (erase_first id (_registeredNodes m)); [| reflexivity].
  fields. destruct (_fsOpenFails m); reflexivity.
Qed.

Lemma removeNode_idle (id : Z) (m : LoRaManager) :
  _pairingState (snd (removeNode id m)) = _pairingState m.
Proof.
  unfold removeNode, saveNodes.
  destruct (erase_first id (_registeredNodes m)); [| reflexivity].
  fields. destruct (_fsOpenFails m); reflexivity.
Qed.

(** [startPairing] on two managers that differ in the stale ID only: the
    answers are the same, and so are the managers afterwards unless the
    request is refused for the MAC. *)
Lemma startPairing_stale (now : Z) (modem_ok : bool) (mac : list Z) (x : Z)
  (m : LoRaManager) :
  _pairingState m = PAIR_IDLE ->
  fst (startPairing now modem_ok mac (set_pairingNodeID x m))
  = fst (startPairing now modem_ok mac m)
  /\ ((snd (startPairing now modem_ok mac (set_pairingNodeID x m))
       = set_pairingNodeID x (snd (startPairing now modem_ok mac m))
       /\ _pairingState (snd (startPairing now modem_ok mac m)) = PAIR_IDLE)
      \/ snd (startPairing now modem_ok mac (set_pairingNodeID x m))
         = snd (startPairing now modem_ok mac m)).
Proof.
  intros Hidle.
  assert (Hnext : _getNextFreeID (set_pairingNodeID x m) = _getNextFreeID m)
    by (unfold _getNextFreeID; fields; reflexivity).
  unfold startPairing, _isNodeRegistered. rewrite Hnext. fields.
  rewrite Hidle. cbn [PairingState_eqb negb].
  destruct (existsb _ (_registeredNodes m)).
  - split; [reflexivity |]. left. split; [reflexivity | exact Hidle].
  - generalize (_getNextFreeID m). intros id.
    destruct (id =? 0).
    + split; [reflexivity |]. right. reflexivity.
    + split; [reflexivity |]. right. reflexivity.
Qed.

Lemma step_stale (op : Op) (x : Z) (m : LoRaManager) :
  _pairingState m = PAIR_IDLE ->
  same_but_stale_id (step op m) (step op (set_pairingNodeID x m)).
Proof.
  intros Hidle.
  assert (Hshift : forall m1 : LoRaManager,
             _pairingState m1 = PAIR_IDLE ->
             same_but_stale_id m1 (set_pairingNodeID x m1))
    by (intros m1 H1; split; [reflexivity | left; exact H1]).
  destruct op; cbn [step].
  - destruct (startPairing_stale now modem_ok mac x m Hidle) as [_ [[-> H] | ->]];
      [now apply Hshift | apply same_refl].
  - rewrite handlePacket_stale by exact Hidle.
    apply Hshift. now apply handlePacket_idle.
  - rewrite removeNode_stale. cbn [snd].
    apply Hshift. now rewrite removeNode_idle.
  - apply same_refl.
  - now apply Hshift.
  - now apply Hshift.
  - destruct (update_stale now rx sweep_now x m Hidle) as [-> H].
    now apply Hshift.
Qed.

Lemma run_stale (ops : list Op) :
  forall m m' : LoRaManager,
    same_but_stale_id m m' -> same_but_stale_id (run ops m) (run ops m').
Proof.
  unfold run.
  induction ops as [| op ops IH]; intros m m' H; cbn [fold_left]; [exact H |].
  apply IH. destruct H as [Heq [Hidle | Hid]].
  - rewrite Heq. now apply step_stale.
  - rewrite Heq, Hid, set_same. apply same_refl.
Qed.

End StaleID.

(** C3.  When the pairing state is not Idle, or the MAC belongs to a valid
    registered node, or no ID is free, [startPairing] returns false.  In
    the first two cases the manager is left exactly as it was; in
    particular a session that is WaitingAck keeps its state, target MAC,
    assigned ID and start time.  When only the search for a free ID fails,
    no session is in flight, and every member is as it was but the
    assigned ID that the last session left behind, which now holds the
    result of the search, 0.  No operation reads that member before an
    accepted request assigns it anew, so the state has not changed in a
    way that can be told: whatever calls, frames and ticks follow, the
    manager after the refused call and the manager as it was make the same
    callbacks, file writes and transmissions, hold the same registry,
    discovered list and session, are equal as soon as a session is in
    flight, and answer [startPairing] and [removeNode] alike. *)
Theorem startPairing_rejected (now : Z) (modem_ok : bool) (mac : list Z)
  (m : LoRaManager) :
  _pairingState m <> PAIR_IDLE
  \/ mac_in_use mac (_registeredNodes m) = true
  \/ _getNextFreeID m = 0 ->
  let r := startPairing now modem_ok mac m in
  fst r = false
  /\ (_pairingState m <> PAIR_IDLE \/ mac_in_use mac (_registeredNodes m) = true ->
      snd r = m)
  /\ (_pairingState m = PAIR_WAITING_ACK -> snd r = m)
  /\ (_pairingState m = PAIR_IDLE -> mac_in_use mac (_registeredNodes m) = false ->
      snd r = set_pairingNodeID 0 m)
  /\ same_but_stale_id m (snd r)
  /\ forall ops : list Op,
       let a := run ops m in
       let b := run ops (snd r) in
       same_but_stale_id a b
       /\ _events b = _events a
       /\ _registeredNodes b = _registeredNodes a
       /\ _discoveredNodes b = _discoveredNodes a
       /\ _pairingState b = _pairingState a
       /\ _pairingMAC b = _pairingMAC a
       /\ _pairingStartTime b = _pairingStartTime a
       /\ (_pairingState a <> PAIR_IDLE -> b = a)
       /\ (forall now' modem_ok' mac',
             fst (startPairing now' modem_ok' mac' b)
             = fst (startPairing now' modem_ok' mac' a))
       /\ (forall id, fst (removeNode id b) = fst (removeNode id a)).
Proof.
  intros Hrej. cbv zeta.
  assert (Hcases : fst (startPairing now modem_ok mac m) = false
                   /\ (_pairingState m <> PAIR_IDLE
                       \/ mac_in_use mac (_registeredNodes m) = true ->
                       snd (startPairing now modem_ok mac m) = m)
                   /\ (_pairingState m = PAIR_IDLE ->
                       mac_in_use mac (_registeredNodes m) = false ->
                       snd (startPairing now modem_ok mac m) = set_pairingNodeID 0 m)).
  { unfold startPairing. rewrite isNodeRegistered_mac_in_use.
    destruct (PairingState_eqb (_pairingState m) PAIR_IDLE) eqn:Est; cbn [negb].
    - apply PairingState_eqb_eq in Est.
      destruct (mac_in_use mac (_registeredNodes m)) eqn:Emac.
      + split; [reflexivity |]. split; [reflexivity | discriminate].
      + destruct Hrej as [Hrej | [Hrej | Hrej]];
          [exfalso; apply Hrej; exact Est | discriminate Hrej |].
        rewrite Hrej. fields. cbn [Z.eqb].
        split; [reflexivity |]. split; [| reflexivity].
        intros [Hne | Hne]; [exfalso; apply Hne; exact Est | discriminate Hne].
    - split; [reflexivity |]. split; [reflexivity |].
      intros Hidle. rewrite Hidle in Est. discriminate Est. }
  destruct Hcases as (Hfalse & Hsame & Hzero).
  assert (Hstale : same_but_stale_id m (snd (startPairing now modem_ok mac m))).
  { destruct (PairingState_eqb (_pairingState m) PAIR_IDLE) eqn:Est.
    - apply PairingState_eqb_eq in Est.
      destruct (mac_in_use mac (_registeredNodes m)) eqn:Emac.
      + rewrite Hsame by (right; reflexivity). apply StaleID.same_refl.
      + rewrite (Hzero Est eq_refl). split; [reflexivity | left; exact Est].
    - rewrite Hsame; [apply StaleID.same_refl |].
      left. intros H. apply PairingState_eqb_eq in H. congruence. }
  split; [exact Hfalse |]. split; [exact Hsame |].
  split; [intros Hw; apply Hsame; left; rewrite Hw; discriminate |].
  split; [exact Hzero |]. split; [exact Hstale |].
  intros ops.
  pose proof (StaleID.run_stale ops _ _ Hstale) as Hrun.
  generalize dependent (run ops (snd (startPairing now modem_ok mac m))).
  generalize (run ops m). clear. intros a b [Heq Hor].
  split; [split; assumption |].
  rewrite Heq. fields.
  repeat (split; [reflexivity |]).
  split.
  { intros Hbusy. destruct Hor as [Hidle | Hid]; [contradiction |].
    rewrite Hid. apply StaleID.set_same. }
  split.
  - intros now' modem_ok' mac'.
    destruct Hor as [Hidle | Hid].
    + now destruct (StaleID.startPairing_stale now' modem_ok' mac' (_pairingNodeID b)
                      a Hidle) as [-> _].
    + rewrite Hid, StaleID.set_same. reflexivity.
  - intros id. rewrite StaleID.removeNode_stale. reflexivity.
Qed.

(** After 254 pairings every ID is in use and the stored assigned ID is
    that of the last session, 254.  The request for one more node is
    refused; whatever follows, the callbacks, writes and transmissions and
    the registry are those the manager would have had without it. *)
Lemma startPairing_rejected_witness :
  let r := startPairing 0 true [0xBB; 0; 0; 0; 0; 1] all_ids_paired in
  fst r = false
  /\ forall ops : list Op,
       _events (run ops (snd r)) = _events (run ops all_ids_paired)
       /\ _registeredNodes (run ops (snd r)) = _registeredNodes (run ops all_ids_paired).
Proof.
  cbv zeta.
  destruct (startPairing_rejected 0 true [0xBB; 0; 0; 0; 0; 1] all_ids_paired)
    as (Hf & _ & _ & _ & _ & Hrun).
  - right. right. vm_compute. reflexivity.
  - split; [exact Hf |]. intros ops.
    destruct (Hrun ops) as (_ & Hev & Hreg & _).
    split; [exact Hev | exact Hreg].
Defined.

(** ** Uniqueness of IDs and MACs *)

Module Uniqueness.

Lemma memcmp_zero_sym (n : nat) :
  forall a b : list Z, memcmp a b n = 0 -> memcmp b a n = 0.
Proof.
  induction n as [| n IH]; intros a b H; cbn [memcmp] in *; [reflexivity |].
  destruct (Z.eqb_spec (hd 0 a) (hd 0 b)) as [Heq | Hne].
  - rewrite Heq, Z.eqb_refl. now apply IH.
  - lia.
Qed.

Lemma memcpy_S (b : list Z) (n : nat) :
  memcpy b (S n) = hd 0 b :: memcpy (tl b) n.
Proof.
  unfold memcpy. cbn [seq map]. f_equal.
  - destruct b; reflexivity.
  - rewrite <- seq_shift, map_map. apply map_ext.
    intros i. destruct b; [destruct i; reflexivity | reflexivity].
Qed.

Lemma memcmp_memcpy_r (n : nat) :
  forall a b : list Z, memcmp a (memcpy b n) n = memcmp a b n.
Proof.
  induction n as [| n IH]; intros a b; [reflexivity |].
  rewrite memcpy_S. cbn [memcmp hd tl]. now rewrite IH.
Qed.

Lemma mac_in_use_memcpy (mac : list Z) (nodes : list RegisteredNode) :
  mac_in_use (memcpy mac MAC_ADDR_LEN) nodes = mac_in_use mac nodes.
Proof.
  unfold mac_in_use. induction nodes as [| node nodes IH]; [reflexivity |].
  cbn [existsb]. now rewrite memcmp_memcpy_r, IH.
Qed.

Lemma id_in_use_app (k : Z) (l1 l2 : list RegisteredNode) :
  id_in_use k (l1 ++ l2) = id_in_use k l1 || id_in_use k l2.
Proof. apply existsb_app. Qed.

Lemma mac_in_use_app (mac : list Z) (l1 l2 : list RegisteredNode) :
  mac_in_use mac (l1 ++ l2) = mac_in_use mac l1 || mac_in_use mac l2.
Proof. apply existsb_app. Qed.

(** [push_back] of an entry with a fresh ID and a fresh MAC. *)
Lemma uniq_push_back (n : RegisteredNode) (l : list RegisteredNode) :
  uniq l ->
  id_in_use (nodeID n) l = false ->
  mac_in_use (macAddr n) l = false ->
  uniq (l ++ [n]).
Proof.
  induction l as [| a l IH]; intros Hu Hid Hmac.
  - cbn. split; [intros _; split; reflexivity | exact I].
  - cbn [app uniq]. destruct Hu as [Ha Hu].
    unfold id_in_use in Hid. unfold mac_in_use in Hmac.
    cbn [existsb] in Hid, Hmac.
    apply orb_false_elim in Hid as [Hid_a Hid].
    apply orb_false_elim in Hmac as [Hmac_a Hmac].
    split; [| now apply IH].
    intros Hva. destruct (Ha Hva) as [Hi Hm].
    rewrite id_in_use_app, mac_in_use_app, Hi, Hm. cbn [orb].
    unfold node_matches in Hid_a. rewrite Hva in Hid_a, Hmac_a.
    cbn [andb] in Hid_a, Hmac_a.
    unfold id_in_use, mac_in_use, node_matches. cbn [existsb].
    rewrite !orb_false_r. split.
    + apply andb_false_intro2. apply Z.eqb_neq. apply Z.eqb_neq in Hid_a. congruence.
    + apply andb_false_intro2. apply Z.eqb_neq. apply Z.eqb_neq in Hmac_a.
      intros H. apply Hmac_a. now apply memcmp_zero_sym.
Qed.

Lemma erase_first_id_in_use (id k : Z) (l l' : list RegisteredNode) :
  erase_first id l = Some l' -> id_in_use k l = false -> id_in_use k l' = false.
Proof.
  revert l'. induction l as [| a l IH]; intros l' He Hk; cbn in He; [discriminate |].
  unfold id_in_use in Hk. cbn [existsb] in Hk.
  apply orb_false_elim in Hk as [Hka Hk].
  destruct (nodeID a =? id).
  - injection He as <-. exact Hk.
  - destruct (erase_first id l) as [r |]; [| discriminate].
    injection He as <-. unfold id_in_use. cbn [existsb].
    rewrite Hka. cbn [orb]. now apply IH.
Qed.

Lemma erase_first_mac_in_use (id : Z) (mac : list Z) (l l' : list RegisteredNode) :
  erase_first id l = Some l' -> mac_in_use mac l = false -> mac_in_use mac l' = false.
Proof.
  revert l'. induction l as [| a l IH]; intros l' He Hk; cbn in He; [discriminate |].
  unfold mac_in_use in Hk. cbn [existsb] in Hk.
  apply orb_false_elim in Hk as [Hka Hk].
  destruct (nodeID a =? id).
  - injection He as <-. exact Hk.
  - destruct (erase_first id l) as [r |]; [| discriminate].
    injection He as <-. unfold mac_in_use. cbn [existsb].
    rewrite Hka. cbn [orb]. now apply IH.
Qed.

Lemma uniq_erase_first (id : Z) (l l' : list RegisteredNode) :
  erase_first id l = Some l' -> uniq l -> uniq l'.
Proof.
  revert l'. induction l as [| a l IH]; intros l' He Hu; cbn in He; [discriminate |].
  destruct Hu as [Ha Hu].
  destruct (nodeID a =? id).
  - injection He as <-. exact Hu.
  - destruct (erase_first id l) as [r |] eqn:E; [| discriminate].
    injection He as <-. cbn [uniq]. split; [| now apply IH].
    intros Hva. destruct (Ha Hva) as [Hi Hm]. split.
    + eapply erase_first_id_in_use; eassumption.
    + eapply erase_first_mac_in_use; eassumption.
Qed.

(** Entries with the same keys are used alike. *)
Lemma id_in_use_keys (k : Z) (l : list RegisteredNode) :
  forall l', map keys l' = map keys l -> id_in_use k l' = id_in_use k l.
Proof.
  induction l as [| a l IH]; intros [| a' l'] H; try discriminate; [reflexivity |].
  cbn [map] in H. unfold keys at 1 3 in H. injection H as Hi Hm Hv Hl.
  unfold id_in_use, node_matches. cbn [existsb]. rewrite Hi, Hv. f_equal.
  now apply IH.
Qed.

Lemma mac_in_use_keys (mac : list Z) (l : list RegisteredNode) :
  forall l', map keys l' = map keys l -> mac_in_use mac l' = mac_in_use mac l.
Proof.
  induction l as [| a l IH]; intros [| a' l'] H; try discriminate; [reflexivity |].
  cbn [map] in H. unfold keys at 1 3 in H. injection H as Hi Hm Hv Hl.
  unfold mac_in_use. cbn [existsb]. rewrite Hm, Hv. f_equal.
  now apply IH.
Qed.

Lemma uniq_keys (l : list RegisteredNode) :
  forall l', map keys l' = map keys l -> uniq l -> uniq l'.
Proof.
  induction l as [| a l IH]; intros [| a' l'] H Hu; try discriminate; [exact I |].
  cbn [map] in H. unfold keys at 1 3 in H. injection H as Hi Hm Hv Hl.
  destruct Hu as [Hhead Hu].
  cbn [uniq]. split; [| now apply IH].
  rewrite Hi, Hm, Hv, (id_in_use_keys _ l l' Hl), (mac_in_use_keys _ l l' Hl).
  exact Hhead.
Qed.

Lemma update_first_keys (p : RegisteredNode -> bool) (f : RegisteredNode -> RegisteredNode)
  (l : list RegisteredNode) :
  (forall x, keys (f x) = keys x) ->
  map keys (update_first p f l) = map keys l.
Proof.
  intros Hf. induction l as [| a l IH]; [reflexivity |].
  cbn [update_first]. destruct (p a); cbn [map]; [now rewrite Hf | now rewrite IH].
Qed.

Lemma map_keys (f : RegisteredNode -> RegisteredNode) (l : list RegisteredNode) :
  (forall x, keys (f x) = keys x) -> map keys (map f l) = map keys l.
Proof. intros Hf. rewrite map_map. apply map_ext. exact Hf. Qed.

(** A step that keeps the keys of the registry and does not start a
    session keeps the invariant. *)
Lemma inv_transfer (m m' : LoRaManager) :
  map keys (_registeredNodes m') = map keys (_registeredNodes m) ->
  (_pairingState m' = PAIR_WAITING_ACK ->
   _pairingState m = PAIR_WAITING_ACK
   /\ _pairingNodeID m' = _pairingNodeID m
   /\ _pairingMAC m' = _pairingMAC m) ->
  pairing_inv m -> pairing_inv m'.
Proof.
  intros Hk Hs [Hu Hw]. split.
  - eapply uniq_keys; eassumption.
  - intros Hst. destruct (Hs Hst) as (Hst0 & -> & ->).
    rewrite (id_in_use_keys _ _ _ Hk), (mac_in_use_keys _ _ _ Hk). now apply Hw.
Qed.

Ltac transfer :=
  apply inv_transfer; fields;
  [ reflexivity
  | intros Hst; try discriminate Hst;
    repeat (split; [first [exact Hst | reflexivity] |]);
    first [exact Hst | reflexivity] ].

Lemma handleHello_inv (now : Z) (pkt : HelloPacket_t) (rssi snr : Z) (m : LoRaManager) :
  pairing_inv m -> pairing_inv (_handleHello now pkt rssi snr m).
Proof.
  unfold _handleHello, _addDiscoveredNode.
  destruct (negb (_scanMode m)); [trivial |].
  destruct (_isDuplicateDiscovered _ m); [trivial |].
  destruct (_isNodeRegistered _ m); [trivial |].
  destruct (_ <=? _); [trivial |].
  fields. destruct (_nodeDiscoveredCallback m); transfer.
Qed.

Lemma handleData_inv (now : Z) (pkt : DataPacket_t) (m : LoRaManager) :
  pairing_inv m -> pairing_inv (_handleData now pkt m).
Proof.
  unfold _handleData. destruct (getNodeByID _ m); [| trivial].
  fields. destruct (_nodeDataCallback m);
    (apply inv_transfer; fields;
     [ now apply update_first_keys
     | intros Hst; repeat (split; [first [exact Hst | reflexivity] |]); reflexivity ]).
Qed.

Lemma handleHeartbeat_inv (now : Z) (pkt : HeartbeatPacket_t) (m : LoRaManager) :
  pairing_inv m -> pairing_inv (_handleHeartbeat now pkt m).
Proof.
  unfold _handleHeartbeat. destruct (getNodeByID _ m); [| trivial].
  apply inv_transfer; fields;
    [ now apply update_first_keys
    | intros Hst; repeat (split; [first [exact Hst | reflexivity] |]); reflexivity ].
Qed.

Lemma handleAck_inv (now : Z) (pkt : AckPacket_t) (m : LoRaManager) :
  pairing_inv m -> pairing_inv (_handleAck now pkt m).
Proof.
  intros Hinv.
  destruct (PairingState_eqb (_pairingState m) PAIR_WAITING_ACK) eqn:Est;
    [| unfold _handleAck; rewrite Est; exact Hinv].
  apply PairingState_eqb_eq in Est.
  destruct (Z.eqb_spec (ack_ackType pkt) PKG_WELCOME) as [Hty | Hty];
    [| unfold _handleAck; rewrite (proj2 (Z.eqb_neq _ _) Hty), andb_false_r;
       exact Hinv].
  destruct Hinv as [Hu Hw]. destruct (Hw Est) as [Hid Hmac].
  destruct (Z.eq_dec (ack_status pkt) ERR_NONE) as [Hok | Hbad].
  - destruct (handleAck_success now pkt m Est Hty Hok) as (Hreg & _ & Hidle & _).
    split.
    + rewrite Hreg. apply uniq_push_back; [exact Hu | exact Hid |].
      cbn [paired_node macAddr]. now rewrite mac_in_use_memcpy.
    + intros Hst. rewrite Hidle in Hst. discriminate Hst.
  - destruct (handleAck_failure now pkt m Est Hty Hbad) as (Hreg & _ & Hidle & _).
    split.
    + now rewrite Hreg.
    + intros Hst. rewrite Hidle in Hst. discriminate Hst.
Qed.

Lemma handlePacket_inv (now : Z) (data : list Z) (m : LoRaManager) :
  pairing_inv m -> pairing_inv (_handlePacket now data m).
Proof.
  intros Hinv. unfold _handlePacket.
  destruct (_ <? 1); [exact Hinv |].
  destruct (byte_at data 0 =? PKG_HELLO).
  { destruct (_ <=? _); [now apply handleHello_inv | exact Hinv]. }
  destruct (byte_at data 0 =? PKG_ACK).
  { destruct (_ <=? _); [now apply handleAck_inv | exact Hinv]. }
  destruct (byte_at data 0 =? PKG_DATA).
  { destruct (_ <=? _); [now apply handleData_inv | exact Hinv]. }
  destruct (byte_at data 0 =? PKG_HEARTBEAT).
  { destruct (_ <=? _); [now apply handleHeartbeat_inv | exact Hinv]. }
  exact Hinv.
Qed.

Lemma startPairing_inv (now : Z) (modem_ok : bool) (mac : list Z) (m : LoRaManager) :
  pairing_inv m -> pairing_inv (snd (startPairing now modem_ok mac m)).
Proof.
  intros Hinv. unfold startPairing.
  destruct (negb (PairingState_eqb (_pairingState m) PAIR_IDLE)) eqn:Eidle;
    [exact Hinv |].
  apply negb_false_iff, PairingState_eqb_eq in Eidle.
  rewrite isNodeRegistered_mac_in_use.
  destruct (mac_in_use mac (_registeredNodes m)) eqn:Emac; [exact Hinv |].
  fields.
  destruct (Allocation.next_free_cases m) as [[Hr _] | (Hr & Hfree & _)];
    cbv zeta in *.
  - rewrite Hr. cbn [Z.eqb snd]. revert Hinv. apply inv_transfer; fields.
    + reflexivity.
    + intros Hst. rewrite Eidle in Hst. discriminate Hst.
  - destruct (_getNextFreeID m =? 0) eqn:E0; [apply Z.eqb_eq in E0; lia |].
    unfold _sendWelcome, _sendPacket. fields.
    destruct Hinv as [Hu _].
    destruct (negb (_serial m) || negb (_initialized m)); fields;
      (split; fields;
       [ exact Hu
       | intros _; split; [exact Hfree | now rewrite mac_in_use_memcpy] ]).
Qed.

Lemma removeNode_inv (id : Z) (m : LoRaManager) :
  pairing_inv m -> pairing_inv (snd (removeNode id m)).
Proof.
  intros [Hu Hw]. unfold removeNode.
  destruct (erase_first id (_registeredNodes m)) as [nodes |] eqn:E;
    [| split; assumption].
  cbn [snd]. rewrite saveNodes_snd. fields.
  assert (Hinv : pairing_inv (set_registeredNodes nodes m)).
  { split; fields.
    - eapply uniq_erase_first; eassumption.
    - intros Hst. destruct (Hw Hst) as [Hi Hm]. split.
      + eapply erase_first_id_in_use; eassumption.
      + eapply erase_first_mac_in_use; eassumption. }
  revert Hinv. destruct (_fsOpenFails m); fields; transfer.
Qed.

Lemma processRxData_inv (rx : list (Z * list Z)) :
  forall m : LoRaManager, pairing_inv m -> pairing_inv (_processRxData rx m).
Proof.
  unfold _processRxData.
  induction rx as [| [t payload] rx IH]; intros m Hinv; cbn [fold_left];
    [exact Hinv |].
  apply IH. destruct (0 <? _); [now apply handlePacket_inv | exact Hinv].
Qed.

Lemma update_inv (now : Z) (rx : list (Z * list Z)) (sweep_now : Z)
  (m : LoRaManager) :
  pairing_inv m -> pairing_inv (update now rx sweep_now m).
Proof.
  intros Hinv. unfold update.
  destruct (negb (_initialized m) || negb (_serial m)); [exact Hinv |].
  apply (processRxData_inv rx) in Hinv.
  generalize dependent (_processRxData rx m). clear m. intros m1 Hinv.
  assert (H2 : pairing_inv
                 (if _scanMode m1 && (_scanDuration m1 <=? u32 (now - _scanStartTime m1))
                  then stopScan m1 else m1)).
  { destruct (_ && _); [| exact Hinv]. revert Hinv. unfold stopScan. transfer. }
  generalize dependent
    (if _scanMode m1 && (_scanDuration m1 <=? u32 (now - _scanStartTime m1))
     then stopScan m1 else m1).
  clear Hinv m1. intros m2 H2.
  assert (H3 : pairing_inv (pairing_timeout_check now m2)).
  { unfold pairing_timeout_check.
    destruct (PairingState_eqb _ _); [| exact H2].
    destruct (_ <=? _); [| exact H2].
    revert H2. unfold fire_pairing. fields.
    destruct (_pairingCallback m2); transfer. }
  generalize dependent (pairing_timeout_check now m2). clear H2 m2. intros m3 H3.
  destruct (5000 <=? _); [| exact H3].
  revert H3. unfold _updateNodeOnlineStatus.
  apply inv_transfer; fields.
  - apply map_keys. intros x. destruct (_ && _); reflexivity.
  - intros Hst. repeat (split; [first [exact Hst | reflexivity] |]); reflexivity.
Qed.

Lemma step_inv (op : Op) (m : LoRaManager) :
  pairing_inv m -> pairing_inv (step op m).
Proof.
  destruct op; cbn [step].
  - apply startPairing_inv.
  - apply handlePacket_inv.
  - apply removeNode_inv.
  - unfold cancelPairing. transfer.
  - unfold startScan, clearDiscoveredNodes. transfer.
  - unfold stopScan. transfer.
  - apply update_inv.
Qed.

Lemma run_inv (ops : list Op) :
  forall m : LoRaManager, pairing_inv m -> pairing_inv (run ops m).
Proof.
  unfold run. induction ops as [| op ops IH]; intros m Hinv; cbn [fold_left];
    [exact Hinv |].
  apply IH. now apply step_inv.
Qed.

Lemma in_use_lookup (l : list RegisteredNode) (j : nat) (b : RegisteredNode) :
  l !! j = Some b -> valid b = true ->
  id_in_use (nodeID b) l = true /\ mac_in_use (macAddr b) l = true.
Proof.
  intros Hj Hv. apply list_elem_of_lookup_2, list_elem_of_In in Hj.
  split; apply existsb_exists; exists b; (split; [exact Hj |]).
  - unfold node_matches. now rewrite Hv, Z.eqb_refl.
  - rewrite Hv. cbn [andb]. apply Z.eqb_eq.
    clear. generalize (macAddr b). induction MAC_ADDR_LEN as [| n IH]; intros a;
      cbn [memcmp]; [reflexivity |]. rewrite Z.eqb_refl. apply IH.
Qed.

Lemma in_use_false (k : Z) (mac : list Z) (l : list RegisteredNode) (j : nat)
  (b : RegisteredNode) :
  l !! j = Some b -> valid b = true ->
  (id_in_use k l = false -> nodeID b <> k)
  /\ (mac_in_use mac l = false -> memcmp (macAddr b) mac MAC_ADDR_LEN <> 0).
Proof.
  intros Hj Hv. apply list_elem_of_lookup_2, list_elem_of_In in Hj.
  split; intros Hfree Heq.
  - assert (id_in_use k l = true); [| congruence].
    apply existsb_exists. exists b. split; [exact Hj |].
    unfold node_matches. rewrite Hv. cbn [andb]. now apply Z.eqb_eq.
  - assert (mac_in_use mac l = true); [| congruence].
    apply existsb_exists. exists b. split; [exact Hj |].
    rewrite Hv. cbn [andb]. now apply Z.eqb_eq.
Qed.

Lemma uniq_unique_nodes (l : list RegisteredNode) : uniq l -> unique_nodes l.
Proof.
  induction l as [| x l IH]; intros Hu i j a b Hij Hi Hj Hva Hvb.
  - discriminate Hi.
  - destruct Hu as [Hx Hu].
    destruct i as [| i], j as [| j]; cbn in Hi, Hj.
    + congruence.
    + injection Hi as ->. destruct (Hx Hva) as [Hid Hmac].
      destruct (in_use_false (nodeID a) (macAddr a) l j b Hj Hvb) as [H1 H2].
      split.
      * intros Heq. now apply (H1 Hid).
      * intros Heq. apply (H2 Hmac). now apply memcmp_zero_sym.
    + injection Hj as ->. destruct (Hx Hvb) as [Hid Hmac].
      destruct (in_use_false (nodeID b) (macAddr b) l i a Hi Hva) as [H1 H2].
      split; [now apply H1 | now apply H2].
    + apply (IH Hu i j); try assumption. congruence.
Qed.

End Uniqueness.

(** C1.  Start from any manager whose registry is empty and let it go
    through any sequence of [startPairing] calls, received frames (the Acks
    that complete a pairing among them), [removeNode] calls, cancelled
    pairings, scans and update ticks.  In the registry that results no two
    valid nodes share a node ID and no two share a MAC address. *)
Theorem registry_unique_after_run (ops : list Op) (m0 : LoRaManager) :
  _registeredNodes m0 = [] ->
  unique_nodes (_registeredNodes (run ops m0)).
Proof.
  intros Hempty. apply Uniqueness.uniq_unique_nodes.
  apply (Uniqueness.run_inv ops m0). unfold pairing_inv. rewrite Hempty.
  split; [exact I | intros _; split; reflexivity].
Qed.

(** Two pairings, the removal of node 1 and a third pairing, which gets the
    ID 1 again. *)
Lemma registry_unique_after_run_witness :
  let ops := pair_ops 1 ++ pair_ops 2 ++ [OpRemoveNode 1] ++ pair_ops 3 in
  map nodeID (_registeredNodes (run ops ready_manager)) = [2; 1]
  /\ unique_nodes (_registeredNodes (run ops ready_manager)).
Proof.
  split; [reflexivity |].
  apply (registry_unique_after_run
           (pair_ops 1 ++ pair_ops 2 ++ [OpRemoveNode 1] ++ pair_ops 3)
           ready_manager).
  reflexivity.
Defined.

(** ** Registry capacity *)

(** C4, on the code.  After 32 completed pairings the registry holds
    [MAX_NODES] valid nodes; the next [startPairing] is accepted all the
    same, and the Ack that follows appends a 33rd valid node. *)
Theorem registry_exceeds_MAX_NODES :
  let mac := [0xAA; 0; 0; 0; 0; 33] in
  let r := startPairing 0 true mac thirty_two_paired in
  let m' := _handleAck 0 (mkAck PKG_ACK 33 PKG_WELCOME ERR_NONE) (snd r) in
  Z.of_nat (length (List.filter valid (_registeredNodes thirty_two_paired))) = MAX_NODES
  /\ fst r = true
  /\ _pairingNodeID (snd r) = 33
  /\ length (List.filter valid (_registeredNodes m')) = 33%nat.
Proof. vm_compute. repeat split. Qed.

(** ** Loading the registry *)

Lemma string_take_all (s : string) :
  forall n : nat, (String.length s <= n)%nat -> string_take n s = s.
Proof.
  induction s as [| c s IH]; intros n Hn.
  - destruct n; reflexivity.
  - destruct n as [| n]; cbn in Hn; [lia |].
    cbn [string_take]. rewrite IH by lia. reflexivity.
Qed.

Section LoadNodes.

Variable as_uint8 : Json -> Z.
Variable as_String : Json -> string.

(** What is assumed of ArduinoJson: a number that fits is converted to
    itself, and a string to itself. *)
Hypothesis as_uint8_number : forall z, is_u8 z -> as_uint8 (JNum z) = z.
Hypothesis as_String_string : forall s, as_String (JStr s) = s.

Lemma node_of_json_fields (stack_mac : list Z) (e : Json) :
  let n := node_of_json as_uint8 as_String stack_mac e in
  online n = false /\ lastSeen n = 0 /\ relayStatus n = 0 /\ lastRSSI n = 0
  /\ lastSNR n = 0 /\ uptime n = 0 /\ valid n = true
  /\ (forall k, member "id" e = JNum k -> is_u8 k -> nodeID n = k)
  /\ (forall t, member "type" e = JNum t -> is_u8 t -> deviceType n = t)
  /\ (forall x, member "mac" e = JStr (macToString x) ->
                length x = MAC_ADDR_LEN -> Forall is_u8 x -> macAddr n = x)
  /\ (forall nm, member "name" e = JStr nm -> (String.length nm <= 31)%nat ->
                 name n = nm).
Proof using as_uint8_number as_String_string.
  cbv zeta. unfold node_of_json.
  cbn [online lastSeen relayStatus lastRSSI lastSNR uptime valid nodeID
       deviceType macAddr name].
  repeat (split; [reflexivity |]).
  split; [intros k -> Hk; now apply as_uint8_number |].
  split; [intros t -> Ht; now apply as_uint8_number |].
  split.
  - intros x -> Hlen Hx. rewrite as_String_string.
    now rewrite (stringToMAC_macToString x stack_mac Hlen Hx).
  - intros nm -> Hnm. cbn [or_default]. unfold strlcpy.
    now apply string_take_all.
Qed.

(** C9.  When the nodes file exists, opens and parses, [loadNodes] returns
    true and changes the registry only: the new registry has one entry per
    element of the file's [nodes] array, in order, whatever the registry
    held before, each with online=false, lastSeen=0, relayStatus, lastRSSI,
    lastSNR and uptime 0, and with the ID, type, MAC and name the element
    gives.  When the file is missing or does not parse, [loadNodes] returns
    false and changes nothing, and [begin] still returns true with the
    manager initialised. *)
Theorem loadNodes_replaces_registry (stack_mac : list Z) (m : LoRaManager) :
  (forall doc,
      _nodesFile m = JsonFile doc -> _fsOpenFails m = false ->
      let entries := as_JsonArray (member "nodes" doc) in
      let r := loadNodes as_uint8 as_String stack_mac m in
      fst r = true
      /\ snd r = set_registeredNodes (_registeredNodes (snd r)) m
      /\ length (_registeredNodes (snd r)) = length entries
      /\ (forall nodes,
            _registeredNodes
              (snd (loadNodes as_uint8 as_String stack_mac (set_registeredNodes nodes m)))
            = _registeredNodes (snd r))
      /\ (forall i e,
            entries !! i = Some e ->
            exists n,
              _registeredNodes (snd r) !! i = Some n
              /\ online n = false /\ lastSeen n = 0 /\ relayStatus n = 0
              /\ lastRSSI n = 0 /\ lastSNR n = 0 /\ uptime n = 0 /\ valid n = true
              /\ (forall k, member "id" e = JNum k -> is_u8 k -> nodeID n = k)
              /\ (forall t, member "type" e = JNum t -> is_u8 t -> deviceType n = t)
              /\ (forall x, member "mac" e = JStr (macToString x) ->
                            length x = MAC_ADDR_LEN -> Forall is_u8 x ->
                            macAddr n = x)
              /\ (forall nm, member "name" e = JStr nm ->
                             (String.length nm <= 31)%nat -> name n = nm)))
  /\ (_nodesFile m = NoFile \/ _nodesFile m = CorruptFile ->
      loadNodes as_uint8 as_String stack_mac m = (false, m)
      /\ fst (begin as_uint8 as_String stack_mac m) = true
      /\ _initialized (snd (begin as_uint8 as_String stack_mac m)) = true
      /\ _registeredNodes (snd (begin as_uint8 as_String stack_mac m))
         = _registeredNodes m).
Proof using as_uint8_number as_String_string.
  split.
  - intros doc Hfile Hopen. cbv zeta. unfold loadNodes. fields.
    rewrite Hfile, Hopen. fields.
    split; [reflexivity |]. split; [reflexivity |].
    split; [apply length_map |]. split; [reflexivity |].
    intros i e Hi.
    exists (node_of_json as_uint8 as_String stack_mac e).
    split.
    + change (map (node_of_json as_uint8 as_String stack_mac))
        with (fmap (M := list) (node_of_json as_uint8 as_String stack_mac)).
      rewrite list_lookup_fmap, Hi. reflexivity.
    + apply node_of_json_fields.
  - intros Hbad. unfold begin, loadNodes. fields.
    destruct Hbad as [-> | ->]; fields;
      repeat (split; [reflexivity |]); reflexivity.
Qed.

End LoadNodes.

(** Scenario E on the file the completed pairing wrote: node 4 was online
    with [lastSeen] 1500 when it was saved, and is loaded offline. *)
Lemma loadNodes_replaces_registry_witness :
  let r := loadNodes sample_as_uint8 sample_as_String [] paired_manager in
  fst r = true
  /\ length (_registeredNodes (snd r)) = 4%nat
  /\ exists n,
       _registeredNodes (snd r) !! 3%nat = Some n
       /\ online n = false /\ lastSeen n = 0
       /\ nodeID n = 4 /\ macAddr n = [0xAA; 0xBB; 0xCC; 0x11; 0x22; 0x33].
Proof.
  cbv zeta.
  destruct (loadNodes_replaces_registry sample_as_uint8 sample_as_String)
    with (stack_mac := @nil Z) (m := paired_manager) as [Hload _].
  - intros z [H0 H256]. cbn [sample_as_uint8].
    rewrite (proj2 (Z.leb_le _ _) H0), (proj2 (Z.ltb_lt _ _) H256). reflexivity.
  - reflexivity.
  - destruct (Hload (nodes_document (_registeredNodes paired_manager)))
      as (Hok & _ & Hlen & _ & Hentries); try reflexivity.
    split; [exact Hok |]. split; [exact Hlen |].
    destruct (Hentries 3%nat
                (node_to_json
                   (paired_node 1500 waiting_manager)) eq_refl)
      as (n & Hn & Hon & Hseen & _ & _ & _ & _ & _ & Hid & _ & Hmac & _).
    exists n. split; [exact Hn |]. split; [exact Hon |]. split; [exact Hseen |].
    split.
    + apply Hid; [reflexivity | unfold is_u8; vm_compute; split; congruence].
    + apply Hmac; [reflexivity | reflexivity |].
      repeat constructor; vm_compute; congruence.
Defined.

(** * Further properties of the manager *)

(** ** Pairing: accepted requests, replays and cancellation *)

Module PairingFacts.

Lemma memcpy_length (src : list Z) (n : nat) : length (memcpy src n) = n.
Proof. unfold memcpy. now rewrite length_map, length_seq. Qed.

Lemma memcpy_idem (src : list Z) (n : nat) : memcpy (memcpy src n) n = memcpy src n.
Proof.
  rewrite <- (memcpy_length src n) at 2. apply memcpy_all.
Qed.

Lemma handleAck_unmatched (now : Z) (pkt : AckPacket_t) (m : LoRaManager) :
  _pairingState m <> PAIR_WAITING_ACK \/ ack_ackType pkt <> PKG_WELCOME ->
  _handleAck now pkt m = m.
Proof.
  intros H. unfold _handleAck.
  destruct (PairingState_eqb (_pairingState m) PAIR_WAITING_ACK) eqn:Est;
    [| reflexivity].
  apply PairingState_eqb_eq in Est.
  destruct H as [H | H]; [contradiction |].
  rewrite (proj2 (Z.eqb_neq _ _) H). reflexivity.
Qed.

Lemma handleAck_ends_session (now : Z) (pkt : AckPacket_t) (m : LoRaManager) :
  _pairingState m = PAIR_WAITING_ACK -> ack_ackType pkt = PKG_WELCOME ->
  _pairingState (_handleAck now pkt m) = PAIR_IDLE.
Proof.
  intros Hst Hty.
  destruct (Z.eq_dec (ack_status pkt) ERR_NONE) as [Hok | Hbad].
  - now destruct (handleAck_success now pkt m Hst Hty Hok) as (_ & _ & H & _).
  - now destruct (handleAck_failure now pkt m Hst Hty Hbad) as (_ & _ & H & _).
Qed.

Lemma find_app_none {A} (p : A -> bool) (l l' : list A) :
  find p l = None -> find p (l ++ l') = find p l'.
Proof.
  induction l as [| a l IH]; [reflexivity |]. cbn.
  destruct (p a); [discriminate | exact IH].
Qed.

Lemma find_none_existsb {A} (p : A -> bool) (l : list A) :
  existsb p l = false -> find p l = None.
Proof.
  induction l as [| a l IH]; [reflexivity |]. cbn.
  destruct (p a); [discriminate | exact IH].
Qed.

Lemma memcmp_refl (n : nat) : forall a : list Z, memcmp a a n = 0.
Proof.
  induction n as [| n IH]; intros a; cbn [memcmp]; [reflexivity |].
  rewrite Z.eqb_refl. apply IH.
Qed.


(** What an accepted request stores. *)
Lemma startPairing_accepted_facts (now : Z) (modem_ok : bool) (mac : list Z)
  (m : LoRaManager) :
  _pairingState m = PAIR_IDLE ->
  mac_in_use mac (_registeredNodes m) = false ->
  _getNextFreeID m <> 0 ->
  let m1 := snd (startPairing now modem_ok mac m) in
  _pairingState m1 = PAIR_WAITING_ACK
  /\ _pairingNodeID m1 = _getNextFreeID m
  /\ _pairingMAC m1 = memcpy mac MAC_ADDR_LEN
  /\ _registeredNodes m1 = _registeredNodes m.
Proof.
  intros Hidle Hmac Hfree. cbv zeta. unfold startPairing.
  rewrite Hidle, isNodeRegistered_mac_in_use, Hmac. cbn [PairingState_eqb negb].
  fields. rewrite (proj2 (Z.eqb_neq _ _) Hfree).
  unfold _sendWelcome, _sendPacket. fields.
  destruct (negb (_serial m) || negb (_initialized m)); fields;
    repeat (split; [reflexivity |]); reflexivity.
Qed.

Lemma memcmp_memcpy_l (n : nat) :
  forall a b : list Z, memcmp (memcpy a n) b n = memcmp a b n.
Proof.
  induction n as [| n IH]; intros a b; [reflexivity |].
  rewrite Uniqueness.memcpy_S. cbn [memcmp hd tl]. now rewrite IH.
Qed.

End PairingFacts.

(** X1.  An Ack is acted on at most once.  Handling an Ack a second time,
    at whatever later moment, leaves the manager as the first handling left
    it; and an Ack that arrives while no session is WaitingAck, or that
    acknowledges something other than the Welcome, changes nothing at
    all. *)
Theorem handleAck_replay (now now' : Z) (pkt : AckPacket_t) (m : LoRaManager) :
  _handleAck now' pkt (_handleAck now pkt m) = _handleAck now pkt m
  /\ (_pairingState m <> PAIR_WAITING_ACK \/ ack_ackType pkt <> PKG_WELCOME ->
      _handleAck now pkt m = m).
Proof.
  split; [| apply PairingFacts.handleAck_unmatched].
  destruct (PairingState_eqb (_pairingState m) PAIR_WAITING_ACK) eqn:Est.
  - apply PairingState_eqb_eq in Est.
    destruct (Z.eq_dec (ack_ackType pkt) PKG_WELCOME) as [Hty | Hty].
    + apply PairingFacts.handleAck_unmatched. left.
      rewrite (PairingFacts.handleAck_ends_session now pkt m Est Hty). discriminate.
    + rewrite (PairingFacts.handleAck_unmatched now pkt m) by now right.
      apply PairingFacts.handleAck_unmatched. now right.
  - assert (Hne : _pairingState m <> PAIR_WAITING_ACK).
    { intros H. apply PairingState_eqb_eq in H. congruence. }
    rewrite (PairingFacts.handleAck_unmatched now pkt m) by now left.
    apply PairingFacts.handleAck_unmatched. now left.
Qed.

(** X2.  An accepted pairing request.  With the state Idle, the MAC not
    registered and an ID free, [startPairing] stores the least free ID, the
    six bytes of the MAC and the current time, and the state becomes
    WaitingAck; the registry is not touched.  On an initialised manager one
    Welcome frame (type, MAC, assigned ID, 0) is transmitted and the result
    is the modem's answer; on a manager that is not initialised nothing is
    transmitted and the result is false, yet the session is WaitingAck all
    the same. *)
Theorem startPairing_accepted (now : Z) (modem_ok : bool) (mac : list Z)
  (m : LoRaManager) :
  _pairingState m = PAIR_IDLE ->
  mac_in_use mac (_registeredNodes m) = false ->
  _getNextFreeID m <> 0 ->
  let r := startPairing now modem_ok mac m in
  let id := _getNextFreeID m in
  _pairingState (snd r) = PAIR_WAITING_ACK
  /\ _pairingNodeID (snd r) = id
  /\ _pairingMAC (snd r) = memcpy mac MAC_ADDR_LEN
  /\ _pairingStartTime (snd r) = now
  /\ _registeredNodes (snd r) = _registeredNodes m
  /\ (_serial m = true -> _initialized m = true ->
      fst r = modem_ok
      /\ _events (snd r)
         = _events m ++ [EvTransmit (PKG_WELCOME :: memcpy mac MAC_ADDR_LEN ++ [id; 0])])
  /\ (_serial m = false \/ _initialized m = false ->
      fst r = false /\ _events (snd r) = _events m).
Proof.
  intros Hidle Hmac Hfree. cbv zeta. unfold startPairing.
  rewrite Hidle, isNodeRegistered_mac_in_use, Hmac. cbn [PairingState_eqb negb].
  fields. rewrite (proj2 (Z.eqb_neq _ _) Hfree).
  unfold _sendWelcome, _sendPacket, WelcomePacket_bytes. fields.
  cbn [welcome_type welcome_targetMac welcome_assignedID welcome_reserved].
  rewrite PairingFacts.memcpy_idem.
  destruct (_serial m), (_initialized m); cbn [negb orb]; fields;
    repeat (split; [reflexivity |]); split;
    first [ intros [H | H]; discriminate H
          | intros H; try discriminate H; intros H'; try discriminate H';
            split; reflexivity
          | intros _; split; reflexivity ].
Qed.

Lemma startPairing_accepted_witness :
  let r := startPairing 1000 true [0xAA; 0xBB; 0xCC; 0x11; 0x22; 0x33]
             (onPairingComplete (set_initialized true (set_serial true three_nodes))) in
  fst r = true /\ _pairingState (snd r) = PAIR_WAITING_ACK /\ _pairingNodeID (snd r) = 4.
Proof.
  cbv zeta.
  destruct (startPairing_accepted 1000 true [0xAA; 0xBB; 0xCC; 0x11; 0x22; 0x33]
              (onPairingComplete (set_initialized true (set_serial true three_nodes))))
    as (Hst & Hid & _ & _ & _ & Hsend & _); try reflexivity.
  - vm_compute. discriminate.
  - destruct Hsend as [Hok _]; try reflexivity.
    split; [exact Hok |]. split; [exact Hst | exact Hid].
Defined.

(** X3.  A completed pairing can be looked up and cannot be repeated.  When
    an accepted [startPairing] is followed by the positive Ack to the
    Welcome, [getNodeByID] of the assigned ID and [getNodeByMAC] of the MAC
    both return the new node, online and last seen at the time of the Ack;
    a later [startPairing] for the same MAC returns false and changes
    nothing. *)
Theorem pairing_registers_node (now now' now'' : Z) (modem_ok modem_ok' : bool)
  (mac : list Z) (pkt : AckPacket_t) (m : LoRaManager) :
  _pairingState m = PAIR_IDLE ->
  mac_in_use mac (_registeredNodes m) = false ->
  _getNextFreeID m <> 0 ->
  ack_ackType pkt = PKG_WELCOME ->
  ack_status pkt = ERR_NONE ->
  let id := _getNextFreeID m in
  let m1 := snd (startPairing now modem_ok mac m) in
  let m2 := _handleAck now' pkt m1 in
  exists node,
    getNodeByID id m2 = Some node
    /\ getNodeByMAC mac m2 = Some node
    /\ nodeID node = id
    /\ macAddr node = memcpy mac MAC_ADDR_LEN
    /\ online node = true
    /\ lastSeen node = now'
    /\ _registeredNodes m2 = _registeredNodes m ++ [node]
    /\ startPairing now'' modem_ok' mac m2 = (false, m2).
Proof.
  intros Hidle Hmac Hfree Hty Hok. cbv zeta.
  destruct (PairingFacts.startPairing_accepted_facts now modem_ok mac m Hidle Hmac Hfree)
    as (Hst1 & Hid1 & Hmac1 & Hreg1).
  set (m1 := snd (startPairing now modem_ok mac m)) in *.
  destruct (handleAck_success now' pkt m1 Hst1 Hty Hok) as (Hreg2 & _ & Hidle2 & _).
  set (m2 := _handleAck now' pkt m1) in *.
  assert (Hnode : paired_node now' m1
                  = mkRegisteredNode (_getNextFreeID m) (memcpy mac MAC_ADDR_LEN)
                      (paired_deviceType m1) (node_name (_getNextFreeID m))
                      0 0 0 0 now' true true).
  { unfold paired_node. rewrite Hid1, Hmac1, PairingFacts.memcpy_idem. reflexivity. }
  assert (Hidfree : id_in_use (_getNextFreeID m) (_registeredNodes m) = false).
  { destruct (Allocation.next_free_cases m) as [[Hr _] | (_ & H & _)];
      cbv zeta in *; [contradiction | exact H]. }
  exists (paired_node now' m1).
  rewrite Hreg1 in Hreg2.
  split; [| split; [| split; [| split; [| split; [| split; [| split]]]]]].
  - unfold getNodeByID. rewrite Hreg2.
    rewrite PairingFacts.find_app_none
      by (apply PairingFacts.find_none_existsb; exact Hidfree).
    rewrite Hnode. cbn [find valid nodeID andb]. now rewrite Z.eqb_refl.
  - unfold getNodeByMAC. rewrite Hreg2.
    rewrite PairingFacts.find_app_none
      by (apply PairingFacts.find_none_existsb; exact Hmac).
    rewrite Hnode. cbn [find valid macAddr andb].
    now rewrite PairingFacts.memcmp_memcpy_l, PairingFacts.memcmp_refl.
  - now rewrite Hnode.
  - now rewrite Hnode.
  - now rewrite Hnode.
  - now rewrite Hnode.
  - exact Hreg2.
  - assert (Hin : mac_in_use mac (_registeredNodes m2) = true).
    { rewrite Hreg2, Uniqueness.mac_in_use_app, Hnode.
      unfold mac_in_use at 2. cbn [existsb valid macAddr andb].
      rewrite PairingFacts.memcmp_memcpy_l, PairingFacts.memcmp_refl.
      apply orb_true_r. }
    unfold startPairing. rewrite Hidle2. cbn [PairingState_eqb negb].
    rewrite isNodeRegistered_mac_in_use, Hin. reflexivity.
Qed.

Lemma pairing_registers_node_witness :
  let m := onPairingComplete (set_initialized true (set_serial true three_nodes)) in
  let m1 := snd (startPairing 1000 true [0xAA; 0xBB; 0xCC; 0x11; 0x22; 0x33] m) in
  let m2 := _handleAck 1500 (mkAck PKG_ACK 4 PKG_WELCOME ERR_NONE) m1 in
  exists node,
    getNodeByID 4 m2 = Some node /\ lastSeen node = 1500
    /\ startPairing 3000 true [0xAA; 0xBB; 0xCC; 0x11; 0x22; 0x33] m2 = (false, m2).
Proof.
  cbv zeta.
  destruct (pairing_registers_node 1000 1500 3000 true true
              [0xAA; 0xBB; 0xCC; 0x11; 0x22; 0x33]
              (mkAck PKG_ACK 4 PKG_WELCOME ERR_NONE)
              (onPairingComplete (set_initialized true (set_serial true three_nodes))))
    as (node & Hid & _ & _ & _ & _ & Hseen & _ & Hrej); try reflexivity.
  - vm_compute. discriminate.
  - exists node. split; [exact Hid |]. split; [exact Hseen | exact Hrej].
Defined.

(** X4.  [cancelPairing] ends a session silently: the state is Idle, the
    stored ID is 0 and the stored MAC all zeros, nothing is registered and
    no callback is called; an Ack that arrives afterwards is ignored, and
    so is the timeout check of a later tick. *)
Theorem cancelPairing_drops_session (now : Z) (pkt : AckPacket_t) (m : LoRaManager) :
  let m' := cancelPairing m in
  _pairingState m' = PAIR_IDLE
  /\ _pairingNodeID m' = 0
  /\ _pairingMAC m' = [0; 0; 0; 0; 0; 0]
  /\ _registeredNodes m' = _registeredNodes m
  /\ _events m' = _events m
  /\ _handleAck now pkt m' = m'
  /\ pairing_timeout_check now m' = m'.
Proof.
  cbv zeta. unfold cancelPairing.
  repeat (split; [reflexivity |]). reflexivity.
Qed.

(** X5.  A refused pairing consumes nothing.  When the node answers the
    Welcome with an error status, nothing is registered, the callback (when
    set) is called once with the assigned ID and success=false, the state is
    Idle, and the allocator and the MAC check answer as they did before the
    request: the same MAC can be paired again and gets the same ID. *)
Theorem refused_pairing_consumes_nothing (now now' now'' : Z)
  (modem_ok modem_ok' : bool) (mac : list Z) (pkt : AckPacket_t) (m : LoRaManager) :
  _pairingState m = PAIR_IDLE ->
  mac_in_use mac (_registeredNodes m) = false ->
  _getNextFreeID m <> 0 ->
  ack_ackType pkt = PKG_WELCOME ->
  ack_status pkt <> ERR_NONE ->
  let m1 := snd (startPairing now modem_ok mac m) in
  let m2 := _handleAck now' pkt m1 in
  let m3 := snd (startPairing now'' modem_ok' mac m2) in
  _registeredNodes m2 = _registeredNodes m
  /\ _pairingState m2 = PAIR_IDLE
  /\ _events m2
     = _events m1
       ++ (if _pairingCallback m then [EvPairingCallback (_getNextFreeID m) false]
           else [])
  /\ _getNextFreeID m2 = _getNextFreeID m
  /\ _pairingState m3 = PAIR_WAITING_ACK
  /\ _pairingNodeID m3 = _getNextFreeID m.
Proof.
  intros Hidle Hmac Hfree Hty Hbad. cbv zeta.
  destruct (PairingFacts.startPairing_accepted_facts now modem_ok mac m Hidle Hmac Hfree)
    as (Hst1 & Hid1 & Hmac1 & Hreg1).
  assert (Hcb1 : _pairingCallback (snd (startPairing now modem_ok mac m))
                 = _pairingCallback m).
  { unfold startPairing.
    rewrite Hidle, isNodeRegistered_mac_in_use, Hmac. cbn [PairingState_eqb negb].
    fields. rewrite (proj2 (Z.eqb_neq _ _) Hfree).
    unfold _sendWelcome, _sendPacket. fields.
    destruct (negb (_serial m) || negb (_initialized m)); reflexivity. }
  generalize dependent (snd (startPairing now modem_ok mac m)). intros m1 **.
  destruct (handleAck_failure now' pkt m1 Hst1 Hty Hbad)
    as (Hreg2 & Hev2 & Hidle2 & _).
  generalize dependent (_handleAck now' pkt m1). intros m2 **.
  assert (Hnext : _getNextFreeID m2 = _getNextFreeID m).
  { unfold _getNextFreeID. rewrite Hreg2, Hreg1. reflexivity. }
  destruct (PairingFacts.startPairing_accepted_facts now'' modem_ok' mac m2)
    as (Hst3 & Hid3 & _).
  - exact Hidle2.
  - rewrite Hreg2, Hreg1. exact Hmac.
  - rewrite Hnext. exact Hfree.
  - split; [exact (eq_trans Hreg2 Hreg1) |]. split; [exact Hidle2 |].
    split; [rewrite Hev2, Hcb1, Hid1; reflexivity |].
    split; [exact Hnext |]. split; [exact Hst3 |].
    rewrite Hid3. exact Hnext.
Qed.

Lemma refused_pairing_consumes_nothing_witness :
  let m := onPairingComplete (set_initialized true (set_serial true three_nodes)) in
  let mac := [0xAA; 0xBB; 0xCC; 0x11; 0x22; 0x33] in
  let m1 := snd (startPairing 1000 true mac m) in
  let m2 := _handleAck 1500 (mkAck PKG_ACK 4 PKG_WELCOME ERR_INVALID_CMD) m1 in
  _registeredNodes m2 = _registeredNodes m
  /\ _pairingNodeID (snd (startPairing 2000 true mac m2)) = 4.
Proof.
  cbv zeta.
  destruct (refused_pairing_consumes_nothing 1000 1500 2000 true true
              [0xAA; 0xBB; 0xCC; 0x11; 0x22; 0x33]
              (mkAck PKG_ACK 4 PKG_WELCOME ERR_INVALID_CMD)
              (onPairingComplete (set_initialized true (set_serial true three_nodes))))
    as (Hreg & _ & _ & _ & _ & Hid); try reflexivity.
  - vm_compute. discriminate.
  - vm_compute. discriminate.
  - split; [exact Hreg | exact Hid].
Defined.

(** ** The registry: removal, ingestion and the offline sweep *)

Module RegistryFacts.

Lemma erase_first_none (id : Z) (l : list RegisteredNode) :
  (forall n, In n l -> nodeID n <> id) -> erase_first id l = None.
Proof.
  induction l as [| a l IH]; intros H; [reflexivity |]. cbn.
  rewrite (proj2 (Z.eqb_neq _ _) (H a (or_introl eq_refl))).
  rewrite IH; [reflexivity |]. intros n Hn. apply H. now right.
Qed.

Lemma erase_first_some (id : Z) (l : list RegisteredNode) :
  (exists n, In n l /\ nodeID n = id) ->
  exists l', erase_first id l = Some l' /\ length l = S (length l').
Proof.
  induction l as [| a l IH]; intros (n & Hin & Hn); [destruct Hin |]. cbn.
  destruct (Z.eqb_spec (nodeID a) id) as [Ha | Ha].
  - exists l. split; reflexivity.
  - destruct Hin as [-> | Hin]; [contradiction |].
    destruct IH as (l' & -> & Hlen); [exists n; split; assumption |].
    exists (a :: l'). split; [reflexivity |]. cbn. now rewrite Hlen.
Qed.

Lemma erase_first_find_other (id j : Z) (l l' : list RegisteredNode) :
  j <> id -> erase_first id l = Some l' ->
  find (node_matches j) l' = find (node_matches j) l.
Proof.
  intros Hj. revert l'. induction l as [| a l IH]; intros l' H; cbn in H;
    [discriminate |].
  destruct (Z.eqb_spec (nodeID a) id) as [Ha | Ha].
  - injection H as <-. cbn [find]. unfold node_matches at 2.
    rewrite Ha, (proj2 (Z.eqb_neq _ _) (not_eq_sym Hj)), andb_false_r. reflexivity.
  - destruct (erase_first id l) as [r |]; [| discriminate].
    injection H as <-. cbn [find]. destruct (node_matches j a); [reflexivity |].
    now apply IH.
Qed.

(** Updating the first match of [p] does not disturb a search for [q] when
    the update keeps [q] and no match of [p] satisfies [q]. *)
Lemma find_update_first_other {A} (p q : A -> bool) (f : A -> A) (l : list A) :
  (forall x, q (f x) = q x) ->
  (forall x, p x = true -> q x = false) ->
  find q (update_first p f l) = find q l.
Proof.
  intros Hq Hpq. induction l as [| a l IH]; [reflexivity |].
  cbn [update_first]. destruct (p a) eqn:Ep; cbn [find].
  - rewrite Hq, (Hpq a Ep). reflexivity.
  - destruct (q a); [reflexivity | exact IH].
Qed.

Lemma find_update_first_same {A} (p : A -> bool) (f : A -> A) (l : list A) :
  (forall x, p (f x) = p x) ->
  find p (update_first p f l) = option_map f (find p l).
Proof.
  intros Hp. induction l as [| a l IH]; [reflexivity |].
  cbn [update_first]. destruct (p a) eqn:Ep; cbn [find].
  - rewrite Hp, Ep. reflexivity.
  - rewrite Ep. exact IH.
Qed.

Lemma find_map_same {A} (p : A -> bool) (f : A -> A) (l : list A) :
  (forall x, p (f x) = p x) ->
  find p (map f l) = option_map f (find p l).
Proof.
  intros Hp. induction l as [| a l IH]; [reflexivity |].
  cbn [map find]. rewrite Hp. destruct (p a); [reflexivity | exact IH].
Qed.

Lemma length_update_first {A} (p : A -> bool) (f : A -> A) (l : list A) :
  length (update_first p f l) = length l.
Proof.
  induction l as [| a l IH]; [reflexivity |].
  cbn [update_first]. destruct (p a); cbn; [reflexivity | now rewrite IH].
Qed.

Lemma node_matches_other (id j : Z) (x : RegisteredNode) :
  j <> id -> node_matches id x = true -> node_matches j x = false.
Proof.
  unfold node_matches. intros Hj H. apply andb_prop in H as [Hv Hx].
  apply Z.eqb_eq in Hx. rewrite Hv, Hx. cbn [andb]. now apply Z.eqb_neq.
Qed.

Lemma swept_keys (now : Z) (x : RegisteredNode) : keys (swept now x) = keys x.
Proof. unfold swept. destruct (_ && _); reflexivity. Qed.

Lemma swept_online (now : Z) (x : RegisteredNode) :
  online (swept now x)
  = online x && negb (valid x && (NODE_OFFLINE_THRESHOLD <? u32 (now - lastSeen x))).
Proof.
  unfold swept.
  destruct (valid x) eqn:Ev, (online x) eqn:Eo, (NODE_OFFLINE_THRESHOLD <? _) eqn:Et;
    cbn [andb negb online]; rewrite ?Eo; reflexivity.
Qed.

Lemma swept_lastSeen (now : Z) (x : RegisteredNode) :
  lastSeen (swept now x) = lastSeen x /\ valid (swept now x) = valid x.
Proof. unfold swept. destruct (_ && _); split; reflexivity. Qed.

Lemma swept_idem (now : Z) (x : RegisteredNode) : swept now (swept now x) = swept now x.
Proof.
  unfold swept at 1.
  destruct (swept_lastSeen now x) as [-> ->]. rewrite swept_online.
  destruct (valid x) eqn:Ev, (online x) eqn:Eo, (NODE_OFFLINE_THRESHOLD <? _) eqn:Et;
    reflexivity.
Qed.

Lemma updateNodeOnlineStatus_swept (now : Z) (m : LoRaManager) :
  _updateNodeOnlineStatus now m
  = set_registeredNodes (map (swept now) (_registeredNodes m)) m.
Proof. reflexivity. Qed.

End RegistryFacts.

(** X6.  [removeNode].  When no entry carries the ID the call returns false
    and changes nothing.  When one does, the call returns true, the
    registry is one entry shorter, [saveNodes] runs once (and the nodes
    file, when it can be opened, holds exactly the remaining valid nodes),
    lookups of other IDs answer as before, and, the IDs of the registry
    being distinct, [getNodeByID] of the removed ID finds nothing. *)
Theorem removeNode_effect (id : Z) (m : LoRaManager) :
  ((forall n, In n (_registeredNodes m) -> nodeID n <> id) ->
   removeNode id m = (false, m))
  /\ ((exists n, In n (_registeredNodes m) /\ nodeID n = id) ->
      let m' := snd (removeNode id m) in
      fst (removeNode id m) = true
      /\ length (_registeredNodes m) = S (length (_registeredNodes m'))
      /\ _events m' = _events m ++ [EvSaveNodes (negb (_fsOpenFails m))]
      /\ (_fsOpenFails m = false ->
          _nodesFile m' = JsonFile (nodes_document (_registeredNodes m')))
      /\ (forall j, j <> id -> getNodeByID j m' = getNodeByID j m)
      /\ (NoDup (map nodeID (_registeredNodes m)) -> getNodeByID id m' = None)).
Proof.
  split.
  - intros Habs. unfold removeNode.
    now rewrite RegistryFacts.erase_first_none.
  - intros Hex. cbv zeta.
    destruct (RegistryFacts.erase_first_some id _ Hex) as (l' & Hl' & Hlen).
    unfold removeNode. rewrite Hl'. cbn [fst snd]. rewrite saveNodes_snd.
    unfold getNodeByID.
    destruct (_fsOpenFails m) eqn:Efs; fields; rewrite ?Efs;
      (split; [reflexivity |]; split; [exact Hlen |]; split; [reflexivity |];
       split; [intros H; first [discriminate H | reflexivity] |]; split;
       [ intros j Hj; now apply RegistryFacts.erase_first_find_other with (id := id)
       | intros Hnd; apply PairingFacts.find_none_existsb;
         exact (erase_first_frees id _ _ Hnd Hl') ]).
Qed.

(** Removing node 2 of three: nodes 1 and 3 stay, node 2 is gone. *)
Lemma removeNode_effect_witness :
  let m' := snd (removeNode 2 three_nodes) in
  fst (removeNode 2 three_nodes) = true
  /\ getNodeByID 2 m' = None
  /\ getNodeByID 3 m' = getNodeByID 3 three_nodes.
Proof.
  cbv zeta.
  destruct (removeNode_effect 2 three_nodes) as [_ Hpresent].
  destruct Hpresent as (Hok & _ & _ & _ & Hother & Hgone).
  - exists (plain_node 2 [0xAA; 0; 0; 0; 0; 2]). split; [| reflexivity].
    right. left. reflexivity.
  - split; [exact Hok |]. split.
    + apply Hgone. cbn. repeat constructor; rewrite ?list_elem_of_In; cbn;
        intuition discriminate.
    + apply Hother. discriminate.
Defined.

(** X7.  Data ingestion.  A Data packet from an ID that no valid node has
    is ignored altogether.  Otherwise the first valid node with that ID
    takes relay status, RSSI, SNR and uptime from the packet, is last seen
    now and online; its ID, MAC, type and name stay, the other IDs look up
    as before, the registry keeps its length, and the data callback, when
    set, is called once with the packet. *)
Theorem handleData_effect (now : Z) (pkt : DataPacket_t) (m : LoRaManager) :
  let id := data_nodeID pkt in
  let m' := _handleData now pkt m in
  (getNodeByID id m = None -> m' = m)
  /\ (forall node,
        getNodeByID id m = Some node ->
        getNodeByID id m'
        = Some (mkRegisteredNode (nodeID node) (macAddr node) (deviceType node)
                  (name node) (data_relayStatus pkt) (data_rssi pkt)
                  (data_snr pkt) (data_uptime pkt) now true (valid node))
        /\ (forall j, j <> id -> getNodeByID j m' = getNodeByID j m)
        /\ length (_registeredNodes m') = length (_registeredNodes m)
        /\ map keys (_registeredNodes m') = map keys (_registeredNodes m)
        /\ _events m'
           = _events m
             ++ (if _nodeDataCallback m then [EvNodeDataCallback id pkt] else [])).
Proof.
  cbv zeta. unfold _handleData. split.
  - intros ->. reflexivity.
  - intros node Hnode. rewrite Hnode. fields.
    assert (Hreg : forall e,
               _registeredNodes
                 (if _nodeDataCallback m
                  then emit e (set_registeredNodes
                                 (update_first (node_matches (data_nodeID pkt))
                                    (fun node =>
                                       mkRegisteredNode (nodeID node) (macAddr node)
                                         (deviceType node) (name node)
                                         (data_relayStatus pkt) (data_rssi pkt)
                                         (data_snr pkt) (data_uptime pkt) now true
                                         (valid node))
                                    (_registeredNodes m)) m)
                  else set_registeredNodes
                         (update_first (node_matches (data_nodeID pkt))
                            (fun node =>
                               mkRegisteredNode (nodeID node) (macAddr node)
                                 (deviceType node) (name node)
                                 (data_relayStatus pkt) (data_rssi pkt)
                                 (data_snr pkt) (data_uptime pkt) now true
                                 (valid node))
                            (_registeredNodes m)) m)
               = update_first (node_matches (data_nodeID pkt))
                   (fun node =>
                      mkRegisteredNode (nodeID node) (macAddr node)
                        (deviceType node) (name node)
                        (data_relayStatus pkt) (data_rssi pkt)
                        (data_snr pkt) (data_uptime pkt) now true (valid node))
                   (_registeredNodes m))
      by (intros e; destruct (_nodeDataCallback m); reflexivity).
    unfold getNodeByID. rewrite !Hreg.
    split; [| split; [| split; [| split]]].
    + change (fun node0 => valid node0 && (nodeID node0 =? data_nodeID pkt))
        with (node_matches (data_nodeID pkt)).
      rewrite RegistryFacts.find_update_first_same by reflexivity.
      unfold getNodeByID in Hnode.
      change (fun node0 => valid node0 && (nodeID node0 =? data_nodeID pkt))
        with (node_matches (data_nodeID pkt)) in Hnode.
      rewrite Hnode. reflexivity.
    + intros j Hj.
      change (fun node0 => valid node0 && (nodeID node0 =? j)) with (node_matches j).
      apply RegistryFacts.find_update_first_other; [reflexivity |].
      intros x. now apply RegistryFacts.node_matches_other.
    + apply RegistryFacts.length_update_first.
    + now apply Uniqueness.update_first_keys.
    + destruct (_nodeDataCallback m); fields; [reflexivity | now rewrite app_nil_r].
Qed.

(** X8.  A Heartbeat marks its node online.  A Heartbeat from an ID that no
    valid node has is ignored.  Otherwise the first valid node with that ID
    takes the relay status of the packet, is last seen now and online,
    while its RSSI, SNR and uptime stay as the last Data packet left them;
    no callback is called and the other IDs look up as before. *)
Theorem handleHeartbeat_effect (now : Z) (pkt : HeartbeatPacket_t) (m : LoRaManager) :
  let id := hb_nodeID pkt in
  let m' := _handleHeartbeat now pkt m in
  (getNodeByID id m = None -> m' = m)
  /\ (forall node,
        getNodeByID id m = Some node ->
        getNodeByID id m'
        = Some (mkRegisteredNode (nodeID node) (macAddr node) (deviceType node)
                  (name node) (hb_relayStatus pkt) (lastRSSI node) (lastSNR node)
                  (uptime node) now true (valid node))
        /\ (forall j, j <> id -> getNodeByID j m' = getNodeByID j m)
        /\ map keys (_registeredNodes m') = map keys (_registeredNodes m)
        /\ _events m' = _events m).
Proof.
  cbv zeta. unfold _handleHeartbeat. split.
  - intros ->. reflexivity.
  - intros node Hnode. rewrite Hnode. unfold getNodeByID in *. fields.
    change (fun node0 => valid node0 && (nodeID node0 =? hb_nodeID pkt))
      with (node_matches (hb_nodeID pkt)) in *.
    split; [| split; [| split]].
    + rewrite RegistryFacts.find_update_first_same by reflexivity.
      rewrite Hnode. reflexivity.
    + intros j Hj.
      change (fun node0 => valid node0 && (nodeID node0 =? j)) with (node_matches j).
      apply RegistryFacts.find_update_first_other; [reflexivity |].
      intros x. now apply RegistryFacts.node_matches_other.
    + now apply Uniqueness.update_first_keys.
    + reflexivity.
Qed.

(** X9.  The offline sweep only ever takes nodes offline.  It changes
    nothing but the [online] flags of the registry: a node is online after
    the sweep exactly when it was online before and is not a valid node
    last seen more than [NODE_OFFLINE_THRESHOLD] ms ago on the 32-bit
    clock.  So a node that was offline stays offline, the number of valid
    online nodes does not grow, and a second sweep at the same time changes
    nothing more. *)
Theorem sweep_only_takes_offline (now : Z) (m : LoRaManager) :
  let m' := _updateNodeOnlineStatus now m in
  m' = set_registeredNodes (_registeredNodes m') m
  /\ length (_registeredNodes m') = length (_registeredNodes m)
  /\ (forall i n,
        _registeredNodes m !! i = Some n ->
        exists n',
          _registeredNodes m' !! i = Some n'
          /\ keys n' = keys n
          /\ lastSeen n' = lastSeen n
          /\ online n'
             = online n
               && negb (valid n && (NODE_OFFLINE_THRESHOLD <? u32 (now - lastSeen n)))
          /\ (online n = false -> n' = n))
  /\ (length (online_nodes (_registeredNodes m'))
      <= length (online_nodes (_registeredNodes m)))%nat
  /\ _updateNodeOnlineStatus now m' = m'.
Proof.
  cbv zeta. rewrite !RegistryFacts.updateNodeOnlineStatus_swept. fields.
  split; [reflexivity |]. split; [apply length_map |]. split; [| split].
  - intros i n Hi. exists (swept now n).
    split.
    + change (map (swept now)) with (fmap (M := list) (swept now)).
      rewrite list_lookup_fmap, Hi. reflexivity.
    + split; [apply RegistryFacts.swept_keys |].
      split; [apply RegistryFacts.swept_lastSeen |].
      split; [apply RegistryFacts.swept_online |].
      intros Hoff. unfold swept. rewrite Hoff, andb_false_r. reflexivity.
  - unfold online_nodes.
    induction (_registeredNodes m) as [| a l IH]; [reflexivity |].
    cbn [map List.filter].
    destruct (RegistryFacts.swept_lastSeen now a) as [_ Hv].
    rewrite Hv, RegistryFacts.swept_online.
    destruct (valid a), (online a), (NODE_OFFLINE_THRESHOLD <? _);
      cbn [andb negb length]; lia.
  - rewrite map_map, (map_ext _ _ (RegistryFacts.swept_idem now)). reflexivity.
Qed.

(** ** The update tick: sweep period and scan window *)

Module TickFacts.

Lemma same_scan_refl (m : LoRaManager) : same_scan m m.
Proof. unfold same_scan. repeat (split; [reflexivity |]); reflexivity. Qed.

Lemma same_scan_trans (m1 m2 m3 : LoRaManager) :
  same_scan m1 m2 -> same_scan m2 m3 -> same_scan m1 m3.
Proof.
  unfold same_scan. intros (A1 & A2 & A3 & A4 & A5) (B1 & B2 & B3 & B4 & B5).
  rewrite B1, B2, B3, B4, B5. repeat (split; [assumption |]); assumption.
Qed.

Ltac same_scan_tac :=
  unfold same_scan; fields; repeat (split; [reflexivity |]); reflexivity.

Lemma handleHello_scan (now : Z) (pkt : HelloPacket_t) (rssi snr : Z) (m : LoRaManager) :
  same_scan m (_handleHello now pkt rssi snr m).
Proof.
  unfold _handleHello, _addDiscoveredNode.
  destruct (negb (_scanMode m)); [apply same_scan_refl |].
  destruct (_isDuplicateDiscovered _ m); [apply same_scan_refl |].
  destruct (_isNodeRegistered _ m); [apply same_scan_refl |].
  destruct (_ <=? _); [apply same_scan_refl |].
  fields. destruct (_nodeDiscoveredCallback m); same_scan_tac.
Qed.

Lemma handleAck_scan (now : Z) (pkt : AckPacket_t) (m : LoRaManager) :
  same_scan m (_handleAck now pkt m).
Proof.
  unfold _handleAck.
  destruct (_ && _); [| apply same_scan_refl].
  unfold fire_pairing. rewrite saveNodes_snd.
  destruct (ack_status pkt =? ERR_NONE);
    destruct (_fsOpenFails m) eqn:Efs; destruct (_pairingCallback m) eqn:Ecb;
    unfold same_scan;
    repeat (progress (fields; rewrite ?Efs, ?Ecb));
    repeat (split; [reflexivity |]); reflexivity.
Qed.

Lemma handleData_scan (now : Z) (pkt : DataPacket_t) (m : LoRaManager) :
  same_scan m (_handleData now pkt m).
Proof.
  unfold _handleData. destruct (getNodeByID _ m); [| apply same_scan_refl].
  fields. destruct (_nodeDataCallback m); same_scan_tac.
Qed.

Lemma handleHeartbeat_scan (now : Z) (pkt : HeartbeatPacket_t) (m : LoRaManager) :
  same_scan m (_handleHeartbeat now pkt m).
Proof.
  unfold _handleHeartbeat.
  destruct (getNodeByID _ m); [same_scan_tac | apply same_scan_refl].
Qed.

Lemma handlePacket_scan (now : Z) (data : list Z) (m : LoRaManager) :
  same_scan m (_handlePacket now data m).
Proof.
  unfold _handlePacket.
  destruct (_ <? 1); [apply same_scan_refl |].
  destruct (byte_at data 0 =? PKG_HELLO).
  { destruct (_ <=? _); [apply handleHello_scan | apply same_scan_refl]. }
  destruct (byte_at data 0 =? PKG_ACK).
  { destruct (_ <=? _); [apply handleAck_scan | apply same_scan_refl]. }
  destruct (byte_at data 0 =? PKG_DATA).
  { destruct (_ <=? _); [apply handleData_scan | apply same_scan_refl]. }
  destruct (byte_at data 0 =? PKG_HEARTBEAT).
  { destruct (_ <=? _); [apply handleHeartbeat_scan | apply same_scan_refl]. }
  apply same_scan_refl.
Qed.

Lemma processRxData_scan (rx : list (Z * list Z)) :
  forall m : LoRaManager, same_scan m (_processRxData rx m).
Proof.
  unfold _processRxData.
  induction rx as [| [t payload] rx IH]; intros m; cbn [fold_left].
  - apply same_scan_refl.
  - eapply same_scan_trans; [| apply IH].
    destruct (0 <? _); [apply handlePacket_scan | apply same_scan_refl].
Qed.

Lemma timeout_check_scan (now : Z) (m : LoRaManager) :
  same_scan m (pairing_timeout_check now m).
Proof.
  unfold pairing_timeout_check, fire_pairing.
  destruct (PairingState_eqb _ _); [| apply same_scan_refl].
  destruct (_ <=? _); [| apply same_scan_refl].
  fields. destruct (_pairingCallback m); same_scan_tac.
Qed.

Lemma sweep_scan (now sweep_now : Z) (m : LoRaManager) :
  same_scan m
    (if 5000 <=? u32 (now - _lastNodeCheck m)
     then _updateNodeOnlineStatus sweep_now (set_lastNodeCheck now m)
     else m).
Proof.
  destruct (5000 <=? _); [| apply same_scan_refl].
  unfold _updateNodeOnlineStatus. same_scan_tac.
Qed.

(** The registry and the sweep timer across the two checks that precede
    the sweep. *)
Lemma checks_keep_registry (now : Z) (m : LoRaManager) :
  let m2 := if _scanMode m && (_scanDuration m <=? u32 (now - _scanStartTime m))
            then stopScan m else m in
  _registeredNodes (pairing_timeout_check now m2) = _registeredNodes m
  /\ _lastNodeCheck (pairing_timeout_check now m2) = _lastNodeCheck m.
Proof.
  cbv zeta. unfold pairing_timeout_check, fire_pairing, stopScan.
  destruct (_scanMode m && _); fields;
    (destruct (PairingState_eqb _ _); [| split; reflexivity];
     destruct (_ <=? _); [| split; reflexivity];
     fields; destruct (_pairingCallback m); split; reflexivity).
Qed.

End TickFacts.

(** X10.  A silent node is noticed at the sweep, and the sweep runs at most
    every 5 s.  On an initialised manager take a tick that brings no frame;
    [now] is the clock value read at the top of the tick and [sweep_now]
    the one the sweep reads for itself, after the timeout callback of the
    tick.  When less than 5000 ms lie between the last sweep and [now] the
    registry is not touched.  Otherwise the sweep runs and the timer
    restarts at [now]: a valid online node with ID [k] is online afterwards
    exactly when at [sweep_now] it was last seen at most
    [NODE_OFFLINE_THRESHOLD] ms ago. *)
Theorem silent_node_goes_offline (now sweep_now k : Z) (node : RegisteredNode)
  (m : LoRaManager) :
  _initialized m = true ->
  _serial m = true ->
  getNodeByID k m = Some node ->
  online node = true ->
  let m' := update now [] sweep_now m in
  (u32 (now - _lastNodeCheck m) < 5000 -> _registeredNodes m' = _registeredNodes m)
  /\ (5000 <= u32 (now - _lastNodeCheck m) ->
      _lastNodeCheck m' = now
      /\ exists node',
           getNodeByID k m' = Some node'
           /\ keys node' = keys node
           /\ lastSeen node' = lastSeen node
           /\ online node'
              = negb (NODE_OFFLINE_THRESHOLD <? u32 (sweep_now - lastSeen node))).
Proof.
  intros Hinit Hserial Hnode Hon. cbv zeta. unfold update.
  rewrite Hinit, Hserial. cbn [negb orb].
  change (_processRxData [] m) with m.
  destruct (TickFacts.checks_keep_registry now m) as [Hreg Hcheck].
  cbv zeta in Hreg, Hcheck.
  generalize dependent
    (pairing_timeout_check now
       (if _scanMode m && (_scanDuration m <=? u32 (now - _scanStartTime m))
        then stopScan m else m)).
  intros m3 Hreg Hcheck. rewrite Hcheck. split.
  - intros Hearly. rewrite (proj2 (Z.leb_gt _ _) Hearly). exact Hreg.
  - intros Hdue. rewrite (proj2 (Z.leb_le _ _) Hdue).
    rewrite RegistryFacts.updateNodeOnlineStatus_swept. fields.
    split; [reflexivity |].
    exists (swept sweep_now node). unfold getNodeByID in *. fields. rewrite Hreg.
    change (fun node0 => valid node0 && (nodeID node0 =? k)) with (node_matches k) in *.
    split.
    + rewrite RegistryFacts.find_map_same, Hnode; [reflexivity |].
      intros x. unfold node_matches.
      pose proof (RegistryFacts.swept_keys sweep_now x) as Hk. unfold keys in Hk.
      injection Hk as -> _ ->. reflexivity.
    + split; [apply RegistryFacts.swept_keys |].
      split; [apply RegistryFacts.swept_lastSeen |].
      rewrite RegistryFacts.swept_online, Hon.
      apply find_some in Hnode as [_ Hm]. unfold node_matches in Hm.
      apply andb_prop in Hm as [-> _]. reflexivity.
Qed.

(** Node 1 of [waiting_manager] was last seen at 0.  The tick at 119.5 s
    times the pairing out, the callback holds the sweep up until 120.7 s,
    and the sweep takes the node offline. *)
Lemma silent_node_goes_offline_witness :
  exists node',
    getNodeByID 1 (update 119500 [] 120700 waiting_manager) = Some node'
    /\ online node' = false.
Proof.
  destruct (silent_node_goes_offline 119500 120700 1
              (plain_node 1 [0xAA; 0; 0; 0; 0; 1]) waiting_manager)
    as [_ Hdue]; try reflexivity.
  destruct Hdue as (_ & node' & Hfind & _ & _ & Hon).
  - vm_compute. discriminate.
  - exists node'. split; [exact Hfind | exact Hon].
Defined.

(** X11.  The scan window.  [startScan] empties the discovered list, turns
    scan mode on and leaves the registry alone.  A tick of an initialised
    manager leaves scan mode on exactly when it was on and less than the
    scan duration has passed since the scan started, on the 32-bit clock;
    no frame of the tick changes the window.  So after [startScan t0 d] the
    manager is scanning at a tick at [now] exactly when
    [u32 (now - t0) < d].  The clock value the sweep of the tick reads has
    no part in it. *)
Theorem scan_window (now : Z) (rx : list (Z * list Z)) (sweep_now : Z)
  (m : LoRaManager) :
  _initialized m = true ->
  _serial m = true ->
  (isScanning (update now rx sweep_now m)
   = isScanning m && (u32 (now - _scanStartTime m) <? _scanDuration m)
   /\ _scanStartTime (update now rx sweep_now m) = _scanStartTime m
   /\ _scanDuration (update now rx sweep_now m) = _scanDuration m)
  /\ (forall t0 d,
        let s := startScan t0 d m in
        isScanning s = true
        /\ _discoveredNodes s = []
        /\ _registeredNodes s = _registeredNodes m
        /\ isScanning (update now rx sweep_now s) = (u32 (now - t0) <? d)).
Proof.
  intros Hinit Hserial.
  assert (Hwin : forall m0,
             _initialized m0 = true -> _serial m0 = true ->
             isScanning (update now rx sweep_now m0)
             = isScanning m0 && (u32 (now - _scanStartTime m0) <? _scanDuration m0)
             /\ _scanStartTime (update now rx sweep_now m0) = _scanStartTime m0
             /\ _scanDuration (update now rx sweep_now m0) = _scanDuration m0).
  { clear m Hinit Hserial. intros m Hinit Hserial. unfold isScanning, update.
    rewrite Hinit, Hserial. cbn [negb orb].
    destruct (TickFacts.processRxData_scan rx m) as (_ & _ & Hmode & Hstart & Hdur).
    generalize dependent (_processRxData rx m). intros m1 Hmode Hstart Hdur.
    rewrite <- Hmode, <- Hstart, <- Hdur.
    set (m2 := if _scanMode m1 && (_scanDuration m1 <=? u32 (now - _scanStartTime m1))
               then stopScan m1 else m1).
    assert (H2 : _scanMode m2
                 = _scanMode m1 && (u32 (now - _scanStartTime m1) <? _scanDuration m1)
                 /\ _scanStartTime m2 = _scanStartTime m1
                 /\ _scanDuration m2 = _scanDuration m1).
    { subst m2. rewrite (Z.leb_antisym (u32 (now - _scanStartTime m1))).
      destruct (_scanMode m1) eqn:Emode;
        destruct (u32 (now - _scanStartTime m1) <? _scanDuration m1);
        cbn [andb negb]; unfold stopScan; fields; rewrite ?Emode;
        repeat (split; [reflexivity |]); reflexivity. }
    clearbody m2. destruct H2 as (H2a & H2b & H2c).
    destruct (TickFacts.timeout_check_scan now m2) as (_ & _ & H3a & H3b & H3c).
    destruct (TickFacts.sweep_scan now sweep_now (pairing_timeout_check now m2))
      as (_ & _ & H4a & H4b & H4c).
    rewrite H4a, H4b, H4c, H3a, H3b, H3c, H2a, H2b, H2c.
    repeat (split; [reflexivity |]); reflexivity. }
  split; [now apply Hwin |].
  intros t0 d. cbv zeta.
  split; [reflexivity |]. split; [reflexivity |]. split; [reflexivity |].
  destruct (Hwin (startScan t0 d m)) as (-> & _); [exact Hinit | exact Hserial |].
  reflexivity.
Qed.

Lemma scan_window_witness :
  let s := startScan 1000 60000 (set_initialized true (set_serial true LoRaManager_new)) in
  isScanning (update 30000 [] 30000 s) = true
  /\ isScanning (update 61000 [] 61000 s) = false.
Proof.
  cbv zeta.
  destruct (scan_window 30000 [] 30000
              (set_initialized true (set_serial true LoRaManager_new)))
    as [_ H30]; try reflexivity.
  destruct (scan_window 61000 [] 61000
              (set_initialized true (set_serial true LoRaManager_new)))
    as [_ H61]; try reflexivity.
  destruct (H30 1000 60000) as (_ & _ & _ & ->).
  destruct (H61 1000 60000) as (_ & _ & _ & ->).
  split; reflexivity.
Defined.

(** ** What every run keeps: the discovered list and the registry *)

Module RunFacts.

Lemma disc_transfer (m m' : LoRaManager) :
  _discoveredNodes m' = _discoveredNodes m -> disc_inv m -> disc_inv m'.
Proof. unfold disc_inv. now intros ->. Qed.

Lemma uniq_d_push_back (n : DiscoveredNode) (l : list DiscoveredNode) :
  uniq_d l ->
  existsb (fun d => memcmp (d_macAddr d) (d_macAddr n) MAC_ADDR_LEN =? 0) l = false ->
  uniq_d (l ++ [n]).
Proof.
  induction l as [| a l IH]; intros Hu Hn.
  - cbn. split; [reflexivity | exact I].
  - cbn [app uniq_d]. destruct Hu as [Ha Hu]. cbn [existsb] in Hn.
    apply orb_false_elim in Hn as [Hna Hn].
    split; [| now apply IH].
    rewrite existsb_app, Ha. cbn [existsb orb]. rewrite orb_false_r.
    apply Z.eqb_neq. apply Z.eqb_neq in Hna. intros H. apply Hna.
    now apply Uniqueness.memcmp_zero_sym.
Qed.

Lemma handleHello_disc (now : Z) (pkt : HelloPacket_t) (rssi snr : Z) (m : LoRaManager) :
  disc_inv m -> disc_inv (_handleHello now pkt rssi snr m).
Proof.
  intros Hinv. unfold _handleHello, _addDiscoveredNode.
  destruct (negb (_scanMode m)); [exact Hinv |].
  unfold _isDuplicateDiscovered.
  destruct (existsb _ (_discoveredNodes m)) eqn:Edup; [exact Hinv |].
  destruct (_isNodeRegistered _ m); [exact Hinv |].
  destruct (MAX_DISCOVERED_NODES <=? _) eqn:Elen; [exact Hinv |].
  apply Z.leb_gt in Elen. destruct Hinv as (_ & Hu & Hv).
  assert (Hnew : disc_inv
                   (set_discoveredNodes
                      (_discoveredNodes m ++ [discovered_of_hello now pkt rssi snr]) m)).
  { unfold disc_inv. fields. split; [| split].
    - rewrite length_app. cbn [length]. lia.
    - apply uniq_d_push_back; [exact Hu |].
      cbn [discovered_of_hello d_macAddr].
      rewrite <- Edup. clear. induction (_discoveredNodes m) as [| d l IH];
        [reflexivity |]. cbn [existsb]. now rewrite Uniqueness.memcmp_memcpy_r, IH.
    - apply Forall_app. split; [exact Hv |]. constructor; [reflexivity | constructor]. }
  fields. destruct (_nodeDiscoveredCallback m); [| exact Hnew].
  revert Hnew. apply disc_transfer. reflexivity.
Qed.

Lemma handleAck_discovered (now : Z) (pkt : AckPacket_t) (m : LoRaManager) :
  _discoveredNodes (_handleAck now pkt m) = _discoveredNodes m.
Proof.
  destruct (PairingState_eqb (_pairingState m) PAIR_WAITING_ACK) eqn:Est;
    [| unfold _handleAck; rewrite Est; reflexivity].
  apply PairingState_eqb_eq in Est.
  destruct (Z.eq_dec (ack_ackType pkt) PKG_WELCOME) as [Hty | Hty];
    [| rewrite PairingFacts.handleAck_unmatched by (now right); reflexivity].
  destruct (Z.eq_dec (ack_status pkt) ERR_NONE) as [Hok | Hbad].
  - now destruct (handleAck_success now pkt m Est Hty Hok) as (_ & _ & _ & _ & _ & H).
  - now destruct (handleAck_failure now pkt m Est Hty Hbad) as (_ & _ & _ & _ & _ & H).
Qed.

Lemma handleData_discovered (now : Z) (pkt : DataPacket_t) (m : LoRaManager) :
  _discoveredNodes (_handleData now pkt m) = _discoveredNodes m.
Proof.
  unfold _handleData. destruct (getNodeByID _ m); [| reflexivity].
  fields. destruct (_nodeDataCallback m); reflexivity.
Qed.

Lemma handleHeartbeat_discovered (now : Z) (pkt : HeartbeatPacket_t) (m : LoRaManager) :
  _discoveredNodes (_handleHeartbeat now pkt m) = _discoveredNodes m.
Proof. unfold _handleHeartbeat. destruct (getNodeByID _ m); reflexivity. Qed.

Lemma handlePacket_disc (now : Z) (data : list Z) (m : LoRaManager) :
  disc_inv m -> disc_inv (_handlePacket now data m).
Proof.
  intros Hinv. unfold _handlePacket.
  destruct (_ <? 1); [exact Hinv |].
  destruct (byte_at data 0 =? PKG_HELLO).
  { destruct (_ <=? _); [now apply handleHello_disc | exact Hinv]. }
  destruct (byte_at data 0 =? PKG_ACK).
  { destruct (_ <=? _); [| exact Hinv].
    revert Hinv. apply disc_transfer, handleAck_discovered. }
  destruct (byte_at data 0 =? PKG_DATA).
  { destruct (_ <=? _); [| exact Hinv].
    revert Hinv. apply disc_transfer, handleData_discovered. }
  destruct (byte_at data 0 =? PKG_HEARTBEAT).
  { destruct (_ <=? _); [| exact Hinv].
    revert Hinv. apply disc_transfer, handleHeartbeat_discovered. }
  exact Hinv.
Qed.

Lemma processRxData_disc (rx : list (Z * list Z)) :
  forall m : LoRaManager, disc_inv m -> disc_inv (_processRxData rx m).
Proof.
  unfold _processRxData.
  induction rx as [| [t payload] rx IH]; intros m Hinv; cbn [fold_left];
    [exact Hinv |].
  apply IH. destruct (0 <? _); [now apply handlePacket_disc | exact Hinv].
Qed.

Lemma startPairing_discovered (now : Z) (modem_ok : bool) (mac : list Z) (m : LoRaManager) :
  _discoveredNodes (snd (startPairing now modem_ok mac m)) = _discoveredNodes m.
Proof.
  unfold startPairing.
  destruct (negb _); [reflexivity |].
  destruct (_isNodeRegistered mac m); [reflexivity |].
  fields. destruct (_getNextFreeID m =? 0); [reflexivity |].
  unfold _sendWelcome, _sendPacket. fields.
  destruct (negb (_serial m) || negb (_initialized m)); reflexivity.
Qed.

Lemma removeNode_discovered (id : Z) (m : LoRaManager) :
  _discoveredNodes (snd (removeNode id m)) = _discoveredNodes m.
Proof.
  unfold removeNode. destruct (erase_first id _); [| reflexivity].
  cbn [snd]. rewrite saveNodes_snd. fields.
  destruct (_fsOpenFails m); reflexivity.
Qed.

Lemma update_disc (now : Z) (rx : list (Z * list Z)) (sweep_now : Z)
  (m : LoRaManager) :
  disc_inv m -> disc_inv (update now rx sweep_now m).
Proof.
  intros Hinv. unfold update.
  destruct (negb (_initialized m) || negb (_serial m)); [exact Hinv |].
  apply (processRxData_disc rx) in Hinv.
  generalize dependent (_processRxData rx m). clear m. intros m1 Hinv.
  revert Hinv. apply disc_transfer.
  unfold pairing_timeout_check, fire_pairing, stopScan, _updateNodeOnlineStatus.
  destruct (_scanMode m1 && _); fields;
    (destruct (PairingState_eqb _ _);
     [ destruct (LORA_PAIRING_TIMEOUT <=? _);
       [ fields; destruct (_pairingCallback m1); fields;
         destruct (5000 <=? _); reflexivity
       | destruct (5000 <=? _); reflexivity ]
     | destruct (5000 <=? _); reflexivity ]).
Qed.

Lemma step_disc (op : Op) (m : LoRaManager) : disc_inv m -> disc_inv (step op m).
Proof.
  destruct op; cbn [step].
  - apply disc_transfer, startPairing_discovered.
  - apply handlePacket_disc.
  - apply disc_transfer, removeNode_discovered.
  - apply disc_transfer. reflexivity.
  - intros _. unfold disc_inv, startScan, clearDiscoveredNodes. fields.
    split; [vm_compute; discriminate |]. split; [exact I | constructor].
  - apply disc_transfer. reflexivity.
  - apply update_disc.
Qed.

Lemma uniq_d_distinct (l : list DiscoveredNode) : uniq_d l -> distinct_discovered l.
Proof.
  assert (Hex : forall (l : list DiscoveredNode) (j : nat) (b : DiscoveredNode) mac,
             l !! j = Some b ->
             existsb (fun d => memcmp (d_macAddr d) mac MAC_ADDR_LEN =? 0) l = false ->
             memcmp (d_macAddr b) mac MAC_ADDR_LEN <> 0).
  { clear. intros l j b mac Hj Hfree Heq.
    apply list_elem_of_lookup_2, list_elem_of_In in Hj.
    assert (existsb (fun d => memcmp (d_macAddr d) mac MAC_ADDR_LEN =? 0) l = true);
      [| congruence].
    apply existsb_exists. exists b. split; [exact Hj | now apply Z.eqb_eq]. }
  induction l as [| x l IH]; intros Hu i j a b Hij Hi Hj.
  - discriminate Hi.
  - destruct Hu as [Hx Hu].
    destruct i as [| i], j as [| j]; cbn in Hi, Hj.
    + congruence.
    + injection Hi as ->. intros Heq.
      apply (Hex l j b (d_macAddr a) Hj Hx). now apply Uniqueness.memcmp_zero_sym.
    + injection Hj as ->. exact (Hex l i a (d_macAddr b) Hi Hx).
    + apply (IH Hu i j); try assumption. congruence.
Qed.

(** *** The registry *)

Lemma Forall_node_ok_keys (l : list RegisteredNode) :
  forall l', map keys l' = map keys l -> Forall node_ok l -> Forall node_ok l'.
Proof.
  induction l as [| a l IH]; intros [| a' l'] H Hl; try discriminate;
    [constructor |].
  cbn [map] in H. unfold keys at 1 3 in H. injection H as Hi Hm Hv Hrest.
  apply Forall_cons_1 in Hl as [Hok Hl]. constructor.
  - unfold node_ok in *. now rewrite Hi, Hm, Hv.
  - now apply IH.
Qed.

Lemma range_transfer (m m' : LoRaManager) :
  map keys (_registeredNodes m') = map keys (_registeredNodes m) ->
  (_pairingState m' = PAIR_WAITING_ACK ->
   _pairingState m = PAIR_WAITING_ACK /\ _pairingNodeID m' = _pairingNodeID m) ->
  reg_range m -> reg_range m'.
Proof.
  intros Hk Hs [Hall Hw]. split.
  - eapply Forall_node_ok_keys; eassumption.
  - intros Hst. destruct (Hs Hst) as [Hst0 ->]. now apply Hw.
Qed.

Ltac range_tac :=
  apply range_transfer; fields;
  [ reflexivity
  | intros Hst; try discriminate Hst;
    repeat (split; [first [exact Hst | reflexivity] |]);
    first [exact Hst | reflexivity] ].

Lemma handleHello_range (now : Z) (pkt : HelloPacket_t) (rssi snr : Z) (m : LoRaManager) :
  reg_range m -> reg_range (_handleHello now pkt rssi snr m).
Proof.
  unfold _handleHello, _addDiscoveredNode.
  destruct (negb (_scanMode m)); [trivial |].
  destruct (_isDuplicateDiscovered _ m); [trivial |].
  destruct (_isNodeRegistered _ m); [trivial |].
  destruct (_ <=? _); [trivial |].
  fields. destruct (_nodeDiscoveredCallback m); range_tac.
Qed.

Lemma handleData_range (now : Z) (pkt : DataPacket_t) (m : LoRaManager) :
  reg_range m -> reg_range (_handleData now pkt m).
Proof.
  unfold _handleData. destruct (getNodeByID _ m); [| trivial].
  fields. destruct (_nodeDataCallback m);
    (apply range_transfer; fields;
     [ now apply Uniqueness.update_first_keys
     | intros Hst; split; [exact Hst | reflexivity] ]).
Qed.

Lemma handleHeartbeat_range (now : Z) (pkt : HeartbeatPacket_t) (m : LoRaManager) :
  reg_range m -> reg_range (_handleHeartbeat now pkt m).
Proof.
  unfold _handleHeartbeat. destruct (getNodeByID _ m); [| trivial].
  apply range_transfer; fields;
    [ now apply Uniqueness.update_first_keys
    | intros Hst; split; [exact Hst | reflexivity] ].
Qed.

Lemma handleAck_range (now : Z) (pkt : AckPacket_t) (m : LoRaManager) :
  reg_range m -> reg_range (_handleAck now pkt m).
Proof.
  intros Hinv.
  destruct (PairingState_eqb (_pairingState m) PAIR_WAITING_ACK) eqn:Est;
    [| unfold _handleAck; rewrite Est; exact Hinv].
  apply PairingState_eqb_eq in Est.
  destruct (Z.eq_dec (ack_ackType pkt) PKG_WELCOME) as [Hty | Hty];
    [| rewrite PairingFacts.handleAck_unmatched by (now right); exact Hinv].
  destruct Hinv as [Hall Hw]. specialize (Hw Est).
  destruct (Z.eq_dec (ack_status pkt) ERR_NONE) as [Hok | Hbad].
  - destruct (handleAck_success now pkt m Est Hty Hok) as (Hreg & _ & Hidle & _).
    split.
    + rewrite Hreg. apply Forall_app. split; [exact Hall |].
      constructor; [| constructor]. unfold node_ok.
      cbn [paired_node valid nodeID macAddr].
      split; [reflexivity |]. split; [exact Hw | apply PairingFacts.memcpy_length].
    + intros Hst. rewrite Hidle in Hst. discriminate Hst.
  - destruct (handleAck_failure now pkt m Est Hty Hbad) as (Hreg & _ & Hidle & _).
    split.
    + now rewrite Hreg.
    + intros Hst. rewrite Hidle in Hst. discriminate Hst.
Qed.

Lemma handlePacket_range (now : Z) (data : list Z) (m : LoRaManager) :
  reg_range m -> reg_range (_handlePacket now data m).
Proof.
  intros Hinv. unfold _handlePacket.
  destruct (_ <? 1); [exact Hinv |].
  destruct (byte_at data 0 =? PKG_HELLO).
  { destruct (_ <=? _); [now apply handleHello_range | exact Hinv]. }
  destruct (byte_at data 0 =? PKG_ACK).
  { destruct (_ <=? _); [now apply handleAck_range | exact Hinv]. }
  destruct (byte_at data 0 =? PKG_DATA).
  { destruct (_ <=? _); [now apply handleData_range | exact Hinv]. }
  destruct (byte_at data 0 =? PKG_HEARTBEAT).
  { destruct (_ <=? _); [now apply handleHeartbeat_range | exact Hinv]. }
  exact Hinv.
Qed.

Lemma startPairing_range (now : Z) (modem_ok : bool) (mac : list Z) (m : LoRaManager) :
  reg_range m -> reg_range (snd (startPairing now modem_ok mac m)).
Proof.
  intros Hinv. unfold startPairing.
  destruct (negb (PairingState_eqb (_pairingState m) PAIR_IDLE)) eqn:Eidle;
    [exact Hinv |].
  apply negb_false_iff, PairingState_eqb_eq in Eidle.
  destruct (_isNodeRegistered mac m); [exact Hinv |].
  fields.
  destruct (Allocation.next_free_cases m) as [[Hr _] | (Hr & _)]; cbv zeta in *.
  - rewrite Hr. cbn [Z.eqb snd]. revert Hinv. apply range_transfer; fields.
    + reflexivity.
    + intros Hst. rewrite Eidle in Hst. discriminate Hst.
  - destruct (_getNextFreeID m =? 0) eqn:E0; [apply Z.eqb_eq in E0; lia |].
    unfold _sendWelcome, _sendPacket. fields.
    destruct Hinv as [Hall _].
    destruct (negb (_serial m) || negb (_initialized m)); fields;
      (split; fields; [exact Hall | intros _; exact Hr]).
Qed.

Lemma erase_first_Forall (P : RegisteredNode -> Prop) (id : Z)
  (l l' : list RegisteredNode) :
  erase_first id l = Some l' -> Forall P l -> Forall P l'.
Proof.
  revert l'. induction l as [| a l IH]; intros l' H Hl; cbn in H; [discriminate |].
  apply Forall_cons_1 in Hl as [Ha Hl].
  destruct (nodeID a =? id).
  - injection H as <-. exact Hl.
  - destruct (erase_first id l) as [r |]; [| discriminate].
    injection H as <-. constructor; [exact Ha | now apply IH].
Qed.

Lemma removeNode_range (id : Z) (m : LoRaManager) :
  reg_range m -> reg_range (snd (removeNode id m)).
Proof.
  intros [Hall Hw]. unfold removeNode.
  destruct (erase_first id (_registeredNodes m)) as [nodes |] eqn:E;
    [| split; assumption].
  cbn [snd]. rewrite saveNodes_snd. fields.
  assert (Hinv : reg_range (set_registeredNodes nodes m)).
  { split; fields; [| exact Hw]. eapply erase_first_Forall; eassumption. }
  revert Hinv. destruct (_fsOpenFails m); fields; range_tac.
Qed.

Lemma processRxData_range (rx : list (Z * list Z)) :
  forall m : LoRaManager, reg_range m -> reg_range (_processRxData rx m).
Proof.
  unfold _processRxData.
  induction rx as [| [t payload] rx IH]; intros m Hinv; cbn [fold_left];
    [exact Hinv |].
  apply IH. destruct (0 <? _); [now apply handlePacket_range | exact Hinv].
Qed.

Lemma update_range (now : Z) (rx : list (Z * list Z)) (sweep_now : Z)
  (m : LoRaManager) :
  reg_range m -> reg_range (update now rx sweep_now m).
Proof.
  intros Hinv. unfold update.
  destruct (negb (_initialized m) || negb (_serial m)); [exact Hinv |].
  apply (processRxData_range rx) in Hinv.
  generalize dependent (_processRxData rx m). clear m. intros m1 Hinv.
  assert (H2 : reg_range
                 (if _scanMode m1 && (_scanDuration m1 <=? u32 (now - _scanStartTime m1))
                  then stopScan m1 else m1)).
  { destruct (_ && _); [| exact Hinv]. revert Hinv. unfold stopScan. range_tac. }
  generalize dependent
    (if _scanMode m1 && (_scanDuration m1 <=? u32 (now - _scanStartTime m1))
     then stopScan m1 else m1).
  clear Hinv m1. intros m2 H2.
  assert (H3 : reg_range (pairing_timeout_check now m2)).
  { unfold pairing_timeout_check.
    destruct (PairingState_eqb _ _); [| exact H2].
    destruct (_ <=? _); [| exact H2].
    revert H2. unfold fire_pairing. fields.
    destruct (_pairingCallback m2); range_tac. }
  generalize dependent (pairing_timeout_check now m2). clear H2 m2. intros m3 H3.
  destruct (5000 <=? _); [| exact H3].
  revert H3. unfold _updateNodeOnlineStatus.
  apply range_transfer; fields.
  - apply Uniqueness.map_keys. intros x. destruct (_ && _); reflexivity.
  - intros Hst. split; [exact Hst | reflexivity].
Qed.

Lemma step_range (op : Op) (m : LoRaManager) : reg_range m -> reg_range (step op m).
Proof.
  destruct op; cbn [step].
  - apply startPairing_range.
  - apply handlePacket_range.
  - apply removeNode_range.
  - unfold cancelPairing. range_tac.
  - unfold startScan, clearDiscoveredNodes. range_tac.
  - unfold stopScan. range_tac.
  - apply update_range.
Qed.

(** Distinct IDs in 1..254 are at most 254. *)
Lemma ids_at_most_254 (l : list RegisteredNode) :
  Forall node_ok l -> uniq l -> (length l <= 254)%nat.
Proof.
  intros Hall Hu.
  assert (Hnd : NoDup (map nodeID l)).
  { induction l as [| a l IH]; [constructor |].
    apply Forall_cons_1 in Hall as [(Hv & _) Hall]. destruct Hu as [Ha Hu].
    cbn [map]. constructor; [| now apply IH].
    destruct (Ha Hv) as [Hid _]. rewrite list_elem_of_In. intros Hin.
    apply in_map_iff in Hin as (b & Hb & Hin).
    assert (id_in_use (nodeID a) l = true); [| congruence].
    apply existsb_exists. exists b. split; [exact Hin |].
    unfold node_matches. rewrite Forall_forall in Hall.
    destruct (Hall b ltac:(now apply list_elem_of_In)) as (-> & _).
    cbn [andb]. now apply Z.eqb_eq. }
  apply NoDup_ListNoDup in Hnd.
  rewrite <- (length_map nodeID l).
  replace 254%nat with (length (map Z.of_nat (seq 1 254)))
    by (now rewrite length_map, length_seq).
  apply List.NoDup_incl_length; [exact Hnd |].
  intros k Hk. apply in_map_iff in Hk as (b & <- & Hin).
  rewrite Forall_forall in Hall.
  destruct (Hall b ltac:(now apply list_elem_of_In)) as (_ & Hr & _).
  apply in_map_iff. exists (Z.to_nat (nodeID b)). split; [lia |].
  apply in_seq. lia.
Qed.

End RunFacts.

(** X12.  The discovered list over any run.  Start from a manager whose
    discovered list is empty.  After any sequence of pairing requests,
    received frames, removals, cancellations, scans and ticks the list
    holds at most [MAX_DISCOVERED_NODES] entries, every entry is valid, and
    no two entries have the same MAC. *)
Theorem discovered_list_bounded_distinct (ops : list Op) (m0 : LoRaManager) :
  _discoveredNodes m0 = [] ->
  let l := _discoveredNodes (run ops m0) in
  Z.of_nat (length l) <= MAX_DISCOVERED_NODES
  /\ Forall (fun d => d_valid d = true) l
  /\ distinct_discovered l.
Proof.
  intros Hempty. cbv zeta.
  assert (Hinv : disc_inv (run ops m0)).
  { assert (H0 : disc_inv m0).
    { unfold disc_inv. rewrite Hempty.
      split; [vm_compute; discriminate |]. split; [exact I | constructor]. }
    revert H0. generalize m0. unfold run.
    induction ops as [| op ops IH]; intros m H0; cbn [fold_left]; [exact H0 |].
    apply IH. now apply RunFacts.step_disc. }
  destruct Hinv as (Hlen & Hu & Hv).
  split; [exact Hlen |]. split; [exact Hv |]. now apply RunFacts.uniq_d_distinct.
Qed.

(** X13.  The registry over any run, and its real capacity.  Start from a
    manager with an empty registry and the pairing state Idle.  After any
    sequence of pairing requests, received frames, removals, cancellations,
    scans and ticks every registered node is valid, has an ID of 1..254 and
    a MAC of six bytes, and the registry holds at most 254 nodes: the count
    [getRegisteredNodeCount] returns in eight bits is the true number. *)
Theorem registry_within_id_space (ops : list Op) (m0 : LoRaManager) :
  _registeredNodes m0 = [] ->
  _pairingState m0 = PAIR_IDLE ->
  let m := run ops m0 in
  Forall node_ok (_registeredNodes m)
  /\ (length (_registeredNodes m) <= 254)%nat
  /\ getRegisteredNodeCount m = Z.of_nat (length (_registeredNodes m)).
Proof.
  intros Hempty Hidle. cbv zeta.
  assert (Hrange : reg_range (run ops m0)).
  { assert (H0 : reg_range m0).
    { split; [rewrite Hempty; constructor |].
      intros Hst. rewrite Hidle in Hst. discriminate Hst. }
    revert H0. generalize m0. unfold run.
    induction ops as [| op ops IH]; intros m H0; cbn [fold_left]; [exact H0 |].
    apply IH. now apply RunFacts.step_range. }
  assert (Huniq : uniq (_registeredNodes (run ops m0))).
  { apply (Uniqueness.run_inv ops m0). unfold pairing_inv. rewrite Hempty.
    split; [exact I | intros _; split; reflexivity]. }
  destruct Hrange as [Hall _].
  pose proof (RunFacts.ids_at_most_254 _ Hall Huniq) as Hlen.
  split; [exact Hall |]. split; [exact Hlen |].
  unfold getRegisteredNodeCount, u8. apply Z.mod_small. lia.
Qed.

(** ** Persistence: saving and loading *)

Section SaveLoad.

Variable as_uint8 : Json -> Z.
Variable as_String : Json -> string.
Hypothesis as_uint8_number : forall z, is_u8 z -> as_uint8 (JNum z) = z.
Hypothesis as_String_string : forall s, as_String (JStr s) = s.

Lemma node_of_json_to_json (stack_mac : list Z) (node : RegisteredNode) :
  storable node ->
  node_of_json as_uint8 as_String stack_mac (node_to_json node) = reloaded node.
Proof using as_uint8_number as_String_string.
  intros (Hid & Hty & Hlen & Hmac & Hname).
  unfold node_of_json, reloaded.
  change (member "id" (node_to_json node)) with (JNum (nodeID node)).
  change (member "mac" (node_to_json node)) with (JStr (macToString (macAddr node))).
  change (member "type" (node_to_json node)) with (JNum (deviceType node)).
  change (member "name" (node_to_json node)) with (JStr (name node)).
  rewrite !as_uint8_number, as_String_string by assumption.
  rewrite (stringToMAC_macToString _ stack_mac Hlen Hmac).
  cbn [snd or_default]. unfold strlcpy.
  rewrite string_take_all by exact Hname. reflexivity.
Qed.

(** X14.  Saving and loading again.  When the nodes file can be opened,
    [saveNodes] returns true and a [loadNodes] that follows returns true
    and leaves in the registry exactly the nodes that were valid, in
    order, each with its ID, MAC, type and name and with every other field
    reset (offline, never seen).  When the file cannot be opened
    [saveNodes] returns false and neither the file nor the registry
    changes. *)
Theorem save_then_load (stack_mac : list Z) (m : LoRaManager) :
  Forall storable (List.filter valid (_registeredNodes m)) ->
  (_fsOpenFails m = false ->
   let m1 := snd (saveNodes m) in
   let r := loadNodes as_uint8 as_String stack_mac m1 in
   fst (saveNodes m) = true
   /\ fst r = true
   /\ _registeredNodes (snd r) = map reloaded (List.filter valid (_registeredNodes m)))
  /\ (_fsOpenFails m = true ->
      fst (saveNodes m) = false
      /\ _nodesFile (snd (saveNodes m)) = _nodesFile m
      /\ _registeredNodes (snd (saveNodes m)) = _registeredNodes m).
Proof using as_uint8_number as_String_string.
  intros Hwf. split; intros Hopen; cbv zeta; unfold saveNodes; rewrite Hopen.
  - cbn [fst snd]. unfold loadNodes. fields. rewrite Hopen.
    split; [reflexivity |]. split; [reflexivity |]. fields.
    change (as_JsonArray (member "nodes" (nodes_document (_registeredNodes m))))
      with (map node_to_json (List.filter (fun n => valid n) (_registeredNodes m))).
    rewrite map_map. apply map_ext_in. intros node Hin.
    apply node_of_json_to_json.
    rewrite Forall_forall in Hwf. apply Hwf. now apply list_elem_of_In.
  - repeat (split; [reflexivity |]). reflexivity.
Qed.

End SaveLoad.

Lemma save_then_load_witness :
  let m1 := snd (saveNodes paired_manager) in
  let r := loadNodes sample_as_uint8 sample_as_String [] m1 in
  fst r = true
  /\ _registeredNodes (snd r) = map reloaded (_registeredNodes paired_manager).
Proof.
  cbv zeta.
  destruct (save_then_load sample_as_uint8 sample_as_String)
    with (stack_mac := @nil Z) (m := paired_manager) as [Hsave _].
  - intros z [H0 H256]. cbn [sample_as_uint8].
    rewrite (proj2 (Z.leb_le _ _) H0), (proj2 (Z.ltb_lt _ _) H256). reflexivity.
  - reflexivity.
  - repeat constructor; vm_compute; congruence.
  - destruct Hsave as (_ & Hok & Hreg); [reflexivity |].
    split; [exact Hok | exact Hreg].
Defined.

(** ** Frames that are dropped *)

(** X15.  [_handlePacket] drops what it cannot use.  An empty frame, a
    frame whose type byte is none of Hello, Ack, Data and Heartbeat
    (Welcome, Command and Config among them), and a frame shorter than the
    packed structure of its type all leave the manager exactly as it
    was. *)
Theorem handlePacket_drops (now : Z) (data : list Z) (m : LoRaManager) :
  let len := Z.of_nat (length data) in
  let t := byte_at data 0 in
  len = 0
  \/ (t <> PKG_HELLO /\ t <> PKG_ACK /\ t <> PKG_DATA /\ t <> PKG_HEARTBEAT)
  \/ (t = PKG_HELLO /\ len < 9)
  \/ (t = PKG_ACK /\ len < 4)
  \/ (t = PKG_DATA /\ len < 10)
  \/ (t = PKG_HEARTBEAT /\ len < 6) ->
  _handlePacket now data m = m.
Proof.
  cbv zeta. intros H. unfold _handlePacket.
  destruct (Z.of_nat (length data) <? 1) eqn:E1; [reflexivity |].
  apply Z.ltb_ge in E1.
  destruct H as [H | [(H1 & H2 & H3 & H4) | [[Ht Hl] | [[Ht Hl] | [[Ht Hl] | [Ht Hl]]]]]].
  - lia.
  - rewrite (proj2 (Z.eqb_neq _ _) H1), (proj2 (Z.eqb_neq _ _) H2),
      (proj2 (Z.eqb_neq _ _) H3), (proj2 (Z.eqb_neq _ _) H4). reflexivity.
  - rewrite Ht. change (PKG_HELLO =? PKG_HELLO) with true. cbv iota.
    unfold sizeof_HelloPacket_t. now rewrite (proj2 (Z.leb_gt _ _) Hl).
  - rewrite Ht. change (PKG_ACK =? PKG_HELLO) with false.
    change (PKG_ACK =? PKG_ACK) with true. cbv iota.
    unfold sizeof_AckPacket_t. now rewrite (proj2 (Z.leb_gt _ _) Hl).
  - rewrite Ht. change (PKG_DATA =? PKG_HELLO) with false.
    change (PKG_DATA =? PKG_ACK) with false.
    change (PKG_DATA =? PKG_DATA) with true. cbv iota.
    unfold sizeof_DataPacket_t. now rewrite (proj2 (Z.leb_gt _ _) Hl).
  - rewrite Ht. change (PKG_HEARTBEAT =? PKG_HELLO) with false.
    change (PKG_HEARTBEAT =? PKG_ACK) with false.
    change (PKG_HEARTBEAT =? PKG_DATA) with false.
    change (PKG_HEARTBEAT =? PKG_HEARTBEAT) with true. cbv iota.
    unfold sizeof_HeartbeatPacket_t. now rewrite (proj2 (Z.leb_gt _ _) Hl).
Qed.

(** A Data frame cut after nine bytes. *)
Lemma handlePacket_drops_witness :
  _handlePacket 5000 [PKG_DATA; 1; 3; 200; 8; 255; 0; 0; 0] three_nodes = three_nodes.
Proof.
  apply (handlePacket_drops 5000 [PKG_DATA; 1; 3; 200; 8; 255; 0; 0; 0] three_nodes).
  right. right. right. right. left. split; [reflexivity | reflexivity].
Defined.

(** ** MAC text: what [stringToMAC] accepts and returns *)

(** X16.  [stringToMAC] on arbitrary text.  A string of fewer than 17
    characters is refused; a refusal leaves the destination as it was; an
    acceptance writes exactly six values, each a byte.  Text that follows a
    well-formed MAC is not looked at: [macToString x] followed by anything
    that does not start with a hexadecimal digit reads back as [x]. *)
Theorem stringToMAC_outcomes (str : string) (mac0 : list Z) :
  ((String.length str < 17)%nat -> stringToMAC str mac0 = (false, mac0))
  /\ (fst (stringToMAC str mac0) = false -> snd (stringToMAC str mac0) = mac0)
  /\ (fst (stringToMAC str mac0) = true ->
      length (snd (stringToMAC str mac0)) = MAC_ADDR_LEN
      /\ Forall is_u8 (snd (stringToMAC str mac0)))
  /\ (forall x rest,
        length x = MAC_ADDR_LEN -> Forall is_u8 x ->
        starts_with_hex_digit rest = false ->
        stringToMAC (macToString x ++ rest) mac0 = (true, x)).
Proof.
  split; [| split; [| split]].
  - intros Hshort. unfold stringToMAC.
    now rewrite (proj2 (Nat.ltb_lt _ _) Hshort).
  - unfold stringToMAC.
    destruct (String.length str <? 17)%nat; [reflexivity |].
    destruct (negb _); [reflexivity | discriminate].
  - unfold stringToMAC.
    destruct (String.length str <? 17)%nat; [discriminate |].
    destruct (length (sscanf_hex_colon 6 str) =? 6)%nat eqn:E; [| discriminate].
    intros _. cbn [negb snd]. apply Nat.eqb_eq in E. split.
    + now rewrite length_map.
    + apply Forall_forall. intros b Hb. apply list_elem_of_In, in_map_iff in Hb.
      destruct Hb as (v & <- & _). unfold is_u8, u8. apply Z.mod_pos_bound. lia.
  - intros x rest Hlen Hx Hrest.
    destruct x as [| a [| b [| c [| d [| e [| f [| ? ?]]]]]]]; try discriminate Hlen.
    repeat match goal with
           | H : Forall _ (_ :: _) |- _ => apply Forall_cons_1 in H; destruct H
           end.
    rewrite MacTextFacts.macToString_bytes by assumption.
    repeat match goal with
           | H : is_u8 ?v |- _ =>
               destruct (MacTextFacts.byte_nibbles v H) as (? & ? & ?); clear H
           end.
    unfold stringToMAC. cbn [string_of_chars String.append String.length].
    change (S (S (S (S (S (S (S (S (S (S (S (S (S (S (S (S (S (String.length rest)))))))))))))))))
              <? 17)%nat with false.
    cbv iota. cbn [sscanf_hex_colon].
    rewrite !MacTextFacts.scan_x_two_digits by (assumption || reflexivity).
    cbn [length Nat.eqb negb map]. unfold u8.
    repeat match goal with
           | H : (?q * 16 + ?r)%Z = _ |- context [(?q * 16 + ?r)%Z] => rewrite H
           end.
    rewrite !Z.mod_small by lia. reflexivity.
Qed.

(** ** The framing layer *)

Module FramingFacts.

Import Framing.
Local Open Scope char_scope.

Lemma hex_of_byte_nibbles (b : Z) :
  (0 <= b < 256)%Z -> hex_of_byte b = [hex_upper (b / 16); hex_upper (b mod 16)].
Proof. intros Hb. unfold hex_of_byte. now rewrite MacTextFacts.fmt_02X_byte. Qed.

Lemma hex_of_bytes_app (l1 l2 : list Z) :
  hex_of_bytes (l1 ++ l2) = hex_of_bytes l1 ++ hex_of_bytes l2.
Proof. apply flat_map_app. Qed.

Lemma length_hex_of_bytes (l : list Z) :
  Forall is_u8 l -> length (hex_of_bytes l) = (2 * length l)%nat.
Proof.
  induction l as [| b l IH]; intros Hl; [reflexivity |].
  apply Forall_cons_1 in Hl as [Hb Hl].
  cbn [hex_of_bytes flat_map]. rewrite hex_of_byte_nibbles by exact Hb.
  cbn [app length]. fold (hex_of_bytes l). rewrite (IH Hl). lia.
Qed.

Lemma strtol16_two_digits (a b : Z) :
  (0 <= a < 16)%Z -> (0 <= b < 16)%Z ->
  strtol16 [hex_upper a; hex_upper b] = (a * 16 + b)%Z.
Proof.
  intros Ha Hb.
  MacTextFacts.nibble_cases a; MacTextFacts.nibble_cases b; vm_compute; reflexivity.
Qed.

Lemma substring_mid (pre mid post : list ascii) :
  mid <> [] ->
  substring (pre ++ mid ++ post) (length pre) (length pre + length mid) = mid.
Proof.
  intros Hmid. unfold substring.
  assert (Hlt : (length pre + length mid <? length pre)%nat = false)
    by (apply Nat.ltb_ge; lia).
  rewrite Hlt.
  assert (Hin : (length (pre ++ mid ++ post) <=? length pre)%nat = false).
  { apply Nat.leb_gt. rewrite !length_app. destruct mid; [contradiction | cbn; lia]. }
  rewrite Hin.
  rewrite List.skipn_app, List.skipn_all, Nat.sub_diag. cbn [skipn app].
  rewrite !length_app.
  replace (Nat.min (length pre + length mid) (length pre + (length mid + length post))
           - length pre)%nat with (length mid) by lia.
  rewrite List.skipn_O.
  rewrite List.firstn_app, List.firstn_all, Nat.sub_diag. cbn [firstn].
  apply app_nil_r.
Qed.

(** The decoding loop, [done] bytes in: it finishes with the first 32
    bytes. *)
Lemma hex_decode_loop_spec (count : nat) :
  forall done rest : list Z,
    Forall is_u8 (done ++ rest) ->
    (length done <= 32)%nat ->
    (32 - length done <= count)%nat ->
    hex_decode_loop count (hex_of_bytes (done ++ rest)) (2 * length done) done
    = firstn 32 (done ++ rest).
Proof.
  induction count as [| count IH]; intros done rest Hall Hlen Hcount.
  - cbn [hex_decode_loop].
    rewrite List.firstn_app, List.firstn_all2 by lia.
    replace (32 - length done)%nat with 0%nat by lia. cbn [firstn].
    now rewrite app_nil_r.
  - cbn [hex_decode_loop]. rewrite length_hex_of_bytes by exact Hall.
    rewrite length_app.
    destruct rest as [| b rest].
    + assert (H : (2 * length done <? 2 * (length done + length (@nil Z)))%nat = false)
        by (apply Nat.ltb_ge; cbn; lia).
      rewrite H. cbn [andb]. rewrite app_nil_r.
      symmetry. apply List.firstn_all2. lia.
    + assert (H : (2 * length done <? 2 * (length done + length (b :: rest)))%nat = true)
        by (apply Nat.ltb_lt; cbn; lia).
      rewrite H. cbn [andb].
      destruct (Z.ltb_spec (Z.of_nat (length done)) MAX_PACKET_SIZE) as [Hroom | Hfull].
      * unfold MAX_PACKET_SIZE in Hroom.
        assert (Hb : is_u8 b).
        { apply Forall_app in Hall as [_ Hall].
          now apply Forall_cons_1 in Hall as [Hb _]. }
        destruct (MacTextFacts.byte_nibbles b Hb) as (Hq & Hr & Hqr).
        assert (Hsub : substring (hex_of_bytes (done ++ b :: rest))
                         (2 * length done) (2 * length done + 2)
                       = [hex_upper (b / 16); hex_upper (b mod 16)]).
        { rewrite hex_of_bytes_app. cbn [hex_of_bytes flat_map].
          fold (hex_of_bytes rest). fold (hex_of_bytes done).
          rewrite hex_of_byte_nibbles by exact Hb.
          assert (Hpre : length (hex_of_bytes done) = (2 * length done)%nat).
          { apply length_hex_of_bytes. now apply Forall_app in Hall as [Hd _]. }
          rewrite <- Hpre.
          apply (substring_mid (hex_of_bytes done)
                   [hex_upper (b / 16); hex_upper (b mod 16)] (hex_of_bytes rest)).
          discriminate. }
        rewrite Hsub, strtol16_two_digits by assumption.
        rewrite Hqr. unfold u8. rewrite Z.mod_small by exact Hb.
        replace (2 * length done + 2)%nat with (2 * length (done ++ [b]))%nat
          by (rewrite length_app; cbn; lia).
        replace (done ++ b :: rest) with ((done ++ [b]) ++ rest)
          by (now rewrite <- app_assoc).
        apply IH.
        -- now rewrite <- app_assoc.
        -- rewrite length_app. cbn. lia.
        -- rewrite length_app. cbn. lia.
      * unfold MAX_PACKET_SIZE in Hfull.
        assert (length done = 32%nat) by lia.
        rewrite List.firstn_app, List.firstn_all2 by lia.
        replace (32 - length done)%nat with 0%nat by lia. cbn [firstn].
        now rewrite app_nil_r.
Qed.

Lemma hex_decode_hex_of_bytes (data : list Z) :
  Forall is_u8 data -> hex_decode (hex_of_bytes data) = firstn 32 data.
Proof.
  intros Hdata. unfold hex_decode.
  apply (hex_decode_loop_spec 32 [] data Hdata); cbn; lia.
Qed.

End FramingFacts.

(** X17.  The hex payload round trip.  The hex text [_sendPacket] builds
    for a sequence of bytes has two characters per byte, and the decoding
    loop of [_processRxData] turns it back into those bytes, cut at
    [MAX_PACKET_SIZE]: frames of up to 32 bytes come back unchanged. *)
Theorem hex_payload_round_trip (data : list Z) :
  Forall is_u8 data ->
  length (Framing.hex_of_bytes data) = (2 * length data)%nat
  /\ Framing.hex_decode (Framing.hex_of_bytes data) = firstn 32 data
  /\ ((length data <= 32)%nat ->
      Framing.hex_decode (Framing.hex_of_bytes data) = data).
Proof.
  intros Hdata.
  assert (H : Framing.hex_decode (Framing.hex_of_bytes data) = firstn 32 data).
  { now apply FramingFacts.hex_decode_hex_of_bytes. }
  split; [now apply FramingFacts.length_hex_of_bytes |].
  split; [exact H |].
  intros Hlen. rewrite H. now apply List.firstn_all2.
Qed.

Lemma hex_payload_round_trip_witness :
  Framing.hex_decode (Framing.hex_of_bytes [PKG_ACK; 4; PKG_WELCOME; ERR_NONE])
  = [PKG_ACK; 4; PKG_WELCOME; ERR_NONE].
Proof.
  destruct (hex_payload_round_trip [PKG_ACK; 4; PKG_WELCOME; ERR_NONE]) as (_ & _ & H).
  - repeat constructor; vm_compute; congruence.
  - apply H. cbn. lia.
Defined.

Module LineFacts.

Import Framing.
Local Open Scope char_scope.

Lemma find_char_app (ch : ascii) (a rest : list ascii) :
  forallb (fun c => negb (Ascii.eqb c ch)) a = true ->
  find_char ch (a ++ ch :: rest) = Some (length a).
Proof.
  induction a as [| c a IH]; intros Ha; cbn [app find_char length].
  - now rewrite Ascii.eqb_refl.
  - cbn [forallb] in Ha. apply andb_prop in Ha as [Hc Ha].
    apply negb_true_iff in Hc. rewrite Hc, (IH Ha). reflexivity.
Qed.

Lemma startsWith_app (pre rest : list ascii) : startsWith (pre ++ rest) pre = true.
Proof.
  induction pre as [| c pre IH]; [destruct rest; reflexivity |].
  cbn [app startsWith]. now rewrite Ascii.eqb_refl, IH.
Qed.

Lemma skipn_length_app {A} (pre rest : list A) : skipn (length pre) (pre ++ rest) = rest.
Proof.
  rewrite List.skipn_app, List.skipn_all, Nat.sub_diag. reflexivity.
Qed.

Lemma indexOf_after (ch : ascii) (pre a rest : list ascii) :
  forallb (fun c => negb (Ascii.eqb c ch)) a = true ->
  indexOf (pre ++ a ++ ch :: rest) ch (length pre)
  = Z.of_nat (length pre + length a).
Proof.
  intros Ha. unfold indexOf.
  assert (H : (length (pre ++ a ++ ch :: rest) <=? length pre)%nat = false).
  { apply Nat.leb_gt. rewrite !length_app. cbn. lia. }
  rewrite H, skipn_length_app, (find_char_app ch a rest Ha). reflexivity.
Qed.

Lemma skip_ws_no_space (s : list ascii) :
  Forall (fun c => is_space c = false) s -> skip_ws s = s.
Proof.
  destruct s as [| c s]; [reflexivity |]. intros H.
  apply Forall_cons_1 in H as [Hc _]. cbn. now rewrite Hc.
Qed.

Lemma trim_no_space (s : list ascii) :
  Forall (fun c => is_space c = false) s -> trim s = s.
Proof.
  intros H. unfold trim. rewrite (skip_ws_no_space s H).
  rewrite skip_ws_no_space; [apply rev_involutive |].
  apply Forall_forall. intros c Hc. rewrite Forall_forall in H. apply H.
  apply list_elem_of_In. apply list_elem_of_In in Hc. now apply in_rev.
Qed.

Lemma hex_upper_no_space (d : Z) : (0 <= d < 16)%Z -> is_space (hex_upper d) = false.
Proof. intros Hd. MacTextFacts.nibble_cases d; reflexivity. Qed.

Lemma hex_of_bytes_no_space (data : list Z) :
  Forall is_u8 data -> Forall (fun c => is_space c = false) (hex_of_bytes data).
Proof.
  induction data as [| b data IH]; intros H; [constructor |].
  apply Forall_cons_1 in H as [Hb H].
  cbn [hex_of_bytes flat_map]. rewrite FramingFacts.hex_of_byte_nibbles by exact Hb.
  destruct (MacTextFacts.byte_nibbles b Hb) as (Hq & Hr & _).
  cbn [app]. constructor; [now apply hex_upper_no_space |].
  constructor; [now apply hex_upper_no_space | now apply IH].
Qed.

(** Whatever the decoding loop returns is at most 32 bytes. *)
Lemma hex_decode_loop_bounds (hexData : list ascii) (count : nat) :
  forall (i : nat) (packetData : list Z),
    (length packetData <= 32)%nat -> Forall is_u8 packetData ->
    (length (hex_decode_loop count hexData i packetData) <= 32)%nat
    /\ Forall is_u8 (hex_decode_loop count hexData i packetData).
Proof.
  induction count as [| count IH]; intros i packetData Hlen Hall;
    cbn [hex_decode_loop]; [split; assumption |].
  destruct (i <? length hexData)%nat; cbn [andb]; [| split; assumption].
  destruct (Z.ltb_spec (Z.of_nat (length packetData)) MAX_PACKET_SIZE) as [Hroom | _];
    [| split; assumption].
  unfold MAX_PACKET_SIZE in Hroom. apply IH.
  - rewrite length_app. cbn. lia.
  - apply Forall_app. split; [exact Hall |].
    constructor; [| constructor]. unfold is_u8, u8. apply Z.mod_pos_bound. lia.
Qed.

End LineFacts.

(** The payload of a well-formed receive notification. *)
Lemma rx_line_payload_event (rssi snr : list ascii) (data : list Z) :
  Forall is_u8 data -> data <> [] ->
  forallb (fun c => negb (Ascii.eqb c ":")) rssi = true ->
  forallb (fun c => negb (Ascii.eqb c ":")) snr = true ->
  Framing.rx_line_payload
    (Framing.EVT_RXP2P ++ rssi ++ ":"%char :: snr ++ ":"%char
       :: Framing.hex_of_bytes data)
  = Some (firstn 32 data).
Proof.
  intros Hdata Hne Hrssi Hsnr.
  unfold Framing.rx_line_payload.
  rewrite LineFacts.startsWith_app.
  assert (H1 : Framing.indexOf
                 (Framing.EVT_RXP2P ++ rssi ++ ":"%char :: snr ++ ":"%char
                    :: Framing.hex_of_bytes data) ":" 11
               = Z.of_nat (11 + length rssi)).
  { apply (LineFacts.indexOf_after ":" Framing.EVT_RXP2P rssi). exact Hrssi. }
  rewrite H1.
  replace (Z.to_nat (Z.of_nat (11 + length rssi) + 1))
    with (length (Framing.EVT_RXP2P ++ rssi ++ [":"%char]))
    by (rewrite !length_app; cbn; lia).
  replace (Framing.EVT_RXP2P ++ rssi ++ ":"%char :: snr ++ ":"%char
             :: Framing.hex_of_bytes data)
    with ((Framing.EVT_RXP2P ++ rssi ++ [":"%char]) ++ snr ++ ":"%char
            :: Framing.hex_of_bytes data)
    by (rewrite <- !app_assoc; reflexivity).
  rewrite (LineFacts.indexOf_after ":" _ snr _ Hsnr).
  assert (Hpos : ((0 <? Z.of_nat (11 + length rssi))
                  && (0 <? Z.of_nat (length (Framing.EVT_RXP2P ++ rssi ++ [":"%char])
                                     + length snr)))%Z = true).
  { apply andb_true_intro. split; apply Z.ltb_lt; rewrite ?length_app; cbn; lia. }
  rewrite Hpos.
  replace (Z.to_nat (Z.of_nat (length (Framing.EVT_RXP2P ++ rssi ++ [":"%char])
                               + length snr) + 1))
    with (length ((Framing.EVT_RXP2P ++ rssi ++ [":"%char]) ++ snr ++ [":"%char]))
    by (rewrite !length_app; cbn; lia).
  replace ((Framing.EVT_RXP2P ++ rssi ++ [":"%char]) ++ snr ++ ":"%char
             :: Framing.hex_of_bytes data)
    with (((Framing.EVT_RXP2P ++ rssi ++ [":"%char]) ++ snr ++ [":"%char])
            ++ Framing.hex_of_bytes data ++ [])
    by (rewrite app_nil_r, <- !app_assoc; reflexivity).
  assert (Hhex : Framing.hex_of_bytes data <> []).
  { destruct data as [| b data]; [contradiction |].
    apply Forall_cons_1 in Hdata as [Hb _].
    cbn [Framing.hex_of_bytes flat_map].
    rewrite FramingFacts.hex_of_byte_nibbles by exact Hb. discriminate. }
  replace (length ((((Framing.EVT_RXP2P ++ rssi ++ [":"%char]) ++ snr ++ [":"%char])
                      ++ Framing.hex_of_bytes data ++ [])))
    with (length ((Framing.EVT_RXP2P ++ rssi ++ [":"%char]) ++ snr ++ [":"%char])
          + length (Framing.hex_of_bytes data))%nat
    by (rewrite !length_app; cbn; lia).
  rewrite (FramingFacts.substring_mid _ (Framing.hex_of_bytes data) [] Hhex).
  rewrite LineFacts.trim_no_space by now apply LineFacts.hex_of_bytes_no_space.
  rewrite (FramingFacts.hex_decode_hex_of_bytes data Hdata).
  destruct data as [| b data]; [contradiction | reflexivity].
Qed.

(** X18.  Receive notifications.  A line
    [+EVT:RXP2P:<rssi>:<snr>:<hex>], whose RSSI and SNR fields hold no
    colon and whose payload is the hex text of a non-empty sequence of
    bytes, hands exactly those bytes (the first 32 of them) to
    [_handlePacket].  A line that does not start with [+EVT:RXP2P:], such
    as the modem's [OK], hands over nothing; and whatever line arrives, a
    frame that is handed over has between 1 and 32 bytes. *)
Theorem event_line_decodes (line : list ascii) :
  (forall rssi snr data,
      line = Framing.EVT_RXP2P ++ rssi ++ ":"%char :: snr ++ ":"%char
               :: Framing.hex_of_bytes data ->
      Forall is_u8 data -> data <> [] ->
      forallb (fun c => negb (Ascii.eqb c ":")) rssi = true ->
      forallb (fun c => negb (Ascii.eqb c ":")) snr = true ->
      Framing.rx_line_payload line = Some (firstn 32 data))
  /\ (Framing.startsWith line Framing.EVT_RXP2P = false ->
      Framing.rx_line_payload line = None)
  /\ (forall packetData,
        Framing.rx_line_payload line = Some packetData ->
        (1 <= length packetData <= 32)%nat /\ Forall is_u8 packetData).
Proof.
  split; [| split].
  - intros rssi snr data -> Hdata Hne Hrssi Hsnr.
    now apply rx_line_payload_event.
  - unfold Framing.rx_line_payload. now intros ->.
  - intros packetData. unfold Framing.rx_line_payload.
    destruct (Framing.startsWith _ _); [| discriminate].
    destruct (_ && _); [| discriminate].
    destruct (0 <? _)%nat eqn:Epos; [| discriminate].
    intros [= <-]. apply Nat.ltb_lt in Epos.
    destruct (LineFacts.hex_decode_loop_bounds
                (Framing.trim
                   (Framing.substring line
                      (Z.to_nat
                         (Framing.indexOf line ":"
                            (Z.to_nat (Framing.indexOf line ":" 11 + 1)) + 1))
                      (length line))) 32 0 []) as [Hlen Hall];
      [cbn; lia | constructor |].
    split; [| exact Hall]. split; [lia | exact Hlen].
Qed.

Module SerialFacts.

Import Framing.
Local Open Scope char_scope.

(** Characters that do not end a line pile up in the buffer while there is
    room. *)
Lemma feed_chars (chars : list (Z * ascii)) :
  forall (buf : list ascii) (t0 : Z) (m : LoRaManager),
    Forall (fun tc => is_line_end (snd tc) = false) chars ->
    (length buf + length chars <= 255)%nat ->
    chars <> [] ->
    exists t,
      fold_left (fun st tc => rx_char (fst tc) (snd tc) st) chars (mkRxState buf t0, m)
      = (mkRxState (buf ++ map snd chars) t, m).
Proof.
  induction chars as [| [t c] chars IH]; intros buf t0 m Hall Hlen Hne;
    [contradiction |].
  apply Forall_cons_1 in Hall as [Hc Hall]. cbn [snd] in Hc.
  cbn [fold_left fst snd]. unfold rx_char at 2. cbn [_rxBuffer].
  rewrite Hc.
  assert (Hroom : (length buf <? 255)%nat = true)
    by (apply Nat.ltb_lt; cbn in Hlen; lia).
  rewrite Hroom.
  destruct chars as [| tc chars].
  - exists t. cbn [fold_left map]. reflexivity.
  - destruct (IH (buf ++ [c]) t m Hall) as [t' Ht'].
    + rewrite length_app. cbn in *. lia.
    + discriminate.
    + exists t'. rewrite Ht'. cbn [map]. now rewrite <- app_assoc.
Qed.

Lemma c_string_no_nul (buf : list ascii) :
  Forall (fun c => Ascii.eqb c "000" = false) buf -> c_string buf = buf.
Proof.
  induction buf as [| c buf IH]; intros H; [reflexivity |].
  apply Forall_cons_1 in H as [Hc H]. cbn [c_string]. now rewrite Hc, IH.
Qed.


End SerialFacts.

(** X19.  From the serial port to the dispatcher.  Let the port deliver,
    into an empty buffer, the characters of one line (at most 255 of them,
    none a CR, LF or NUL) and then a line feed read at time [t].  The line
    is handed to the notification parser whole, the buffer is empty
    afterwards, and the frames dispatched are those of that line.  For a
    receive notification carrying the hex text of the bytes [data] the
    manager ends up as [_processRxData] leaves it for the frame [data]
    arriving at [t]. *)
Theorem serial_line_dispatch (chars : list (Z * ascii)) (t t0 now : Z)
  (m : LoRaManager) :
  let line := map snd chars in
  chars <> [] ->
  (length chars <= 255)%nat ->
  Forall (fun tc => Framing.is_line_end (snd tc) = false
                    /\ Ascii.eqb (snd tc) "000" = false) chars ->
  Framing.processRxData_serial (chars ++ [(t, "010"%char)]) now
    (Framing.mkRxState [] t0, m)
  = (Framing.mkRxState [] t,
     match Framing.rx_line_payload line with
     | Some packetData => _handlePacket t packetData m
     | None => m
     end)
  /\ (forall rssi snr data,
        line = Framing.EVT_RXP2P ++ rssi ++ ":"%char :: snr ++ ":"%char
                 :: Framing.hex_of_bytes data ->
        Forall is_u8 data -> data <> [] ->
        forallb (fun c => negb (Ascii.eqb c ":")) rssi = true ->
        forallb (fun c => negb (Ascii.eqb c ":")) snr = true ->
        snd (Framing.processRxData_serial (chars ++ [(t, "010"%char)]) now
               (Framing.mkRxState [] t0, m))
        = _processRxData [(t, data)] m).
Proof.
  cbv zeta. intros Hne Hlen Hall.
  assert (Hmain : Framing.processRxData_serial (chars ++ [(t, "010"%char)]) now
                    (Framing.mkRxState [] t0, m)
                  = (Framing.mkRxState [] t,
                     match Framing.rx_line_payload (map snd chars) with
                     | Some packetData => _handlePacket t packetData m
                     | None => m
                     end)).
  { unfold Framing.processRxData_serial. rewrite fold_left_app.
    destruct (SerialFacts.feed_chars chars [] t0 m) as [t' Ht'].
    - eapply List.Forall_impl; [| exact Hall]. intros tc [H _]. exact H.
    - cbn. lia.
    - exact Hne.
    - rewrite Ht'. cbn [fold_left fst snd app]. unfold Framing.rx_char.
      cbn [Framing._rxBuffer].
      change (Framing.is_line_end "010") with true. cbv iota.
      assert (Hpos : (0 <? length (map snd chars))%nat = true).
      { apply Nat.ltb_lt. rewrite length_map. destruct chars; [contradiction | cbn; lia]. }
      rewrite Hpos.
      rewrite SerialFacts.c_string_no_nul.
      + cbn [Framing._rxBuffer length Nat.ltb Nat.leb andb]. reflexivity.
      + apply Forall_forall. intros c Hc.
        apply list_elem_of_In, in_map_iff in Hc. destruct Hc as (tc & <- & Hin).
        rewrite Forall_forall in Hall. apply Hall. now apply list_elem_of_In. }
  split; [exact Hmain |].
  intros rssi snr data Hline Hdata Hdne Hrssi Hsnr.
  rewrite Hmain. cbn [snd].
  rewrite Hline, (rx_line_payload_event rssi snr data Hdata Hdne Hrssi Hsnr).
  unfold _processRxData. cbn [fold_left].
  change (Z.to_nat MAX_PACKET_SIZE) with 32%nat.
  destruct data as [| b data]; [contradiction |]. reflexivity.
Qed.



Lemma discovered_list_bounded_distinct_witness :
  let l := _discoveredNodes
             (run [OpStartScan 0 60000;
                   OpReceive 10 [PKG_HELLO; 0x70; 0xB3; 0xD5; 1; 2; 3; DEV_TYPE_RELAY_2CH; 0x10];
                   OpReceive 20 [PKG_HELLO; 0x70; 0xB3; 0xD5; 1; 2; 3; DEV_TYPE_RELAY_2CH; 0x10];
                   OpReceive 30 [PKG_HELLO; 0x70; 0xB3; 0xD5; 4; 5; 6; DEV_TYPE_RELAY_2CH; 0x10]]
                ready_manager) in
  Z.of_nat (length l) <= MAX_DISCOVERED_NODES
  /\ Forall (fun d => d_valid d = true) l
  /\ distinct_discovered l.
Proof.
  apply (discovered_list_bounded_distinct
           [OpStartScan 0 60000;
            OpReceive 10 [PKG_HELLO; 0x70; 0xB3; 0xD5; 1; 2; 3; DEV_TYPE_RELAY_2CH; 0x10];
            OpReceive 20 [PKG_HELLO; 0x70; 0xB3; 0xD5; 1; 2; 3; DEV_TYPE_RELAY_2CH; 0x10];
            OpReceive 30 [PKG_HELLO; 0x70; 0xB3; 0xD5; 4; 5; 6; DEV_TYPE_RELAY_2CH; 0x10]]
           ready_manager).
  reflexivity.
Defined.

Lemma registry_within_id_space_witness :
  let m := run (pair_ops 1 ++ pair_ops 2 ++ [OpRemoveNode 1] ++ pair_ops 3)
             ready_manager in
  Forall node_ok (_registeredNodes m)
  /\ (length (_registeredNodes m) <= 254)%nat
  /\ getRegisteredNodeCount m = Z.of_nat (length (_registeredNodes m)).
Proof.
  apply (registry_within_id_space
           (pair_ops 1 ++ pair_ops 2 ++ [OpRemoveNode 1] ++ pair_ops 3)
           ready_manager); reflexivity.
Defined.

Lemma serial_line_dispatch_witness :
  Framing.processRxData_serial
    (map (fun c => (7, c))
       (list_ascii_of_string "+EVT:RXP2P:-45:8:03000200")
     ++ [(8, "010"%char)]) 9
    (Framing.mkRxState [] 0, waiting_manager)
  = (Framing.mkRxState [] 8,
     _handlePacket 8 [PKG_ACK; 0; PKG_WELCOME; ERR_NONE] waiting_manager).
Proof.
  destruct (serial_line_dispatch
              (map (fun c => (7, c))
                 (list_ascii_of_string "+EVT:RXP2P:-45:8:03000200"))
              8 0 9 waiting_manager) as [H _].
  - discriminate.
  - vm_compute. lia.
  - repeat constructor.
  - exact H.
Defined.

(** ** The node firmware, and the two ends together *)

Module NodeFacts.

Import NodeFirmware.

(** Projections of updated nodes. *)
Ltac nfields :=
  cbn [deviceState nodeID macAddr relayStatus seqNum startTime lastHelloTime
       lastStatusTime lastHeartbeatTime nextHelloInterval discoveryStartTime
       loraFrequency loraSF loraBW loraCR loraTxPower lastRSSI lastSNR
       relay_1_pin relay_2_pin flash sent rebooted
       set_deviceState set_nodeID set_macAddr set_relayStatus set_seqNum
       set_startTime set_lastHelloTime set_lastStatusTime set_lastHeartbeatTime
       set_nextHelloInterval set_discoveryStartTime set_loraFrequency set_loraSF
       set_loraBW set_loraCR set_loraTxPower set_lastRSSI set_lastSNR
       set_relay_1_pin set_relay_2_pin set_flash set_sent set_rebooted
       psend sendAckPacket reboot saveConfig
       nvm_magic nvm_node_id nvm_lora_freq nvm_lora_sf nvm_lora_bw fst snd].

(** The Welcome frame an accepted request transmits. *)
Lemma startPairing_transmits (now : Z) (modem_ok : bool) (mac : list Z)
  (m : LoRaManager) :
  _serial m = true -> _initialized m = true ->
  _pairingState m = PAIR_IDLE ->
  mac_in_use mac (_registeredNodes m) = false ->
  _getNextFreeID m <> 0 ->
  _events (snd (startPairing now modem_ok mac m))
  = _events m
    ++ [EvTransmit (PKG_WELCOME :: memcpy mac MAC_ADDR_LEN ++ [_getNextFreeID m; 0])].
Proof.
  intros Hs Hi Hidle Hmac Hfree. unfold startPairing.
  rewrite Hidle, isNodeRegistered_mac_in_use, Hmac. cbn [PairingState_eqb negb].
  fields. rewrite (proj2 (Z.eqb_neq _ _) Hfree).
  unfold _sendWelcome, _sendPacket, WelcomePacket_bytes. fields.
  cbn [welcome_type welcome_targetMac welcome_assignedID welcome_reserved].
  rewrite PairingFacts.memcpy_idem, Hs, Hi. cbn [negb orb]. fields. reflexivity.
Qed.

(** What a node in discovery does with the Welcome addressed to it. *)
Lemma receive_welcome (now rssi snr id reserved : Z) (mac : list Z) (n : Node) :
  deviceState n = STATE_DISCOVERY ->
  macAddr n = mac -> length mac = MAC_ADDR_LEN ->
  let n1 := receive now (PKG_WELCOME :: memcpy mac MAC_ADDR_LEN ++ [id; reserved])
              rssi snr n in
  sent n1 = sent n ++ [[PKG_ACK; id; PKG_WELCOME; ERR_NONE]]
  /\ deviceState n1 = STATE_NORMAL
  /\ nodeID n1 = id
  /\ macAddr n1 = mac
  /\ nvm_magic (flash n1) = NVM_MAGIC_VALUE
  /\ nvm_node_id (flash n1) = id
  /\ relayStatus n1 = relayStatus n
  /\ rebooted n1 = rebooted n.
Proof.
  intros Hst Hmac Hlen. cbv zeta.
  destruct mac as [| a [| b [| c [| d [| e [| f [| g mac]]]]]]]; try discriminate Hlen.
  unfold receive, processRxPacket.
  cbn [memcpy MAC_ADDR_LEN seq map nth app length Z.of_nat Pos.of_succ_nat
       Pos.succ byte_at].
  change (Z.of_nat 9) with 9.
  change (0 <? 9) with true. change (9 <=? MAX_PACKET_SIZE) with true.
  change (9 <? 1) with false. change (PKG_WELCOME =? PKG_WELCOME) with true.
  change (sizeof_WelcomePacket_t <=? 9) with true. cbn [andb].
  unfold handleWelcome, as_WelcomePacket.
  cbn [welcome_targetMac welcome_assignedID MAC_ADDR_LEN seq map nth byte_at].
  nfields. rewrite Hmac, PairingFacts.memcmp_refl, Hst.
  cbn [Z.eqb negb DeviceState_eqb]. nfields.
  repeat (split; [first [reflexivity | exact Hmac] |]). reflexivity.
Qed.

End NodeFacts.

(** X21.  The pairing handshake, both ends.  Let the gateway be initialised
    and Idle, with a free ID and without a registration for [mac], and let
    the node that owns [mac] be in discovery.  The Welcome the gateway
    transmits for an accepted [startPairing] makes the node take the
    assigned ID, store it in flash, enter normal mode and answer with one
    Ack; that Ack, handed to the gateway, registers a node whose ID and MAC
    are the ones the node now holds, and ends the session. *)
Theorem pairing_handshake (t0 t1 t2 rssi snr : Z) (modem_ok : bool)
  (mac : list Z) (m : LoRaManager) (n : NodeFirmware.Node) :
  _serial m = true -> _initialized m = true ->
  _pairingState m = PAIR_IDLE ->
  mac_in_use mac (_registeredNodes m) = false ->
  _getNextFreeID m <> 0 ->
  NodeFirmware.deviceState n = NodeFirmware.STATE_DISCOVERY ->
  NodeFirmware.macAddr n = mac -> length mac = MAC_ADDR_LEN ->
  let m1 := snd (startPairing t0 modem_ok mac m) in
  exists welcome ack node,
    _events m1 = _events m ++ [EvTransmit welcome]
    /\ let n1 := NodeFirmware.receive t1 welcome rssi snr n in
       let m2 := _handlePacket t2 ack m1 in
       NodeFirmware.sent n1 = NodeFirmware.sent n ++ [ack]
       /\ NodeFirmware.deviceState n1 = NodeFirmware.STATE_NORMAL
       /\ NodeFirmware.nodeID n1 = _getNextFreeID m
       /\ NodeFirmware.nvm_magic (NodeFirmware.flash n1) = NodeFirmware.NVM_MAGIC_VALUE
       /\ NodeFirmware.nvm_node_id (NodeFirmware.flash n1) = _getNextFreeID m
       /\ _registeredNodes m2 = _registeredNodes m ++ [node]
       /\ nodeID node = NodeFirmware.nodeID n1
       /\ macAddr node = NodeFirmware.macAddr n1
       /\ online node = true
       /\ _pairingState m2 = PAIR_IDLE.
Proof.
  intros Hs Hi Hidle Hfreemac Hfree Hst Hmac Hlen. cbv zeta.
  destruct (PairingFacts.startPairing_accepted_facts t0 modem_ok mac m Hidle Hfreemac Hfree)
    as (Hst1 & Hid1 & Hmac1 & Hreg1).
  pose proof (NodeFacts.startPairing_transmits t0 modem_ok mac m Hs Hi Hidle Hfreemac Hfree)
    as Hev.
  destruct (NodeFacts.receive_welcome t1 rssi snr (_getNextFreeID m) 0 mac n Hst Hmac Hlen)
    as (Hsent & Hnorm & Hnid & Hnmac & Hmagic & Hflid & _).
  generalize dependent (snd (startPairing t0 modem_ok mac m)). intros m1 **.
  exists (PKG_WELCOME :: memcpy mac MAC_ADDR_LEN ++ [_getNextFreeID m; 0]),
         [PKG_ACK; _getNextFreeID m; PKG_WELCOME; ERR_NONE],
         (paired_node t2 m1).
  split; [exact Hev |].
  split; [exact Hsent |]. split; [exact Hnorm |]. split; [exact Hnid |].
  split; [exact Hmagic |]. split; [exact Hflid |].
  assert (Hpkt : _handlePacket t2 [PKG_ACK; _getNextFreeID m; PKG_WELCOME; ERR_NONE] m1
                 = _handleAck t2 (mkAck PKG_ACK (_getNextFreeID m) PKG_WELCOME ERR_NONE) m1)
    by reflexivity.
  rewrite Hpkt.
  destruct (handleAck_success t2 (mkAck PKG_ACK (_getNextFreeID m) PKG_WELCOME ERR_NONE)
              m1 Hst1 eq_refl eq_refl) as (Hreg2 & _ & Hidle2 & _).
  split; [rewrite Hreg2, Hreg1; reflexivity |].
  split; [rewrite Hnid; unfold paired_node; cbn [nodeID]; exact Hid1 |].
  split.
  { rewrite Hnmac. unfold paired_node. cbn [macAddr].
    rewrite Hmac1, PairingFacts.memcpy_idem, <- Hlen. apply memcpy_all. }
  split; [reflexivity | exact Hidle2].
Qed.

Lemma pairing_handshake_witness :
  exists welcome ack node,
    _events (snd (startPairing 1000 true (NodeFirmware.generateMAC sample_chipId)
                    ready_manager))
    = _events ready_manager ++ [EvTransmit welcome]
    /\ NodeFirmware.sent (NodeFirmware.receive 1200 welcome (-50) 10 fresh_node) = [ack]
    /\ _registeredNodes
         (_handlePacket 1500 ack
            (snd (startPairing 1000 true (NodeFirmware.generateMAC sample_chipId)
                    ready_manager)))
       = [node]
    /\ nodeID node = 1.
Proof.
  destruct (pairing_handshake 1000 1200 1500 (-50) 10 true
              (NodeFirmware.generateMAC sample_chipId) ready_manager fresh_node)
    as (welcome & ack & node & Hev & Hsent & _ & Hid & _ & _ & Hreg & Hnid & _);
    try reflexivity.
  - vm_compute. discriminate.
  - exists welcome, ack, node.
    split; [exact Hev |]. split; [exact Hsent |]. split; [exact Hreg |].
    rewrite Hnid, Hid. reflexivity.
Defined.

Module RelayFacts.

Import NodeFirmware.

Lemma land_3 (p : Z) : Z.land p 0x03 = p mod 4.
Proof. exact (Z.land_ones p 2 ltac:(lia)). Qed.

Lemma land_3_range (p : Z) : 0 <= Z.land p 0x03 <= 3.
Proof. rewrite land_3. pose proof (Z.mod_pos_bound p 4). lia. Qed.

Lemma land_3_bit (p k : Z) :
  0 <= k < 2 -> Z.testbit (Z.land p 0x03) k = Z.testbit p k.
Proof.
  intros Hk. rewrite Z.land_spec.
  assert (H : Z.testbit 3 k = true)
    by (assert (k = 0 \/ k = 1) as [-> | ->] by lia; reflexivity).
  rewrite H. apply andb_true_r.
Qed.

Lemma relay_bit (p k : Z) :
  0 <= k -> negb (Z.land p (Z.shiftl 1 k) =? 0) = Z.testbit p k.
Proof.
  intros Hk. rewrite Z.shiftl_1_l.
  destruct (Z.testbit p k) eqn:Eb.
  - destruct (Z.eqb_spec (Z.land p (2 ^ k)) 0) as [H0 | _]; [| reflexivity].
    assert (Hbit : Z.testbit (Z.land p (2 ^ k)) k = true)
      by (rewrite Z.land_spec, Eb, Z.pow2_bits_true by lia; reflexivity).
    rewrite H0, Z.bits_0 in Hbit. discriminate.
  - assert (H0 : Z.land p (2 ^ k) = 0).
    { apply Z.bits_inj'. intros j Hj. rewrite Z.land_spec, Z.bits_0.
      destruct (Z.eq_dec j k) as [-> | Hne].
      - rewrite Eb. reflexivity.
      - rewrite Z.pow2_bits_false by lia. apply andb_false_r. }
    rewrite H0. reflexivity.
Qed.

(** [applyRelayBitmap] drives each pin as its bit says and keeps the two
    low bits. *)
Lemma applyRelayBitmap_eq (bitmap : Z) (n : Node) :
  applyRelayBitmap bitmap n
  = set_relayStatus (Z.land bitmap 0x03)
      (set_relay_2_pin (Z.testbit bitmap 1) (set_relay_1_pin (Z.testbit bitmap 0) n)).
Proof.
  unfold applyRelayBitmap, RELAY_1_BIT, RELAY_2_BIT.
  rewrite !relay_bit by lia.
  unfold setRelay. cbn [Z.eqb Pos.eqb].
  destruct (Z.testbit bitmap 0), (Z.testbit bitmap 1); reflexivity.
Qed.

Lemma applyRelayBitmap_agree (bitmap : Z) (n : Node) :
  relays_agree (applyRelayBitmap bitmap n).
Proof.
  rewrite applyRelayBitmap_eq. unfold relays_agree. NodeFacts.nfields.
  split; [apply land_3_range |].
  split; symmetry; apply land_3_bit; lia.
Qed.

(** A command frame addressed to a node in normal mode reaches
    [handleCommand]. *)
Lemma receive_command (now rssi snr cmdType param1 param2 : Z) (n : Node) :
  deviceState n = STATE_NORMAL ->
  receive now [PKG_CMD; nodeID n; cmdType; param1; param2] rssi snr n
  = match command_switch now (mkCommand PKG_CMD (nodeID n) cmdType param1 param2)
            (set_lastSNR (i8 snr) (set_lastRSSI (i8 rssi) n)) with
    | (n1, Some errCode) => sendAckPacket PKG_CMD errCode n1
    | (n1, None) => n1
    end.
Proof.
  intros Hst. unfold receive, processRxPacket. cbn [length byte_at nth].
  change (Z.of_nat 5) with 5.
  change ((0 <? 5) && (5 <=? MAX_PACKET_SIZE)) with true.
  change (5 <? 1) with false. change (PKG_CMD =? PKG_WELCOME) with false.
  change (PKG_CMD =? PKG_CMD) with true.
  change (sizeof_CommandPacket_t <=? 5) with true. cbv iota.
  NodeFacts.nfields. rewrite Hst. cbn [DeviceState_eqb andb].
  unfold handleCommand, as_CommandPacket. cbn [byte_at nth cmd_targetID].
  NodeFacts.nfields. rewrite Z.eqb_refl. cbn [negb andb]. reflexivity.
Qed.

(** The Ack of a command is no business of the pairing code. *)
Lemma command_ack_ignored (now id errCode : Z) (m : LoRaManager) :
  _handlePacket now [PKG_ACK; id; PKG_CMD; errCode] m = m.
Proof.
  change (_handlePacket now [PKG_ACK; id; PKG_CMD; errCode] m)
    with (_handleAck now (mkAck PKG_ACK id PKG_CMD errCode) m).
  apply PairingFacts.handleAck_unmatched. right. discriminate.
Qed.

Lemma sendCommand_transmits (modem_ok : bool) (id cmdType param1 param2 : Z)
  (m : LoRaManager) :
  _serial m = true -> _initialized m = true ->
  _sendCommand modem_ok id cmdType param1 param2 m
  = (modem_ok, emit (EvTransmit [PKG_CMD; id; cmdType; param1; param2]) m).
Proof.
  intros Hs Hi. unfold _sendCommand, _sendPacket. now rewrite Hs, Hi.
Qed.

End RelayFacts.

(** X22.  A relay command, from the gateway's call to the node's pins.  On
    an initialised gateway [sendRelayCommand] transmits one command frame
    and changes nothing else.  A node in normal mode that holds the target
    ID drives relay 1 as bit 0 of the bitmap says and relay 2 as bit 1
    says, reports the two low bits of the bitmap as its relay status, and
    answers with one Ack for [PKG_CMD] with status [ERR_NONE].  That Ack
    changes nothing at the gateway, whatever state it is in: the gateway
    learns the new relay state only from a later Data or Heartbeat
    packet. *)
Theorem relay_command_end_to_end (t t' rssi snr : Z) (modem_ok : bool)
  (bitmap : Z) (m : LoRaManager) (n : NodeFirmware.Node) :
  _serial m = true -> _initialized m = true ->
  NodeFirmware.deviceState n = NodeFirmware.STATE_NORMAL ->
  let id := NodeFirmware.nodeID n in
  let r := sendRelayCommand modem_ok id bitmap m in
  exists frame ack,
    r = (modem_ok, emit (EvTransmit frame) m)
    /\ let n1 := NodeFirmware.receive t frame rssi snr n in
       NodeFirmware.relay_1_pin n1 = Z.testbit bitmap 0
       /\ NodeFirmware.relay_2_pin n1 = Z.testbit bitmap 1
       /\ NodeFirmware.relayStatus n1 = Z.land bitmap 0x03
       /\ relays_agree n1
       /\ NodeFirmware.sent n1 = NodeFirmware.sent n ++ [ack]
       /\ ack = [PKG_ACK; id; PKG_CMD; ERR_NONE]
       /\ NodeFirmware.nodeID n1 = id
       /\ NodeFirmware.deviceState n1 = NodeFirmware.STATE_NORMAL
       /\ forall m', _handlePacket t' ack m' = m'.
Proof.
  intros Hs Hi Hst. cbv zeta.
  exists [PKG_CMD; NodeFirmware.nodeID n; CMD_RELAY_SET; bitmap; 0],
         [PKG_ACK; NodeFirmware.nodeID n; PKG_CMD; ERR_NONE].
  split; [exact (RelayFacts.sendCommand_transmits modem_ok _ _ _ _ m Hs Hi) |].
  rewrite (RelayFacts.receive_command t rssi snr CMD_RELAY_SET bitmap 0 n Hst).
  unfold NodeFirmware.command_switch. cbn [cmd_cmdType cmd_param1].
  change (CMD_RELAY_SET =? CMD_RELAY_SET) with true. cbv iota.
  split; [| split; [| split; [| split; [| split; [| split; [| split; [| split]]]]]]].
  - rewrite RelayFacts.applyRelayBitmap_eq. reflexivity.
  - rewrite RelayFacts.applyRelayBitmap_eq. reflexivity.
  - rewrite RelayFacts.applyRelayBitmap_eq. reflexivity.
  - pose proof (RelayFacts.applyRelayBitmap_agree bitmap
                  (NodeFirmware.set_lastSNR (i8 snr)
                     (NodeFirmware.set_lastRSSI (i8 rssi) n))) as H.
    exact H.
  - rewrite RelayFacts.applyRelayBitmap_eq. reflexivity.
  - reflexivity.
  - rewrite RelayFacts.applyRelayBitmap_eq. reflexivity.
  - rewrite RelayFacts.applyRelayBitmap_eq. NodeFacts.nfields. exact Hst.
  - intros m'. apply RelayFacts.command_ack_ignored.
Qed.

Lemma relay_command_end_to_end_witness :
  exists frame ack,
    sendRelayCommand true 1 0x02 paired_manager
    = (true, emit (EvTransmit frame) paired_manager)
    /\ NodeFirmware.relay_1_pin (NodeFirmware.receive 9000 frame (-50) 10 joined_node)
       = false
    /\ NodeFirmware.relay_2_pin (NodeFirmware.receive 9000 frame (-50) 10 joined_node)
       = true
    /\ NodeFirmware.sent (NodeFirmware.receive 9000 frame (-50) 10 joined_node)
       = NodeFirmware.sent joined_node ++ [ack].
Proof.
  destruct (relay_command_end_to_end 9000 9100 (-50) 10 true 0x02
              paired_manager joined_node)
    as (frame & ack & Hr & H1 & H2 & _ & _ & Hsent & _); try reflexivity.
  exists frame, ack.
  split; [exact Hr |]. split; [exact H1 |]. split; [exact H2 | exact Hsent].
Defined.

Module LinkFacts.

Lemma u8_i8 (x : Z) : u8 (i8 x) = u8 x.
Proof.
  unfold i8, u8. destruct (x mod 256 <? 128).
  - apply Z.mod_mod. lia.
  - rewrite <- (Z.mod_mod x 256) at 2 by lia.
    replace (x mod 256 - 256) with (x mod 256 + (-1) * 256) by lia.
    apply Z.mod_add. lia.
Qed.

Lemma i8_u8 (x : Z) : i8 (u8 x) = i8 x.
Proof. unfold i8, u8. now rewrite !Z.mod_mod by lia. Qed.

Lemma i8_i8 (x : Z) : i8 (i8 x) = i8 x.
Proof. unfold i8 at 1. rewrite u8_i8. reflexivity. Qed.

(** The four bytes [le_bytes32] writes read back as the value. *)
Lemma le_bytes32_value (v : Z) :
  0 <= v < 2 ^ 32 ->
  u8 v + Z.shiftl (u8 (Z.shiftr v 8)) 8 + Z.shiftl (u8 (Z.shiftr v 16)) 16
  + Z.shiftl (u8 (Z.shiftr v 24)) 24 = v.
Proof.
  intros Hv. unfold u8. rewrite !Z.shiftr_div_pow2, !Z.shiftl_mul_pow2 by lia.
  change (2 ^ 8) with 256. change (2 ^ 16) with 65536.
  change (2 ^ 24) with 16777216. change (2 ^ 32) with 4294967296 in Hv.
  Z.div_mod_to_equations. lia.
Qed.

Lemma handleData_lookup (now : Z) (pkt : DataPacket_t) (m : LoRaManager)
  (node : RegisteredNode) :
  getNodeByID (data_nodeID pkt) m = Some node ->
  getNodeByID (data_nodeID pkt) (_handleData now pkt m)
  = Some (mkRegisteredNode (nodeID node) (macAddr node) (deviceType node)
            (name node) (data_relayStatus pkt) (data_rssi pkt) (data_snr pkt)
            (data_uptime pkt) now true (valid node)).
Proof.
  intros Hnode. unfold _handleData. rewrite Hnode.
  unfold getNodeByID in *.
  change (fun node0 => valid node0 && (nodeID node0 =? data_nodeID pkt))
    with (node_matches (data_nodeID pkt)) in *.
  destruct (_nodeDataCallback _); fields;
    rewrite RegistryFacts.find_update_first_same by reflexivity;
    rewrite Hnode; reflexivity.
Qed.

Lemma handleHeartbeat_lookup (now : Z) (pkt : HeartbeatPacket_t) (m : LoRaManager)
  (node : RegisteredNode) :
  getNodeByID (hb_nodeID pkt) m = Some node ->
  getNodeByID (hb_nodeID pkt) (_handleHeartbeat now pkt m)
  = Some (mkRegisteredNode (nodeID node) (macAddr node) (deviceType node)
            (name node) (hb_relayStatus pkt) (lastRSSI node) (lastSNR node)
            (uptime node) now true (valid node)).
Proof.
  intros Hnode. unfold _handleHeartbeat. rewrite Hnode.
  unfold getNodeByID in *. fields.
  change (fun node0 => valid node0 && (nodeID node0 =? hb_nodeID pkt))
    with (node_matches (hb_nodeID pkt)) in *.
  rewrite RegistryFacts.find_update_first_same by reflexivity.
  rewrite Hnode. reflexivity.
Qed.

Lemma uptime_range (x : Z) : 0 <= u32 x / 1000 < 2 ^ 32.
Proof.
  unfold u32. pose proof (Z.mod_pos_bound x (2 ^ 32) ltac:(lia)) as H.
  split; [apply Z.div_pos; lia |].
  apply Z.div_lt_upper_bound; lia.
Qed.

End LinkFacts.

(** X23.  A status request, there and back.  [requestNodeStatus] on an
    initialised gateway transmits one command frame.  The node in normal
    mode that holds the ID answers with one Data packet and no Ack, and
    keeps its relays as they are.  When the gateway has a valid node of that
    ID, handling the packet at time [t'] makes [getNodeByID] return that
    node with the relay status the node holds, the RSSI and SNR at which the
    node heard the request, the node's uptime in whole seconds, last seen at
    [t'] and online. *)
Theorem status_request_round_trip (t t' rssi snr : Z) (modem_ok : bool)
  (m : LoRaManager) (n : NodeFirmware.Node) (node : RegisteredNode) :
  _serial m = true -> _initialized m = true ->
  NodeFirmware.deviceState n = NodeFirmware.STATE_NORMAL ->
  getNodeByID (NodeFirmware.nodeID n) m = Some node ->
  let id := NodeFirmware.nodeID n in
  let r := requestNodeStatus modem_ok id m in
  exists frame report,
    r = (modem_ok, emit (EvTransmit frame) m)
    /\ let n1 := NodeFirmware.receive t frame rssi snr n in
       let m2 := _handlePacket t' report (snd r) in
       NodeFirmware.sent n1 = NodeFirmware.sent n ++ [report]
       /\ length report = Z.to_nat sizeof_DataPacket_t
       /\ NodeFirmware.relayStatus n1 = NodeFirmware.relayStatus n
       /\ NodeFirmware.relay_1_pin n1 = NodeFirmware.relay_1_pin n
       /\ NodeFirmware.relay_2_pin n1 = NodeFirmware.relay_2_pin n
       /\ getNodeByID id m2
          = Some (mkRegisteredNode (nodeID node) (macAddr node) (deviceType node)
                    (name node) (NodeFirmware.relayStatus n) (i8 rssi) (i8 snr)
                    (u32 (t - NodeFirmware.startTime n) / 1000) t' true
                    (valid node)).
Proof.
  intros Hs Hi Hst Hnode. cbv zeta.
  set (uptime := u32 (t - NodeFirmware.startTime n) / 1000).
  exists [PKG_CMD; NodeFirmware.nodeID n; CMD_REQUEST_STATUS; 0; 0],
         ([PKG_DATA; NodeFirmware.nodeID n; NodeFirmware.relayStatus n;
           u8 (i8 rssi); u8 (i8 snr); 0xFF] ++ NodeFirmware.le_bytes32 uptime).
  unfold requestNodeStatus.
  rewrite (RelayFacts.sendCommand_transmits modem_ok _ _ _ _ m Hs Hi).
  split; [reflexivity |].
  rewrite (RelayFacts.receive_command t rssi snr CMD_REQUEST_STATUS 0 0 n Hst).
  unfold NodeFirmware.command_switch. cbn [cmd_cmdType].
  change (CMD_REQUEST_STATUS =? CMD_RELAY_SET) with false.
  change (CMD_REQUEST_STATUS =? CMD_RELAY_TOGGLE) with false.
  change (CMD_REQUEST_STATUS =? CMD_RESET) with false.
  change (CMD_REQUEST_STATUS =? CMD_FACTORY_RESET) with false.
  change (CMD_REQUEST_STATUS =? CMD_REQUEST_STATUS) with true. cbv iota.
  unfold NodeFirmware.sendDataPacket. NodeFacts.nfields. fold uptime.
  repeat (split; [reflexivity |]).
  unfold NodeFirmware.le_bytes32. cbn [app].
  match goal with
  | |- getNodeByID _ (_handlePacket ?t ?d ?mm) = _ =>
      change (_handlePacket t d mm) with (_handleData t (as_DataPacket d) mm)
  end.
  assert (Hid : data_nodeID
                  (as_DataPacket
                     [PKG_DATA; NodeFirmware.nodeID n; NodeFirmware.relayStatus n;
                      u8 (i8 rssi); u8 (i8 snr); 0xFF; u8 uptime;
                      u8 (Z.shiftr uptime 8); u8 (Z.shiftr uptime 16);
                      u8 (Z.shiftr uptime 24)])
                = NodeFirmware.nodeID n) by reflexivity.
  rewrite <- Hid at 1.
  rewrite (LinkFacts.handleData_lookup t' _ _ node)
    by (rewrite Hid; exact Hnode).
  unfold as_DataPacket.
  cbn [byte_at nth data_relayStatus data_rssi data_snr data_uptime].
  rewrite !LinkFacts.i8_u8, !LinkFacts.i8_i8.
  rewrite (LinkFacts.le_bytes32_value uptime (LinkFacts.uptime_range _)).
  reflexivity.
Qed.

Lemma status_request_round_trip_witness :
  exists frame report node',
    requestNodeStatus true 1 paired_manager
    = (true, emit (EvTransmit frame) paired_manager)
    /\ NodeFirmware.sent (NodeFirmware.receive 9000 frame (-50) 10 joined_node)
       = NodeFirmware.sent joined_node ++ [report]
    /\ getNodeByID 1
         (_handlePacket 9500 report (snd (requestNodeStatus true 1 paired_manager)))
       = Some node'
    /\ uptime node' = 9 /\ lastRSSI node' = -50 /\ online node' = true.
Proof.
  destruct (getNodeByID 1 paired_manager) as [node |] eqn:Hnode;
    [| vm_compute in Hnode; discriminate Hnode].
  destruct (status_request_round_trip 9000 9500 (-50) 10 true paired_manager
              joined_node node)
    as (frame & report & Hr & Hsent & _ & _ & _ & _ & Hget); try reflexivity.
  - exact Hnode.
  - exists frame, report. eexists.
    split; [exact Hr |]. split; [exact Hsent |]. split; [exact Hget |].
    split; [reflexivity |]. split; reflexivity.
Defined.

(** X24.  Heartbeats keep a node online.  In normal mode a pass of the
    node's loop with nothing received and at least [HEARTBEAT_PERIOD] ms on
    the clock since the last heartbeat ends with a Heartbeat frame (after
    the Data report, when that is due too), restarts the heartbeat timer and
    advances the sequence number modulo 65536.  When the gateway has a
    valid node of that ID, handling the frame at [t'] and then sweeping at a
    time no more than [NODE_OFFLINE_THRESHOLD] ms later leaves that node
    online, last seen at [t'], with the relay status the node holds. *)
Theorem heartbeat_keeps_node_online (currentTime r report_now t' now : Z)
  (n : NodeFirmware.Node) (m : LoRaManager) (node : RegisteredNode) :
  NodeFirmware.deviceState n = NodeFirmware.STATE_NORMAL ->
  NodeFirmware.rebooted n = false ->
  NodeFirmware.HEARTBEAT_PERIOD
    <= u32 (currentTime - NodeFirmware.lastHeartbeatTime n) ->
  getNodeByID (NodeFirmware.nodeID n) m = Some node ->
  u32 (now - t') <= NODE_OFFLINE_THRESHOLD ->
  let n1 := NodeFirmware.loop currentTime r None report_now n in
  exists reports heartbeat,
    NodeFirmware.sent n1 = NodeFirmware.sent n ++ reports ++ [heartbeat]
    /\ (length reports <= 1)%nat
    /\ length heartbeat = Z.to_nat sizeof_HeartbeatPacket_t
    /\ NodeFirmware.lastHeartbeatTime n1 = currentTime
    /\ NodeFirmware.seqNum n1 = (NodeFirmware.seqNum n + 1) mod 65536
    /\ getNodeByID (NodeFirmware.nodeID n)
         (_updateNodeOnlineStatus now (_handlePacket t' heartbeat m))
       = Some (mkRegisteredNode (nodeID node) (macAddr node) (deviceType node)
                 (name node) (NodeFirmware.relayStatus n) (lastRSSI node)
                 (lastSNR node) (uptime node) t' true (valid node)).
Proof.
  intros Hst Hrb Hdue Hnode Hfresh. cbv zeta.
  exists (if NodeFirmware.STATUS_REPORT_PERIOD
             <=? u32 (currentTime - NodeFirmware.lastStatusTime n)
          then [[PKG_DATA; NodeFirmware.nodeID n; NodeFirmware.relayStatus n;
                 u8 (NodeFirmware.lastRSSI n); u8 (NodeFirmware.lastSNR n); 0xFF]
                  ++ NodeFirmware.le_bytes32
                       (u32 (report_now - NodeFirmware.startTime n) / 1000)]
          else []),
         [PKG_HEARTBEAT; NodeFirmware.nodeID n; NodeFirmware.relayStatus n; 0x00;
          u8 (NodeFirmware.seqNum n); u8 (Z.shiftr (NodeFirmware.seqNum n) 8)].
  apply Z.leb_le in Hdue.
  unfold NodeFirmware.loop. rewrite Hrb, Hst.
  unfold NodeFirmware.handleNormalMode, NodeFirmware.sendHeartbeat,
    NodeFirmware.sendDataPacket.
  split; [| split; [| split; [| split; [| split]]]].
  - destruct (NodeFirmware.STATUS_REPORT_PERIOD <=? _);
      NodeFacts.nfields; rewrite Hdue;
      unfold NodeFirmware.sendHeartbeat, NodeFirmware.sendDataPacket;
      NodeFacts.nfields; rewrite <- ?app_assoc; reflexivity.
  - destruct (NodeFirmware.STATUS_REPORT_PERIOD <=? _); cbn; lia.
  - reflexivity.
  - destruct (NodeFirmware.STATUS_REPORT_PERIOD <=? _);
      NodeFacts.nfields; rewrite Hdue; reflexivity.
  - destruct (NodeFirmware.STATUS_REPORT_PERIOD <=? _);
      NodeFacts.nfields; rewrite Hdue;
      unfold NodeFirmware.sendHeartbeat, NodeFirmware.sendDataPacket;
      NodeFacts.nfields; reflexivity.
  - match goal with
    | |- context [_handlePacket ?t ?d ?mm] =>
        change (_handlePacket t d mm)
          with (_handleHeartbeat t (as_HeartbeatPacket d) mm)
    end.
    rewrite RegistryFacts.updateNodeOnlineStatus_swept.
    unfold getNodeByID at 1. fields.
    change (fun node0 => valid node0 && (nodeID node0 =? NodeFirmware.nodeID n))
      with (node_matches (NodeFirmware.nodeID n)).
    rewrite RegistryFacts.find_map_same
      by (intros x; unfold swept;
          destruct (valid x && online x
                    && (NODE_OFFLINE_THRESHOLD <? u32 (now - lastSeen x)));
          reflexivity).
    pose proof (LinkFacts.handleHeartbeat_lookup t'
                  (as_HeartbeatPacket
                     [PKG_HEARTBEAT; NodeFirmware.nodeID n;
                      NodeFirmware.relayStatus n; 0x00; u8 (NodeFirmware.seqNum n);
                      u8 (Z.shiftr (NodeFirmware.seqNum n) 8)]) m node Hnode) as Hl.
    unfold getNodeByID in Hl.
    change (hb_nodeID (as_HeartbeatPacket _)) with (NodeFirmware.nodeID n) in Hl.
    change (fun node0 => valid node0 && (nodeID node0 =? NodeFirmware.nodeID n))
      with (node_matches (NodeFirmware.nodeID n)) in Hl.
    rewrite Hl. cbn [option_map]. unfold swept. cbn [valid online lastSeen].
    rewrite (proj2 (Z.ltb_ge _ _) Hfresh), !andb_false_r. reflexivity.
Qed.

Lemma heartbeat_keeps_node_online_witness :
  exists reports heartbeat node',
    NodeFirmware.sent (NodeFirmware.loop 36000 0 None 36000 joined_node)
    = NodeFirmware.sent joined_node ++ reports ++ [heartbeat]
    /\ getNodeByID 1
         (_updateNodeOnlineStatus 150000 (_handlePacket 36500 heartbeat paired_manager))
       = Some node'
    /\ online node' = true /\ lastSeen node' = 36500.
Proof.
  destruct (getNodeByID 1 paired_manager) as [node |] eqn:Hnode;
    [| vm_compute in Hnode; discriminate Hnode].
  destruct (heartbeat_keeps_node_online 36000 0 36000 36500 150000 joined_node
              paired_manager node)
    as (reports & heartbeat & Hsent & _ & _ & _ & _ & Hget); try reflexivity.
  - vm_compute. discriminate.
  - exact Hnode.
  - vm_compute. discriminate.
  - exists reports, heartbeat. eexists.
    split; [exact Hsent |]. split; [exact Hget |]. split; reflexivity.
Defined.

Module NodeInv.

Import NodeFirmware.

Ltac open_node n :=
  let fl := fresh "fl" in
  destruct n as [? ? ? ? ? ? ? ? ? ? ? ? ? ? ? ? ? ? ? ? fl ? ?];
  destruct fl as [? ? ? ? ?].

(** Toggling relay 1 or 2 flips its bit and its pin, and nothing else. *)
Lemma toggle_eq (p : Z) (n : Node) :
  relays_agree n -> p = 1 \/ p = 2 ->
  setRelay p
    (negb (GET_RELAY_STATE
             (relayStatus (set_relayStatus (TGL_RELAY_STATE (relayStatus n) p) n))
             p =? 0))
    (set_relayStatus (TGL_RELAY_STATE (relayStatus n) p) n)
  = set_relayStatus (Z.lxor (relayStatus n) (Z.shiftl 1 (p - 1)))
      (if p =? 1 then set_relay_1_pin (negb (relay_1_pin n)) n
       else set_relay_2_pin (negb (relay_2_pin n)) n).
Proof.
  intros (Hr & H1 & H2) Hp. open_node n. cbn [relayStatus relay_1_pin relay_2_pin] in *.
  subst.
  match goal with
  | H : 0 <= ?rs <= 3 |- _ =>
      assert (Hrs : rs = 0 \/ rs = 1 \/ rs = 2 \/ rs = 3) by lia
  end.
  destruct Hp as [-> | ->];
    destruct Hrs as [-> | [-> | [-> | ->]]]; reflexivity.
Qed.

Lemma toggle_agree (p : Z) (n : Node) :
  relays_agree n -> p = 1 \/ p = 2 ->
  relays_agree
    (set_relayStatus (Z.lxor (relayStatus n) (Z.shiftl 1 (p - 1)))
       (if p =? 1 then set_relay_1_pin (negb (relay_1_pin n)) n
        else set_relay_2_pin (negb (relay_2_pin n)) n)).
Proof.
  intros (Hr & H1 & H2) Hp. open_node n.
  unfold relays_agree. cbn [relayStatus relay_1_pin relay_2_pin] in *. subst.
  match goal with
  | H : 0 <= ?rs <= 3 |- _ =>
      assert (Hrs : rs = 0 \/ rs = 1 \/ rs = 2 \/ rs = 3) by lia
  end.
  destruct Hp as [-> | ->];
    destruct Hrs as [-> | [-> | [-> | ->]]];
    (split; [split; vm_compute; discriminate | split; reflexivity]).
Qed.

Lemma relays_agree_ext (n n' : Node) :
  relayStatus n' = relayStatus n ->
  relay_1_pin n' = relay_1_pin n ->
  relay_2_pin n' = relay_2_pin n ->
  relays_agree n -> relays_agree n'.
Proof. unfold relays_agree. intros -> -> ->. exact (fun H => H). Qed.

Lemma radio_in_range_ext (n n' : Node) :
  loraFrequency n' = loraFrequency n -> loraSF n' = loraSF n ->
  loraBW n' = loraBW n -> loraCR n' = loraCR n ->
  loraTxPower n' = loraTxPower n ->
  radio_in_range n -> radio_in_range n'.
Proof. unfold radio_in_range. intros -> -> -> -> ->. exact (fun H => H). Qed.

Ltac inv_fields :=
  unfold node_inv, relays_agree, radio_in_range, id_in_flash in *;
  NodeFacts.nfields.

(** A handler that leaves the relays alone. *)
Ltac inv_same :=
  match goal with
  | H : node_inv _ _ |- _ =>
      let Ha := fresh in let Hr := fresh in let Hm := fresh in
      let Hb := fresh in let Hs := fresh in let Hd := fresh in
      let Hn := fresh in
      inv_fields; destruct H as (Ha & Hr & Hm & Hb & Hs & Hd & Hn);
      split; [exact Ha |]; split; [exact Hr |]; split; [exact Hm |];
      split; [first [exact Hb | assumption | reflexivity] |];
      split; [first [exact Hs | congruence] |];
      split; [first [exact Hd | congruence] |];
      first [exact Hn | congruence]
  end.

Lemma sendAckPacket_inv (chipId : list Z) (ackType status : Z) (n : Node) :
  node_inv chipId n -> node_inv chipId (sendAckPacket ackType status n).
Proof. intros Hinv. inv_same. Qed.

Lemma sendDataPacket_inv (chipId : list Z) (now : Z) (n : Node) :
  node_inv chipId n -> node_inv chipId (sendDataPacket now n).
Proof. intros Hinv. unfold sendDataPacket. inv_same. Qed.

Lemma sendHeartbeat_inv (chipId : list Z) (n : Node) :
  node_inv chipId n -> node_inv chipId (sendHeartbeat n).
Proof. intros Hinv. unfold sendHeartbeat. inv_same. Qed.

Lemma sendHelloPacket_inv (chipId : list Z) (n : Node) :
  node_inv chipId n -> node_inv chipId (sendHelloPacket n).
Proof. intros Hinv. unfold sendHelloPacket. inv_same. Qed.

Lemma relays_inv (chipId : list Z) (n n' : Node) :
  node_inv chipId n -> relays_agree n' ->
  n' = set_relayStatus (relayStatus n')
         (set_relay_2_pin (relay_2_pin n') (set_relay_1_pin (relay_1_pin n') n)) ->
  node_inv chipId n'.
Proof.
  intros Hinv Hag Heq. rewrite Heq.
  destruct Hinv as (Ha & Hr & Hm & Hb & Hs & Hd & Hn).
  unfold node_inv. split.
  - unfold relays_agree. NodeFacts.nfields. exact Hag.
  - inv_fields. repeat (split; [assumption |]). assumption.
Qed.

(** [handleCommand] keeps the invariant unless it reboots. *)
Lemma handleCommand_inv (chipId : list Z) (now : Z) (pkt : CommandPacket_t)
  (n : Node) :
  node_inv chipId n ->
  rebooted (handleCommand now pkt n) = false ->
  node_inv chipId (handleCommand now pkt n).
Proof.
  intros Hinv. unfold handleCommand.
  destruct (negb _ && negb _); [intros _; exact Hinv |].
  unfold command_switch.
  destruct (cmd_cmdType pkt =? CMD_RELAY_SET).
  { intros _. apply sendAckPacket_inv.
    apply (relays_inv chipId n); [exact Hinv | apply RelayFacts.applyRelayBitmap_agree |].
    rewrite RelayFacts.applyRelayBitmap_eq. reflexivity. }
  destruct (cmd_cmdType pkt =? CMD_RELAY_TOGGLE).
  { intros _.
    destruct ((1 <=? cmd_param1 pkt) && (cmd_param1 pkt <=? 2)) eqn:Ep;
      [| now apply sendAckPacket_inv].
    apply andb_prop in Ep as [E1 E2]. apply Z.leb_le in E1, E2.
    assert (Hp : cmd_param1 pkt = 1 \/ cmd_param1 pkt = 2) by lia.
    apply sendAckPacket_inv.
    pose proof Hinv as (Ha & _). cbv zeta.
    rewrite (toggle_eq _ n Ha Hp).
    apply (relays_inv chipId n); [exact Hinv | now apply toggle_agree |].
    destruct Hp as [-> | ->]; reflexivity. }
  destruct (cmd_cmdType pkt =? CMD_RESET); [intros H; discriminate H |].
  destruct (cmd_cmdType pkt =? CMD_FACTORY_RESET); [intros H; discriminate H |].
  destruct (cmd_cmdType pkt =? CMD_REQUEST_STATUS);
    intros _; [now apply sendDataPacket_inv | now apply sendAckPacket_inv].
Qed.

Lemma handleConfig_inv (chipId : list Z) (pkt : ConfigPacket_t) (n : Node) :
  node_inv chipId n -> deviceState n = STATE_NORMAL ->
  node_inv chipId (handleConfig pkt n).
Proof.
  intros Hinv Hst. unfold handleConfig.
  destruct (negb _ && negb _); [exact Hinv |].
  destruct Hinv as (Ha & Hr & Hm & Hb & Hs & Hd & Hn).
  destruct ((863000000 <=? cfg_frequency pkt) && (cfg_frequency pkt <=? 870000000))
    eqn:Ef;
    [apply andb_prop in Ef as [Ef1 Ef2]; apply Z.leb_le in Ef1, Ef2 |];
    (destruct ((7 <=? cfg_sf pkt) && (cfg_sf pkt <=? 12)) eqn:Esf;
     [apply andb_prop in Esf as [Esf1 Esf2]; apply Z.leb_le in Esf1, Esf2 |]);
    (destruct (cfg_bw pkt <=? 2) eqn:Ebw; [apply Z.leb_le in Ebw |]);
    (destruct ((1 <=? cfg_cr pkt) && (cfg_cr pkt <=? 4)) eqn:Ecr;
     [apply andb_prop in Ecr as [Ecr1 Ecr2]; apply Z.leb_le in Ecr1, Ecr2 |]);
    (destruct ((-4 <=? cfg_txPower pkt) && (cfg_txPower pkt <=? 22)) eqn:Etx;
     [apply andb_prop in Etx as [Etx1 Etx2]; apply Z.leb_le in Etx1, Etx2 |]);
    inv_fields;
    (split; [exact Ha |]); (split; [lia |]); (split; [exact Hm |]);
    (split; [exact Hb |]); (split; [exact Hs |]); (split; [exact Hd |]);
    intros _; split; reflexivity.
Qed.

Lemma handleWelcome_inv (chipId : list Z) (now : Z) (pkt : WelcomePacket_t)
  (n : Node) :
  node_inv chipId n -> node_inv chipId (handleWelcome now pkt n).
Proof.
  intros Hinv. unfold handleWelcome.
  destruct (negb (memcmp _ _ _ =? 0)); [exact Hinv |].
  destruct (negb (DeviceState_eqb _ _)); [exact Hinv |].
  destruct Hinv as (Ha & Hr & Hm & Hb & Hs & Hd & Hn).
  inv_fields.
  split; [exact Ha |]. split; [exact Hr |]. split; [exact Hm |].
  split; [exact Hb |]. split; [discriminate |]. split; [discriminate |].
  intros _; split; reflexivity.
Qed.

Lemma note_signal_inv (chipId : list Z) (rssi snr : Z) (n : Node) :
  node_inv chipId n ->
  node_inv chipId (set_lastSNR snr (set_lastRSSI rssi n)).
Proof. intros Hinv. inv_same. Qed.

Lemma DeviceState_eqb_eq (a b : DeviceState_t) :
  DeviceState_eqb a b = true <-> a = b.
Proof. destruct a, b; cbn; split; intros H; congruence. Qed.

Lemma processRxPacket_inv (chipId : list Z) (now : Z) (rxBuffer : list Z) (n : Node) :
  node_inv chipId n ->
  rebooted (processRxPacket now rxBuffer n) = false ->
  node_inv chipId (processRxPacket now rxBuffer n).
Proof.
  intros Hinv. unfold processRxPacket.
  destruct (_ <? 1); [intros _; exact Hinv |].
  destruct (_ =? PKG_WELCOME).
  { intros _. destruct (_ <=? _); [now apply handleWelcome_inv | exact Hinv]. }
  destruct (_ =? PKG_CMD).
  { destruct (_ && _); [now apply handleCommand_inv | intros _; exact Hinv]. }
  destruct (_ =? PKG_CONFIG); [| intros _; exact Hinv].
  destruct (_ <=? _); cbn [andb]; [| intros _; exact Hinv].
  destruct (DeviceState_eqb _ _) eqn:Est; [| intros _; exact Hinv].
  intros _. apply handleConfig_inv; [exact Hinv | now apply DeviceState_eqb_eq].
Qed.

Lemma receive_inv (chipId : list Z) (now : Z) (buffer : list Z) (rssi snr : Z)
  (n : Node) :
  node_inv chipId n ->
  rebooted (receive now buffer rssi snr n) = false ->
  node_inv chipId (receive now buffer rssi snr n).
Proof.
  intros Hinv. unfold receive.
  destruct (_ && _); [| intros _; exact Hinv].
  apply processRxPacket_inv. now apply note_signal_inv.
Qed.

Lemma loop_inv (chipId : list Z) (currentTime r : Z)
  (rx : option (list Z * Z * Z * Z)) (report_now : Z) (n : Node) :
  node_inv chipId n ->
  rebooted (loop currentTime r rx report_now n) = false ->
  node_inv chipId (loop currentTime r rx report_now n).
Proof.
  intros Hinv. unfold loop.
  set (n1 := match rx with
             | Some (buffer, rssi, snr, rx_now) => receive rx_now buffer rssi snr n
             | None => n
             end).
  destruct (rebooted n1) eqn:Erb; [intros H; rewrite Erb in H; discriminate H |].
  intros _.
  assert (H1 : node_inv chipId n1).
  { subst n1. destruct rx as [[[[buffer rssi] snr] rx_now] |]; [| exact Hinv].
    now apply receive_inv. }
  clearbody n1. clear Hinv.
  destruct (deviceState n1) eqn:Est.
  - destruct H1 as (_ & _ & _ & _ & Hs & _). contradiction.
  - unfold handleDiscoveryMode. destruct (_ <=? _); [| exact H1].
    apply sendHelloPacket_inv in H1. revert H1. generalize (sendHelloPacket n1).
    intros n2 Hinv. inv_same.
  - unfold handleNormalMode.
    assert (H2 : node_inv chipId
                   (if STATUS_REPORT_PERIOD <=? u32 (currentTime - lastStatusTime n1)
                    then set_lastStatusTime currentTime (sendDataPacket report_now n1)
                    else n1)).
    { destruct (_ <=? _); [| exact H1].
      apply (sendDataPacket_inv chipId report_now) in H1. revert H1.
      generalize (sendDataPacket report_now n1). intros n2 Hinv. inv_same. }
    set (n2 := if STATUS_REPORT_PERIOD <=? u32 (currentTime - lastStatusTime n1)
               then set_lastStatusTime currentTime (sendDataPacket report_now n1)
               else n1) in *.
    clearbody n2. destruct (_ <=? _); [| exact H2].
    apply sendHeartbeat_inv in H2. revert H2. generalize (sendHeartbeat n2).
    intros n3 Hinv. inv_same.
Qed.

Lemma setup_inv (chipId : list Z) (now r : Z) (fl : Flash) :
  node_inv chipId (setup chipId now r fl).
Proof.
  destruct fl as [mg id fr sf bw]. unfold setup, loadConfig, initHardware, power_on.
  NodeFacts.nfields.
  destruct (mg =? NVM_MAGIC_VALUE) eqn:Emg; cbn [negb]; NodeFacts.nfields.
  - apply Z.eqb_eq in Emg.
    destruct ((fr <? 863000000) || (870000000 <? fr)) eqn:Ef;
      [| apply orb_false_elim in Ef as [Ef1 Ef2]; apply Z.ltb_ge in Ef1, Ef2];
      NodeFacts.nfields;
      (destruct ((sf <? 7) || (12 <? sf)) eqn:Esf;
       [| apply orb_false_elim in Esf as [Esf1 Esf2]; apply Z.ltb_ge in Esf1, Esf2]);
      NodeFacts.nfields;
      (destruct (2 <? bw) eqn:Ebw; [| apply Z.ltb_ge in Ebw]);
      NodeFacts.nfields;
      (destruct (id =? NODE_ID_UNASSIGNED) eqn:Eid;
       [apply Z.eqb_eq in Eid |]);
      inv_fields;
      (split; [split; [lia | split; reflexivity] |]);
      (split; [unfold LORA_FREQUENCY, LORA_SF, LORA_BW, LORA_CR, LORA_TX_POWER; lia |]);
      (split; [reflexivity |]); (split; [reflexivity |]);
      (split; [discriminate |]);
      (split; [first [intros _; exact Eid | discriminate] |]);
      first [discriminate | intros _; split; [exact Emg | reflexivity]].
  - change (NODE_ID_UNASSIGNED =? NODE_ID_UNASSIGNED) with true. cbv iota.
    inv_fields.
    split; [split; [lia | split; reflexivity] |].
    split; [unfold LORA_FREQUENCY, LORA_SF, LORA_BW, LORA_CR, LORA_TX_POWER; lia |].
    split; [reflexivity |]. split; [reflexivity |].
    split; [discriminate |]. split; [reflexivity | discriminate].
Qed.

Lemma node_step_inv (chipId : list Z) (i : LoopInput) (n : Node) :
  node_inv chipId n -> node_inv chipId (node_step chipId i n).
Proof.
  intros Hinv. unfold node_step.
  destruct (rebooted (loop _ _ _ _ n)) eqn:Erb; [apply setup_inv |].
  now apply loop_inv.
Qed.

Lemma run_node_inv (chipId : list Z) (inputs : list LoopInput) :
  forall n, node_inv chipId n -> node_inv chipId (run_node chipId inputs n).
Proof.
  unfold run_node.
  induction inputs as [| i inputs IH]; intros n Hinv; [exact Hinv |].
  cbn [fold_left]. apply IH. now apply node_step_inv.
Qed.

Lemma generateMAC_bytes (chipId : list Z) :
  length (generateMAC chipId) = MAC_ADDR_LEN /\ Forall is_u8 (generateMAC chipId).
Proof.
  split; [reflexivity |]. unfold generateMAC.
  assert (Hb : forall x, is_u8 (Z.land x 0xFF)).
  { intros x. change 0xFF with (Z.ones 8). rewrite Z.land_ones by lia.
    apply Z.mod_pos_bound. lia. }
  repeat constructor; try apply Hb; unfold is_u8; lia.
Qed.

End NodeInv.

(** X25.  What a node never gets wrong.  Start the firmware over any flash
    contents and run any number of passes of its loop, with any frames
    received and any clock values, reboots included.  At every pass the
    relay pins are driven as the relay bitmap says and the bitmap uses the
    two relay bits only; frequency, spreading factor, bandwidth, coding
    rate and transmit power are inside the ranges the firmware accepts;
    the MAC is the six bytes computed from the chip ID; a node in discovery
    has no ID; and a node in normal mode finds its ID in flash under a valid
    magic byte. *)
Theorem node_state_invariants (chipId : list Z) (t0 r0 : Z)
  (fl : NodeFirmware.Flash) (inputs : list LoopInput) :
  let n := run_node chipId inputs (NodeFirmware.setup chipId t0 r0 fl) in
  relays_agree n
  /\ radio_in_range n
  /\ NodeFirmware.macAddr n = NodeFirmware.generateMAC chipId
  /\ length (NodeFirmware.macAddr n) = MAC_ADDR_LEN
  /\ Forall is_u8 (NodeFirmware.macAddr n)
  /\ NodeFirmware.rebooted n = false
  /\ NodeFirmware.deviceState n <> NodeFirmware.STATE_INIT
  /\ (NodeFirmware.deviceState n = NodeFirmware.STATE_DISCOVERY ->
      NodeFirmware.nodeID n = NODE_ID_UNASSIGNED)
  /\ (NodeFirmware.deviceState n = NodeFirmware.STATE_NORMAL -> id_in_flash n).
Proof.
  cbv zeta.
  destruct (NodeInv.run_node_inv chipId inputs _ (NodeInv.setup_inv chipId t0 r0 fl))
    as (Ha & Hr & Hm & Hb & Hs & Hd & Hn).
  destruct (NodeInv.generateMAC_bytes chipId) as [Hlen Hu8].
  split; [exact Ha |]. split; [exact Hr |]. split; [exact Hm |].
  rewrite Hm.
  split; [exact Hlen |]. split; [exact Hu8 |]. split; [exact Hb |].
  split; [exact Hs |]. split; [exact Hd | exact Hn].
Qed.

(** X26.  Toggling a relay.  [sendRelayToggle] transmits a toggle command
    for the relay number it is given.  A node in normal mode that holds the
    target ID, with its pins and bitmap in agreement, answers relay number 1
    or 2 by flipping that relay's pin and bit and no other, with an Ack of
    status [ERR_NONE]; the same command a second time puts pins and bitmap
    back.  Any other relay number, 3 and 4 included, changes no relay and
    is answered with an Ack of status [ERR_INVALID_PARAM]. *)
Theorem relay_toggle (t t' rssi snr rssi' snr' relayNum : Z) (modem_ok : bool)
  (m : LoRaManager) (n : NodeFirmware.Node) :
  _serial m = true -> _initialized m = true ->
  NodeFirmware.deviceState n = NodeFirmware.STATE_NORMAL ->
  relays_agree n ->
  let id := NodeFirmware.nodeID n in
  let frame := [PKG_CMD; id; CMD_RELAY_TOGGLE; relayNum; 0] in
  let n1 := NodeFirmware.receive t frame rssi snr n in
  let n2 := NodeFirmware.receive t' frame rssi' snr' n1 in
  sendRelayToggle modem_ok id relayNum m = (modem_ok, emit (EvTransmit frame) m)
  /\ (relayNum = 1 \/ relayNum = 2 ->
      NodeFirmware.relayStatus n1
      = Z.lxor (NodeFirmware.relayStatus n) (Z.shiftl 1 (relayNum - 1))
      /\ NodeFirmware.relay_1_pin n1
         = (if relayNum =? 1 then negb (NodeFirmware.relay_1_pin n)
            else NodeFirmware.relay_1_pin n)
      /\ NodeFirmware.relay_2_pin n1
         = (if relayNum =? 2 then negb (NodeFirmware.relay_2_pin n)
            else NodeFirmware.relay_2_pin n)
      /\ relays_agree n1
      /\ NodeFirmware.sent n1
         = NodeFirmware.sent n ++ [[PKG_ACK; id; PKG_CMD; ERR_NONE]]
      /\ NodeFirmware.relayStatus n2 = NodeFirmware.relayStatus n
      /\ NodeFirmware.relay_1_pin n2 = NodeFirmware.relay_1_pin n
      /\ NodeFirmware.relay_2_pin n2 = NodeFirmware.relay_2_pin n)
  /\ (relayNum < 1 \/ 2 < relayNum ->
      NodeFirmware.relayStatus n1 = NodeFirmware.relayStatus n
      /\ NodeFirmware.relay_1_pin n1 = NodeFirmware.relay_1_pin n
      /\ NodeFirmware.relay_2_pin n1 = NodeFirmware.relay_2_pin n
      /\ NodeFirmware.sent n1
         = NodeFirmware.sent n ++ [[PKG_ACK; id; PKG_CMD; ERR_INVALID_PARAM]]).
Proof.
  intros Hs Hi Hst Hag. cbv zeta.
  split; [exact (RelayFacts.sendCommand_transmits modem_ok _ _ _ _ m Hs Hi) |].
  assert (Hrx : forall now rs sn n0,
             NodeFirmware.deviceState n0 = NodeFirmware.STATE_NORMAL ->
             relays_agree n0 ->
             relayNum = 1 \/ relayNum = 2 ->
             NodeFirmware.receive now
               [PKG_CMD; NodeFirmware.nodeID n0; CMD_RELAY_TOGGLE; relayNum; 0] rs sn n0
             = NodeFirmware.sendAckPacket PKG_CMD ERR_NONE
                 (NodeFirmware.set_relayStatus
                    (Z.lxor (NodeFirmware.relayStatus n0) (Z.shiftl 1 (relayNum - 1)))
                    (if relayNum =? 1
                     then NodeFirmware.set_relay_1_pin
                            (negb (NodeFirmware.relay_1_pin n0))
                            (NodeFirmware.set_lastSNR (i8 sn)
                               (NodeFirmware.set_lastRSSI (i8 rs) n0))
                     else NodeFirmware.set_relay_2_pin
                            (negb (NodeFirmware.relay_2_pin n0))
                            (NodeFirmware.set_lastSNR (i8 sn)
                               (NodeFirmware.set_lastRSSI (i8 rs) n0))))).
  { intros now rs sn n0 Hst0 Hag0 Hp.
    rewrite (RelayFacts.receive_command now rs sn CMD_RELAY_TOGGLE relayNum 0 n0 Hst0).
    unfold NodeFirmware.command_switch. cbn [cmd_cmdType cmd_param1].
    change (CMD_RELAY_TOGGLE =? CMD_RELAY_SET) with false.
    change (CMD_RELAY_TOGGLE =? CMD_RELAY_TOGGLE) with true. cbv iota.
    assert (Hin : (1 <=? relayNum) && (relayNum <=? 2) = true)
      by (destruct Hp as [-> | ->]; reflexivity).
    rewrite Hin. cbv zeta.
    rewrite (NodeInv.toggle_eq relayNum
               (NodeFirmware.set_lastSNR (i8 sn) (NodeFirmware.set_lastRSSI (i8 rs) n0)))
      by (exact Hag0 || exact Hp).
    reflexivity. }
  split.
  - intros Hp.
    rewrite (Hrx t rssi snr n Hst Hag Hp).
    set (n1 := NodeFirmware.sendAckPacket PKG_CMD ERR_NONE _).
    assert (Hid1 : NodeFirmware.nodeID n1 = NodeFirmware.nodeID n)
      by (subst n1; destruct Hp as [-> | ->]; reflexivity).
    assert (Hst1 : NodeFirmware.deviceState n1 = NodeFirmware.STATE_NORMAL)
      by (subst n1; destruct Hp as [-> | ->]; exact Hst).
    assert (Hrs1 : NodeFirmware.relayStatus n1
                   = Z.lxor (NodeFirmware.relayStatus n) (Z.shiftl 1 (relayNum - 1)))
      by (subst n1; destruct Hp as [-> | ->]; reflexivity).
    assert (Hp1 : NodeFirmware.relay_1_pin n1
                  = (if relayNum =? 1 then negb (NodeFirmware.relay_1_pin n)
                     else NodeFirmware.relay_1_pin n))
      by (subst n1; destruct Hp as [-> | ->]; reflexivity).
    assert (Hp2 : NodeFirmware.relay_2_pin n1
                  = (if relayNum =? 2 then negb (NodeFirmware.relay_2_pin n)
                     else NodeFirmware.relay_2_pin n))
      by (subst n1; destruct Hp as [-> | ->]; reflexivity).
    assert (Hag1 : relays_agree n1).
    { pose proof (NodeInv.toggle_agree relayNum n Hag Hp) as H.
      revert H. apply NodeInv.relays_agree_ext.
      - rewrite Hrs1. destruct Hp as [-> | ->]; reflexivity.
      - rewrite Hp1. destruct Hp as [-> | ->]; reflexivity.
      - rewrite Hp2. destruct Hp as [-> | ->]; reflexivity. }
    assert (Hsent1 : NodeFirmware.sent n1
                     = NodeFirmware.sent n
                       ++ [[PKG_ACK; NodeFirmware.nodeID n; PKG_CMD; ERR_NONE]])
      by (subst n1; destruct Hp as [-> | ->]; reflexivity).
    clearbody n1.
    split; [exact Hrs1 |]. split; [exact Hp1 |]. split; [exact Hp2 |].
    split; [exact Hag1 |]. split; [exact Hsent1 |].
    rewrite <- Hid1, (Hrx t' rssi' snr' n1 Hst1 Hag1 Hp).
    unfold NodeFirmware.sendAckPacket, NodeFirmware.psend.
    split; [| split].
    + destruct Hp as [-> | ->]; cbn [Z.eqb Pos.eqb]; NodeFacts.nfields;
        rewrite Hrs1, Z.lxor_assoc, Z.lxor_nilpotent, Z.lxor_0_r; reflexivity.
    + destruct Hp as [-> | ->]; cbn [Z.eqb Pos.eqb] in *; NodeFacts.nfields;
        rewrite Hp1, ?negb_involutive; reflexivity.
    + destruct Hp as [-> | ->]; cbn [Z.eqb Pos.eqb] in *; NodeFacts.nfields;
        rewrite Hp2, ?negb_involutive; reflexivity.
  - intros Hp.
    rewrite (RelayFacts.receive_command t rssi snr CMD_RELAY_TOGGLE relayNum 0 n Hst).
    unfold NodeFirmware.command_switch. cbn [cmd_cmdType cmd_param1].
    change (CMD_RELAY_TOGGLE =? CMD_RELAY_SET) with false.
    change (CMD_RELAY_TOGGLE =? CMD_RELAY_TOGGLE) with true. cbv iota.
    assert (Hout : (1 <=? relayNum) && (relayNum <=? 2) = false).
    { apply andb_false_iff. destruct Hp as [Hp | Hp];
        [left; apply Z.leb_gt | right; apply Z.leb_gt]; lia. }
    rewrite Hout. repeat (split; [reflexivity |]). reflexivity.
Qed.

Lemma relay_toggle_witness :
  let frame := [PKG_CMD; 1; CMD_RELAY_TOGGLE; 2; 0] in
  let n1 := NodeFirmware.receive 9000 frame (-50) 10 joined_node in
  sendRelayToggle true 1 2 paired_manager
  = (true, emit (EvTransmit frame) paired_manager)
  /\ NodeFirmware.relayStatus n1 = 2
  /\ NodeFirmware.relay_2_pin n1 = true
  /\ NodeFirmware.relayStatus (NodeFirmware.receive 9500 frame (-52) 9 n1) = 0.
Proof.
  cbv zeta.
  destruct (relay_toggle 9000 9500 (-50) 10 (-52) 9 2 true paired_manager joined_node)
    as (Hsend & Hflip & _); try reflexivity.
  - split; [split; vm_compute; discriminate | split; reflexivity].
  - destruct Hflip as (H1 & _ & H2 & _ & _ & H3 & _); [right; reflexivity |].
    split; [exact Hsend |]. split; [exact H1 |]. split; [exact H2 | exact H3].
Defined.

(** X27.  Frames a node does not act on.  A frame that is empty or longer
    than [MAX_PACKET_SIZE] is dropped unseen.  A frame of any other type
    than Welcome, Command and Config (the Hello, Ack, Data and Heartbeat
    frames of other nodes, say), a Welcome that is too short, carries
    another MAC or arrives outside discovery, and a Command or Config that
    is too short, arrives outside normal mode or targets neither the node's
    ID nor the broadcast ID: all of these leave the node as it was, apart
    from the RSSI and SNR noted for the frame.  Nothing is transmitted,
    no relay moves, and ID, mode and flash stay. *)
Theorem node_ignores_foreign_frames (now rssi snr : Z) (frame : list Z)
  (n : NodeFirmware.Node) :
  let n1 := NodeFirmware.receive now frame rssi snr n in
  let heard :=
    NodeFirmware.set_lastSNR (i8 snr) (NodeFirmware.set_lastRSSI (i8 rssi) n) in
  let pktType := byte_at frame 0 in
  let len := Z.of_nat (length frame) in
  (len = 0 \/ MAX_PACKET_SIZE < len -> n1 = n)
  /\ (0 < len <= MAX_PACKET_SIZE ->
      (pktType <> PKG_WELCOME /\ pktType <> PKG_CMD /\ pktType <> PKG_CONFIG)
      \/ (pktType = PKG_WELCOME
          /\ (len < sizeof_WelcomePacket_t
              \/ NodeFirmware.deviceState n <> NodeFirmware.STATE_DISCOVERY
              \/ memcmp (map (byte_at frame) (seq 1 MAC_ADDR_LEN))
                   (NodeFirmware.macAddr n) MAC_ADDR_LEN <> 0))
      \/ (pktType = PKG_CMD
          /\ (len < sizeof_CommandPacket_t
              \/ NodeFirmware.deviceState n <> NodeFirmware.STATE_NORMAL
              \/ (byte_at frame 1 <> NodeFirmware.nodeID n
                  /\ byte_at frame 1 <> NODE_ID_BROADCAST)))
      \/ (pktType = PKG_CONFIG
          /\ (len < NodeFirmware.sizeof_ConfigPacket_t
              \/ NodeFirmware.deviceState n <> NodeFirmware.STATE_NORMAL
              \/ (byte_at frame 1 <> NodeFirmware.nodeID n
                  /\ byte_at frame 1 <> NODE_ID_BROADCAST))) ->
      n1 = heard).
Proof.
  cbv zeta. unfold NodeFirmware.receive. split.
  - intros [H0 | Hbig].
    + rewrite H0. reflexivity.
    + rewrite (proj2 (Z.leb_gt _ _) Hbig), andb_false_r. reflexivity.
  - intros [Hpos Hmax].
    rewrite (proj2 (Z.ltb_lt _ _) Hpos), (proj2 (Z.leb_le _ _) Hmax). cbn [andb].
    unfold NodeFirmware.processRxPacket.
    rewrite (proj2 (Z.ltb_ge _ _)) by lia.
    intros [(Hw & Hc & Hg) | [(Hw & Hwhy) | [(Hc & Hwhy) | (Hg & Hwhy)]]].
    + rewrite (proj2 (Z.eqb_neq _ _) Hw), (proj2 (Z.eqb_neq _ _) Hc),
        (proj2 (Z.eqb_neq _ _) Hg). reflexivity.
    + rewrite Hw. change (PKG_WELCOME =? PKG_WELCOME) with true. cbv iota.
      destruct (Z.leb_spec sizeof_WelcomePacket_t (Z.of_nat (length frame)))
        as [Hlen | Hlen]; [| reflexivity].
      unfold NodeFirmware.handleWelcome, NodeFirmware.as_WelcomePacket.
      cbn [welcome_targetMac]. NodeFacts.nfields.
      destruct Hwhy as [Hshort | [Hst | Hmac]]; [lia | |].
      * destruct (negb (memcmp _ _ _ =? 0)); [reflexivity |].
        destruct (NodeFirmware.DeviceState_eqb _ _) eqn:E; [| reflexivity].
        apply NodeInv.DeviceState_eqb_eq in E. contradiction.
      * rewrite (proj2 (Z.eqb_neq _ _) Hmac). reflexivity.
    + rewrite Hc. change (PKG_CMD =? PKG_WELCOME) with false.
      change (PKG_CMD =? PKG_CMD) with true. cbv iota. NodeFacts.nfields.
      destruct (Z.leb_spec sizeof_CommandPacket_t (Z.of_nat (length frame)))
        as [Hlen | Hlen]; [| reflexivity].
      destruct (NodeFirmware.DeviceState_eqb _ _) eqn:E; [| reflexivity].
      apply NodeInv.DeviceState_eqb_eq in E. cbn [andb].
      destruct Hwhy as [Hshort | [Hst | [Hid Hbc]]]; [lia | contradiction |].
      unfold NodeFirmware.handleCommand, NodeFirmware.as_CommandPacket.
      cbn [cmd_targetID]. NodeFacts.nfields.
      rewrite (proj2 (Z.eqb_neq _ _) Hid), (proj2 (Z.eqb_neq _ _) Hbc). reflexivity.
    + rewrite Hg. change (PKG_CONFIG =? PKG_WELCOME) with false.
      change (PKG_CONFIG =? PKG_CMD) with false.
      change (PKG_CONFIG =? PKG_CONFIG) with true. cbv iota. NodeFacts.nfields.
      destruct (Z.leb_spec NodeFirmware.sizeof_ConfigPacket_t (Z.of_nat (length frame)))
        as [Hlen | Hlen]; [| reflexivity].
      destruct (NodeFirmware.DeviceState_eqb _ _) eqn:E; [| reflexivity].
      apply NodeInv.DeviceState_eqb_eq in E. cbn [andb].
      destruct Hwhy as [Hshort | [Hst | [Hid Hbc]]]; [lia | contradiction |].
      unfold NodeFirmware.handleConfig, NodeFirmware.as_ConfigPacket.
      cbn [cfg_targetID]. NodeFacts.nfields.
      rewrite (proj2 (Z.eqb_neq _ _) Hid), (proj2 (Z.eqb_neq _ _) Hbc). reflexivity.
Qed.

(** X28.  Reset and factory reset.  [sendResetCommand] transmits a reset
    command.  A node in normal mode with its ID in flash acknowledges it
    under its ID and reboots; when the firmware has started again it is in
    normal mode under the same ID and MAC, with both relays off.  A factory
    reset command switches the relays off, clears magic byte and ID in
    flash, is acknowledged under the ID 0 and reboots the node into
    discovery without an ID. *)
Theorem reset_and_factory_reset (chipId : list Z)
  (t t_rx t_report t_boot r rssi snr p1 p2 : Z)
  (modem_ok : bool) (m : LoRaManager) (n : NodeFirmware.Node) :
  _serial m = true -> _initialized m = true ->
  NodeFirmware.deviceState n = NodeFirmware.STATE_NORMAL ->
  NodeFirmware.nodeID n <> NODE_ID_UNASSIGNED ->
  NodeFirmware.macAddr n = NodeFirmware.generateMAC chipId ->
  id_in_flash n ->
  let id := NodeFirmware.nodeID n in
  let reset := [PKG_CMD; id; CMD_RESET; 0; 0] in
  let factory := [PKG_CMD; id; CMD_FACTORY_RESET; p1; p2] in
  sendResetCommand modem_ok id m = (modem_ok, emit (EvTransmit reset) m)
  /\ (let rx := Some (reset, rssi, snr, t_rx) in
      let n1 := NodeFirmware.loop t r rx t_report n in
      let n2 := node_step chipId (mkLoopInput t r rx t_report t_boot) n in
      NodeFirmware.rebooted n1 = true
      /\ NodeFirmware.sent n1
         = NodeFirmware.sent n ++ [[PKG_ACK; id; PKG_CMD; ERR_NONE]]
      /\ NodeFirmware.deviceState n2 = NodeFirmware.STATE_NORMAL
      /\ NodeFirmware.nodeID n2 = id
      /\ NodeFirmware.macAddr n2 = NodeFirmware.macAddr n
      /\ NodeFirmware.relayStatus n2 = 0
      /\ NodeFirmware.relay_1_pin n2 = false
      /\ NodeFirmware.relay_2_pin n2 = false)
  /\ (let rx := Some (factory, rssi, snr, t_rx) in
      let n1 := NodeFirmware.loop t r rx t_report n in
      let n2 := node_step chipId (mkLoopInput t r rx t_report t_boot) n in
      NodeFirmware.rebooted n1 = true
      /\ NodeFirmware.sent n1
         = NodeFirmware.sent n ++ [[PKG_ACK; NODE_ID_UNASSIGNED; PKG_CMD; ERR_NONE]]
      /\ NodeFirmware.relay_1_pin n1 = false
      /\ NodeFirmware.relay_2_pin n1 = false
      /\ NodeFirmware.nvm_magic (NodeFirmware.flash n1) = 0
      /\ NodeFirmware.deviceState n2 = NodeFirmware.STATE_DISCOVERY
      /\ NodeFirmware.nodeID n2 = NODE_ID_UNASSIGNED
      /\ NodeFirmware.macAddr n2 = NodeFirmware.macAddr n).
Proof.
  intros Hs Hi Hst Hid Hmac [Hmagic Hflid]. cbv zeta.
  split; [exact (RelayFacts.sendCommand_transmits modem_ok _ _ _ _ m Hs Hi) |].
  split.
  - unfold node_step. cbn [in_currentTime in_random in_rx in_reportTime in_bootTime].
    unfold NodeFirmware.loop.
    rewrite (RelayFacts.receive_command t_rx rssi snr CMD_RESET 0 0 n Hst).
    unfold NodeFirmware.command_switch. cbn [cmd_cmdType].
    change (CMD_RESET =? CMD_RELAY_SET) with false.
    change (CMD_RESET =? CMD_RELAY_TOGGLE) with false.
    change (CMD_RESET =? CMD_RESET) with true. cbv iota. NodeFacts.nfields.
    split; [reflexivity |]. split; [reflexivity |].
    unfold NodeFirmware.setup, NodeFirmware.loadConfig, NodeFirmware.initHardware,
      NodeFirmware.power_on.
    NodeFacts.nfields. rewrite Hmagic, Hflid.
    change (NodeFirmware.NVM_MAGIC_VALUE =? NodeFirmware.NVM_MAGIC_VALUE) with true.
    cbn [negb].
    destruct ((_ <? 863000000) || _); NodeFacts.nfields;
      destruct ((_ <? 7) || _); NodeFacts.nfields;
      destruct (2 <? _); NodeFacts.nfields;
      rewrite (proj2 (Z.eqb_neq _ _) Hid); NodeFacts.nfields;
      (split; [reflexivity |]); (split; [reflexivity |]);
      (split; [symmetry; exact Hmac |]); repeat (split; [reflexivity |]);
      reflexivity.
  - unfold node_step. cbn [in_currentTime in_random in_rx in_reportTime in_bootTime].
    unfold NodeFirmware.loop.
    rewrite (RelayFacts.receive_command t_rx rssi snr CMD_FACTORY_RESET p1 p2 n Hst).
    unfold NodeFirmware.command_switch. cbn [cmd_cmdType].
    change (CMD_FACTORY_RESET =? CMD_RELAY_SET) with false.
    change (CMD_FACTORY_RESET =? CMD_RELAY_TOGGLE) with false.
    change (CMD_FACTORY_RESET =? CMD_RESET) with false.
    change (CMD_FACTORY_RESET =? CMD_FACTORY_RESET) with true. cbv iota zeta.
    rewrite RelayFacts.applyRelayBitmap_eq. NodeFacts.nfields.
    split; [reflexivity |]. split; [reflexivity |].
    split; [reflexivity |]. split; [reflexivity |]. split; [reflexivity |].
    unfold NodeFirmware.setup, NodeFirmware.loadConfig, NodeFirmware.initHardware,
      NodeFirmware.power_on.
    NodeFacts.nfields.
    change (0 =? NodeFirmware.NVM_MAGIC_VALUE) with false. cbn [negb].
    NodeFacts.nfields.
    change (NODE_ID_UNASSIGNED =? NODE_ID_UNASSIGNED) with true. cbv iota.
    NodeFacts.nfields.
    split; [reflexivity |]. split; [reflexivity |]. symmetry. exact Hmac.
Qed.

Lemma reset_and_factory_reset_witness :
  let n2 := node_step sample_chipId
              (mkLoopInput 9000 0 (Some ([PKG_CMD; 1; CMD_RESET; 0; 0], -50, 10, 9001))
                 9002 2000)
              joined_node in
  let n3 := node_step sample_chipId
              (mkLoopInput 9000 0
                 (Some ([PKG_CMD; 1; CMD_FACTORY_RESET; 0; 0], -50, 10, 9001))
                 9002 2000)
              joined_node in
  NodeFirmware.deviceState n2 = NodeFirmware.STATE_NORMAL
  /\ NodeFirmware.nodeID n2 = 1
  /\ NodeFirmware.deviceState n3 = NodeFirmware.STATE_DISCOVERY
  /\ NodeFirmware.nodeID n3 = 0.
Proof.
  cbv zeta.
  destruct (reset_and_factory_reset sample_chipId 9000 9001 9002 2000 0 (-50) 10 0 0 true
              paired_manager joined_node)
    as (_ & (_ & _ & H1 & H2 & _) & (_ & _ & _ & _ & _ & H3 & H4 & _));
    try reflexivity.
  - vm_compute. discriminate.
  - split; reflexivity.
  - split; [exact H1 |]. split; [exact H2 |]. split; [exact H3 | exact H4].
Defined.

(** X29.  Discovery, both ends.  A node in discovery whose Hello interval
    has elapsed sends one Hello frame with its MAC in a pass of its loop
    and draws the next interval from 10 s up to, not including, 30 s.  A
    gateway that is scanning, has room in the discovered list and knows the
    MAC neither as discovered nor as registered appends one entry with that
    MAC, the device type of the two-relay node and the firmware version
    [0x10].  A gateway that is not scanning, or that still has the MAC
    registered (a node that was factory-reset, say), ignores the frame. *)
Theorem hello_discovery (currentTime r report_now t' : Z)
  (n : NodeFirmware.Node) (m : LoRaManager) :
  NodeFirmware.deviceState n = NodeFirmware.STATE_DISCOVERY ->
  NodeFirmware.rebooted n = false ->
  NodeFirmware.nextHelloInterval n
    <= u32 (currentTime - NodeFirmware.lastHelloTime n) ->
  length (NodeFirmware.macAddr n) = MAC_ADDR_LEN ->
  let n1 := NodeFirmware.loop currentTime r None report_now n in
  let mac := NodeFirmware.macAddr n in
  exists hello,
    NodeFirmware.sent n1 = NodeFirmware.sent n ++ [hello]
    /\ length hello = Z.to_nat sizeof_HelloPacket_t
    /\ NodeFirmware.lastHelloTime n1 = currentTime
    /\ NodeFirmware.DISCOVERY_MIN_INTERVAL <= NodeFirmware.nextHelloInterval n1
       < NodeFirmware.DISCOVERY_MAX_INTERVAL
    /\ NodeFirmware.deviceState n1 = NodeFirmware.STATE_DISCOVERY
    /\ (_scanMode m = true ->
        _isDuplicateDiscovered mac m = false ->
        mac_in_use mac (_registeredNodes m) = false ->
        Z.of_nat (length (_discoveredNodes m)) < MAX_DISCOVERED_NODES ->
        _discoveredNodes (_handlePacket t' hello m)
        = _discoveredNodes m
          ++ [mkDiscoveredNode mac DEV_TYPE_RELAY_2CH 0x10 (-50) 10 t' true])
    /\ (_scanMode m = false \/ mac_in_use mac (_registeredNodes m) = true ->
        _handlePacket t' hello m = m).
Proof.
  intros Hst Hrb Hdue Hlen. cbv zeta.
  destruct (NodeFirmware.macAddr n) as [| a [| b [| c [| d [| e [| f [| g mac]]]]]]]
    eqn:Emac; try discriminate Hlen.
  exists [PKG_HELLO; a; b; c; d; e; f; DEV_TYPE_RELAY_2CH; 0x10].
  apply Z.leb_le in Hdue.
  unfold NodeFirmware.loop. rewrite Hrb, Hst.
  unfold NodeFirmware.handleDiscoveryMode. rewrite Hdue.
  unfold NodeFirmware.sendHelloPacket. NodeFacts.nfields. rewrite Emac.
  change (memcpy [a; b; c; d; e; f] MAC_ADDR_LEN) with [a; b; c; d; e; f].
  split; [reflexivity |]. split; [reflexivity |]. split; [reflexivity |].
  split.
  { unfold NodeFirmware.getRandomInterval, NodeFirmware.DISCOVERY_MIN_INTERVAL,
      NodeFirmware.DISCOVERY_MAX_INTERVAL.
    pose proof (Z.mod_pos_bound r (30000 - 10000) ltac:(lia)). lia. }
  split; [exact Hst |].
  change (_handlePacket t' [PKG_HELLO; a; b; c; d; e; f; DEV_TYPE_RELAY_2CH; 0x10] m)
    with (_handleHello t'
            (mkHello PKG_HELLO [a; b; c; d; e; f] DEV_TYPE_RELAY_2CH 0x10) (-50) 10 m).
  unfold _handleHello. cbn [hello_macAddr]. split.
  - intros Hscan Hdup Hreg Hroom.
    rewrite Hscan, Hdup, isNodeRegistered_mac_in_use, Hreg. cbn [negb].
    unfold _addDiscoveredNode. rewrite (proj2 (Z.leb_gt _ _) Hroom).
    unfold discovered_of_hello. cbn [hello_macAddr hello_deviceType hello_fwVersion].
    change (memcpy [a; b; c; d; e; f] MAC_ADDR_LEN) with [a; b; c; d; e; f].
    destruct (_nodeDiscoveredCallback _); reflexivity.
  - intros [Hscan | Hreg].
    + rewrite Hscan. reflexivity.
    + rewrite isNodeRegistered_mac_in_use, Hreg.
      destruct (negb (_scanMode m)); [reflexivity |].
      destruct (_isDuplicateDiscovered _ m); reflexivity.
Qed.

Lemma hello_discovery_witness :
  exists hello,
    NodeFirmware.sent (NodeFirmware.loop 12000 7 None 12000 fresh_node) = [hello]
    /\ map d_macAddr
         (_discoveredNodes (_handlePacket 12500 hello (startScan 0 60000 ready_manager)))
       = [NodeFirmware.generateMAC sample_chipId].
Proof.
  destruct (hello_discovery 12000 7 12000 12500 fresh_node
              (startScan 0 60000 ready_manager))
    as (hello & Hsent & _ & _ & _ & _ & Hadd & _); try reflexivity.
  - vm_compute. discriminate.
  - exists hello. split; [exact Hsent |].
    rewrite Hadd; reflexivity.
Defined.

Module MqttFacts.

Lemma u8_bit (x j : Z) : 0 <= j < 8 -> Z.testbit (u8 x) j = Z.testbit x j.
Proof.
  intros Hj. unfold u8. change 256 with (2 ^ 8).
  apply Z.mod_pow2_bits_low. lia.
Qed.

(** A relay key of the message decides its own bit and leaves the other
    bits of the byte alone. *)
Lemma relay_key_bit (as_bool : Json -> bool) (payload : Json) (key : string)
  (k j s : Z) :
  0 <= k < 8 -> 0 <= j < 8 ->
  Z.testbit (relay_key as_bool payload key (Z.shiftl 1 k) s) j
  = if containsKey key payload && (j =? k)
    then as_bool (member key payload)
    else Z.testbit s j.
Proof.
  intros Hk Hj. unfold relay_key. rewrite Z.shiftl_1_l.
  destruct (containsKey key payload); [| reflexivity]. cbn [andb].
  destruct (as_bool (member key payload)); rewrite u8_bit by exact Hj.
  - rewrite Z.lor_spec, Z.pow2_bits_eqb by lia.
    rewrite (Z.eqb_sym k j). destruct (j =? k); [apply orb_true_r | apply orb_false_r].
  - rewrite Z.land_spec, Z.lnot_spec, Z.pow2_bits_eqb by lia.
    rewrite (Z.eqb_sym k j). destruct (j =? k); [apply andb_false_r | apply andb_true_r].
Qed.

End MqttFacts.

(** X30.  Single-relay messages from MQTT.  Take a command message that
    names individual relays ([relay1] to [relay4], without [relay] or
    [toggle]) for a registered node, on an initialised gateway.  One relay
    command is transmitted and the registry is not touched.  At the node in
    normal mode that holds the ID, each of the two relays that the message
    names is driven as the message says; a relay the message does not name
    is driven to the state the gateway last recorded for it, whatever the
    node itself had; and [relay3] and [relay4] move nothing. *)
Theorem mqtt_individual_relays (as_bool : Json -> bool) (as_uint8 : Json -> Z)
  (as_String : Json -> string) (t rssi snr : Z) (modem_ok : bool) (payload : Json)
  (m : LoRaManager) (n : NodeFirmware.Node) (node : RegisteredNode) :
  _serial m = true -> _initialized m = true ->
  containsKey "relay" payload = false ->
  containsKey "toggle" payload = false ->
  containsKey "relay1" payload || containsKey "relay2" payload
  || containsKey "relay3" payload || containsKey "relay4" payload = true ->
  getNodeByID (NodeFirmware.nodeID n) m = Some node ->
  NodeFirmware.deviceState n = NodeFirmware.STATE_NORMAL ->
  let m1 := onMQTTMessage_cmd as_bool as_uint8 as_String modem_ok
              (NodeFirmware.nodeID n) payload m in
  exists frame,
    _events m1 = _events m ++ [EvTransmit frame]
    /\ _registeredNodes m1 = _registeredNodes m
    /\ let n1 := NodeFirmware.receive t frame rssi snr n in
       NodeFirmware.relay_1_pin n1
       = (if containsKey "relay1" payload then as_bool (member "relay1" payload)
          else Z.testbit (relayStatus node) 0)
       /\ NodeFirmware.relay_2_pin n1
          = (if containsKey "relay2" payload then as_bool (member "relay2" payload)
             else Z.testbit (relayStatus node) 1)
       /\ relays_agree n1
       /\ NodeFirmware.sent n1
          = NodeFirmware.sent n
            ++ [[PKG_ACK; NodeFirmware.nodeID n; PKG_CMD; ERR_NONE]].
Proof.
  intros Hs Hi Hrelay Htoggle Hkeys Hnode Hst. cbv zeta.
  unfold onMQTTMessage_cmd. rewrite Hrelay, Htoggle, Hkeys, Hnode. cbv zeta.
  set (newStatus := relay_key as_bool payload "relay4" RELAY_4_BIT _).
  exists [PKG_CMD; NodeFirmware.nodeID n; CMD_RELAY_SET; newStatus; 0].
  unfold sendRelayCommand.
  rewrite (RelayFacts.sendCommand_transmits modem_ok _ _ _ _ m Hs Hi).
  split; [reflexivity |]. split; [reflexivity |].
  rewrite (RelayFacts.receive_command t rssi snr CMD_RELAY_SET newStatus 0 n Hst).
  unfold NodeFirmware.command_switch. cbn [cmd_cmdType cmd_param1].
  change (CMD_RELAY_SET =? CMD_RELAY_SET) with true. cbv iota.
  assert (Hbit : forall j, 0 <= j < 2 ->
             Z.testbit newStatus j
             = if containsKey (if j =? 0 then "relay1" else "relay2") payload
               then as_bool (member (if j =? 0 then "relay1" else "relay2") payload)
               else Z.testbit (relayStatus node) j).
  { intros j Hj. subst newStatus. unfold RELAY_1_BIT, RELAY_2_BIT, RELAY_3_BIT, RELAY_4_BIT.
    rewrite !MqttFacts.relay_key_bit by lia.
    assert (j = 0 \/ j = 1) as [-> | ->] by lia;
      cbn [Z.eqb Pos.eqb andb]; rewrite ?andb_false_r, ?andb_true_r; reflexivity. }
  split; [| split; [| split]].
  - rewrite RelayFacts.applyRelayBitmap_eq. NodeFacts.nfields. exact (Hbit 0 ltac:(lia)).
  - rewrite RelayFacts.applyRelayBitmap_eq. NodeFacts.nfields. exact (Hbit 1 ltac:(lia)).
  - pose proof (RelayFacts.applyRelayBitmap_agree newStatus
                  (NodeFirmware.set_lastSNR (i8 snr)
                     (NodeFirmware.set_lastRSSI (i8 rssi) n))) as H.
    exact H.
  - rewrite RelayFacts.applyRelayBitmap_eq. reflexivity.
Qed.

Lemma mqtt_individual_relays_witness :
  exists frame,
    _events (onMQTTMessage_cmd sample_as_bool sample_as_uint8 sample_as_String true 1
               (JObj [("relay2", JBool true)]) paired_manager)
    = _events paired_manager ++ [EvTransmit frame]
    /\ NodeFirmware.relay_1_pin (NodeFirmware.receive 9000 frame (-50) 10 joined_node)
       = false
    /\ NodeFirmware.relay_2_pin (NodeFirmware.receive 9000 frame (-50) 10 joined_node)
       = true.
Proof.
  destruct (getNodeByID 1 paired_manager) as [node |] eqn:Hnode;
    [| vm_compute in Hnode; discriminate Hnode].
  destruct (mqtt_individual_relays sample_as_bool sample_as_uint8 sample_as_String
              9000 (-50) 10 true (JObj [("relay2", JBool true)]) paired_manager
              joined_node node)
    as (frame & Hev & _ & H1 & H2 & _); try reflexivity.
  - exact Hnode.
  - exists frame. split; [exact Hev |].
    split; [rewrite H1 | rewrite H2]; cbn [containsKey existsb fst String.eqb];
      try reflexivity.
    vm_compute in Hnode. injection Hnode as <-. reflexivity.
Defined.
